(** * SkyWeave: the weather-image request pipeline, embedded and verified

    A shallow embedding of the Go sources of skyweave (weather.go, replicate.go,
    handlers.go, database.go, as concatenated in [src/main.go] and
    [src/handlers.go]) together with the properties of the pipeline.

    Conventions of the embedding.
    - Go [int] is a 64-bit two's complement integer: a [Z] whose additions
      are wrapped by [wrap64].
    - Go [float64] values are represented by exact rationals [Q]: rounding
      error is abstracted, comparisons and the decimal formatting verbs act
      on the exact value.  Conversions [float64(i)] and [int(f)] are the
      injection and the truncation toward zero.
    - Go strings are byte strings ([string] of [ascii]).
    - [time.Time] is an instant counted in nanoseconds since the Unix epoch;
      the process runs in UTC.
    - Code that talks to the outside world (HTTP, the SQL store, the clock,
      the transform provider) is written in a small free monad [prog] whose
      nodes are the effects; it is run either against scripted oracles
      ([run]) or under every possible answer ([wp], [sys_step]). *)

From Stdlib Require Import ZArith QArith Qround Qabs Lia Lqa String Ascii.
From Stdlib Require Import DecimalString DecimalN DecimalPos.
From stdpp Require Import base strings gmap list.

Local Open Scope Z_scope.
Set Warnings "-register-all".

(** ** Machine numbers *)

Module Num.

(** Go [int] on 64-bit targets. *)
Definition wrap64 (z : Z) : Z := (z + 2 ^ 63) mod 2 ^ 64 - 2 ^ 63.

Definition int_add (a b : Z) : Z := wrap64 (a + b).

Definition in_int64 (z : Z) : Prop := - 2 ^ 63 <= z < 2 ^ 63.

(** [float64(i)]. *)
Definition float64_of_int (i : Z) : Q := inject_Z i.

(** [int(f)]: the fractional part is discarded (truncation toward zero). *)
Definition int_of_float64 (f : Q) : Z := Z.quot (Qnum f) (Zpos (Qden f)).

Definition Qltb (x y : Q) : bool := negb (Qle_bool y x).

(** Rounding of a non-negative rational to the nearest integer, ties to
    the even neighbour: the rounding of Go's decimal formatting. *)
Definition round_half_even (q : Q) : Z :=
  let f := Qfloor q in
  match Qcompare (q - inject_Z f) (1 # 2) with
  | Lt => f
  | Gt => f + 1
  | Eq => if Z.even f then f else f + 1
  end.

End Num.

(** ** Strings and formatting verbs *)

Module Str.

(** Decimal digits of a non-negative integer ([%d] on a natural). *)
Definition decimal (z : Z) : string := NilZero.string_of_uint (N.to_uint (Z.to_N z)).

(** [%d]. *)
Definition format_int (z : Z) : string :=
  if z <? 0 then "-" +:+ decimal (- z) else decimal z.

Fixpoint zeros (n : nat) : string :=
  match n with O => "" | S n' => String "0" (zeros n') end.

(** Left padding with zeros up to [width] bytes. *)
Definition pad0 (width : nat) (s : string) : string :=
  zeros (width - String.length s) +:+ s.

(** [%.<prec>f]: sign, integral digits, and exactly [prec] fractional
    digits of the value rounded half-to-even at that position. *)
Definition format_float (prec : nat) (f : Q) : string :=
  let scale := 10 ^ Z.of_nat prec in
  let scaled := Num.round_half_even (Qabs f * inject_Z scale) in
  let sign := if Num.Qltb f 0 then "-" else "" in
  let frac := match prec with
              | O => ""
              | S _ => "." +:+ pad0 prec (decimal (scaled mod scale))
              end in
  sign +:+ decimal (scaled / scale) +:+ frac.

(** [strings.HasPrefix]. *)
Fixpoint has_prefix (p s : string) : bool :=
  match p, s with
  | EmptyString, _ => true
  | String a p', String b s' => if Ascii.eqb a b then has_prefix p' s' else false
  | String _ _, EmptyString => false
  end.

(** [strings.Contains]. *)
Fixpoint containsb (s sub : string) : bool :=
  has_prefix sub s ||
  match s with
  | EmptyString => false
  | String _ s' => containsb s' sub
  end.

Definition contains (s sub : string) : Prop :=
  exists a b : string, s = a +:+ sub +:+ b.

Definition is_digit (c : ascii) : bool :=
  let n := Z.of_nat (nat_of_ascii c) in (48 <=? n) && (n <=? 57).

Definition is_alpha (c : ascii) : bool :=
  let n := Z.of_nat (nat_of_ascii c) in
  ((65 <=? n) && (n <=? 90)) || ((97 <=? n) && (n <=? 122)).

Definition hex_digit (n : Z) : ascii :=
  ascii_of_nat (Z.to_nat (if n <? 10 then 48 + n else 55 + n)).

(** [url.QueryEscape]: unreserved bytes are kept, a space becomes [+],
    every other byte is percent-encoded with upper-case hex digits. *)
Definition escape_byte (c : ascii) : string :=
  let n := Z.of_nat (nat_of_ascii c) in
  if is_digit c || is_alpha c || (n =? 45) || (n =? 95) || (n =? 46) || (n =? 126)
  then String c ""
  else if n =? 32 then "+"
  else String "%" (String (hex_digit (n / 16)) (String (hex_digit (n mod 16)) "")).

Fixpoint QueryEscape (s : string) : string :=
  match s with
  | EmptyString => ""
  | String c s' => escape_byte c +:+ QueryEscape s'
  end.

(** The bytes of the degree sign followed by [C]. *)
Definition degC : string := String "194" (String "176" "C").

End Str.

(** ** Time *)

Module Time.

(** An instant: nanoseconds since 1970-01-01T00:00:00Z. *)
Definition t := Z.

Definition Second : Z := 1000000000.
Definition Hour : Z := 3600 * Second.
Definition Day : Z := 24 * Hour.

Definition minDuration : Z := - 2 ^ 63.
Definition maxDuration : Z := 2 ^ 63 - 1.

(** Days since the epoch of the proleptic Gregorian date [y]-[m]-[d];
    linear in [d], so a day past the end of the month runs into the
    next one, as [time.Date] normalises it. *)
Definition days_from_civil (y m d : Z) : Z :=
  let y' := if m <=? 2 then y - 1 else y in
  let era := y' / 400 in
  let yoe := y' - era * 400 in
  let mp := if m <=? 2 then m + 9 else m - 3 in
  let doy := (153 * mp + 2) / 5 + d - 1 in
  let doe := yoe * 365 + yoe / 4 - yoe / 100 + doy in
  era * 146097 + doe - 719468.

(** [t.Date()] on a day count. *)
Definition civil_from_days (z : Z) : Z * Z * Z :=
  let z' := z + 719468 in
  let era := z' / 146097 in
  let doe := z' - era * 146097 in
  let yoe := (doe - doe / 1460 + doe / 36524 - doe / 146096) / 365 in
  let doy := doe - (365 * yoe + yoe / 4 - yoe / 100) in
  let mp := (5 * doy + 2) / 153 in
  let d := doy - (153 * mp + 2) / 5 + 1 in
  let m := if mp <? 10 then mp + 3 else mp - 9 in
  let y := yoe + era * 400 + (if m <=? 2 then 1 else 0) in
  (y, m, d).

(** [time.Date(y, m, d, 0, 0, 0, 0, time.UTC)] plus a time of day given
    in nanoseconds; months outside 1..12 carry into the year. *)
Definition Date (y m d : Z) (nanos_of_day : Z) : t :=
  let m0 := m - 1 in
  days_from_civil (y + m0 / 12) (m0 mod 12 + 1) d * Day + nanos_of_day.

(** [t.AddDate(years, months, days)]: the calendar fields are shifted and
    renormalised, the time of day is kept. *)
Definition AddDate (x : t) (years months days : Z) : t :=
  let '(y, m, d) := civil_from_days (x / Day) in
  Date (y + years) (m + months) (d + days) (x mod Day).

Definition Before (x y : t) : bool := x <? y.
Definition After (x y : t) : bool := y <? x.

(** [t.Sub(u)]: a Duration in nanoseconds, saturating at the int64 range. *)
Definition Sub (x y : t) : Z :=
  let d := x - y in
  if d <? minDuration then minDuration
  else if maxDuration <? d then maxDuration
  else d.

(** [d.Hours()]. *)
Definition Hours (d : Z) : Q :=
  (Num.float64_of_int (Z.quot d Hour)
   + Num.float64_of_int (Z.rem d Hour) / inject_Z Hour)%Q.

(** [t.Unix()]. *)
Definition Unix (x : t) : Z := x / Second.

(** [t.Format("2006-01-02")]. *)
Definition format_date (x : t) : string :=
  let '(y, m, d) := civil_from_days (x / Day) in
  Str.pad0 4 (Str.format_int y) +:+ "-" +:+ Str.pad0 2 (Str.format_int m)
    +:+ "-" +:+ Str.pad0 2 (Str.format_int d).

End Time.

(** ** Data types of the sources *)

(** A Go [(value, error)] pair; an error is its message. *)
Inductive result (A : Type) : Type :=
| Ok (a : A)
| Err (e : string).
Arguments Ok {A} a.
Arguments Err {A} e.

(** A decoded [interface{}] as [encoding/json] produces it. *)
Inductive JSON : Type :=
| JNull
| JBool (b : bool)
| JNumber (f : Q)
| JString (s : string)
| JArray (l : list JSON)
| JObject (l : list (string * JSON)).

Module GeocodingResult.
Record t := mk {
  Name : string;
  Lat : Q;
  Lon : Q;
  Country : string;
  State : string
}.
End GeocodingResult.

(** An element of the [weather] arrays of both provider responses. *)
Module WeatherEntry.
Record t := mk {
  ID : Z;
  Main : string;
  Description : string;
  Icon : string
}.
End WeatherEntry.

(** An element of [HistoricalWeatherResponse.List]; the nested anonymous
    structs [main], [wind] and [clouds] are flattened, the optional
    [rain]/[snow] objects are [option]s of their [1h] field. *)
Module HistoricalItem.
Record t := mk {
  Dt : Z;
  Temp : Q;
  FeelsLike : Q;
  Pressure : Z;
  Humidity : Z;
  TempMin : Q;
  TempMax : Q;
  WindSpeed : Q;
  WindDeg : Z;
  CloudsAll : Z;
  Weather : list WeatherEntry.t;
  Rain : option Q;
  Snow : option Q
}.
End HistoricalItem.

Module HistoricalWeatherResponse.
Record t := mk {
  Message : string;
  Cod : string;
  CityID : Z;
  Cnt : Z;
  List : list HistoricalItem.t
}.
End HistoricalWeatherResponse.

(** An element of [ForecastResponse.List] (the fields the code reads). *)
Module ForecastItem.
Record t := mk {
  Dt : Z;
  TempDay : Q;
  FeelsLikeDay : Q;
  Pressure : Z;
  Humidity : Z;
  Speed : Q;
  Deg : Z;
  Clouds : Z;
  Weather : list WeatherEntry.t;
  Rain : Q;
  Snow : Q;
  Pop : Q
}.
End ForecastItem.

Module ForecastResponse.
Record t := mk {
  Cod : string;
  Cnt : Z;
  List : list ForecastItem.t
}.
End ForecastResponse.

Module WeatherData.
Record t := mk {
  Temp : Q;
  FeelsLike : Q;
  Pressure : Z;
  Humidity : Z;
  Clouds : Z;
  Visibility : Z;
  WindSpeed : Q;
  WindDeg : Z;
  Condition : string;
  Description : string;
  Rain : Q;
  Snow : Q
}.
(** [&WeatherData{}]. *)
Definition zero : t := mk 0 0 0 0 0 0 0 0 "" "" 0 0.
End WeatherData.

Module ReplicatePrediction.
Record t := mk {
  ID : string;
  Status : string;
  Output : JSON;
  Error : string;
  Logs : string
}.
End ReplicatePrediction.

Module HttpResponse.
(** What [http.Get] followed by [io.ReadAll(resp.Body)] yields. *)
Record t := mk {
  StatusCode : Z;
  Status : string;
  Body : result string
}.
End HttpResponse.

Module Request.
Record t := mk {
  ID : string;
  UserID : string;
  LocationInput : string;
  LocationName : string;
  Country : string;
  Latitude : Q;
  Longitude : Q;
  TargetDate : string;
  TimeOfDay : string;
  ImagePath : string;
  WeatherCondition : string;
  WeatherDescription : string;
  Temperature : Q;
  FeelsLike : Q;
  Humidity : Z;
  Clouds : Z;
  WindSpeed : Q;
  Visibility : Z;
  Precipitation : string;
  AIPrompt : string;
  PredictionID : string;
  Status : string;
  ErrorMessage : string;
  ResultImagePath : string
}.
End Request.

(** ** The request store (database.go)

    The table [requests] is a finite map from the primary key [id] to a
    row; a row maps column names to values, an absent column being NULL. *)

Inductive SqlValue : Type :=
| SqlText (s : string)
| SqlReal (f : Q)
| SqlInt (i : Z)
| SqlTime (x : Time.t).

Abbreviation Row := (gmap string SqlValue).
Abbreviation DB := (gmap string (gmap string SqlValue)).

Module Store.

(** [UPDATE requests SET c1 = v1, ..., updated_at = CURRENT_TIMESTAMP
    WHERE id = ?]: at most one row is touched; no row, no change. *)
Definition set_columns (set : list (string * SqlValue)) (row : Row) : Row :=
  foldr (fun cv r => <[cv.1 := cv.2]> r) row set.

Definition update (id : string) (set : list (string * SqlValue))
    (now : Time.t) (db : DB) : DB :=
  alter (fun row => <["updated_at" := SqlTime now]> (set_columns set row)) id db.

(** [INSERT INTO requests (id, user_id, location_input, target_date,
    image_path, status)]: six columns; the two timestamps take the
    schema's default.  [Request.TimeOfDay], which [submitHandler] fills, is
    not among them. *)
Definition saveRequest (req : Request.t) (now : Time.t) (db : DB)
    : option string * DB :=
  match db !! Request.ID req with
  | Some _ => (Some "UNIQUE constraint failed: requests.id", db)
  | None =>
      let row : Row :=
        list_to_map
          [("id", SqlText (Request.ID req));
           ("user_id", SqlText (Request.UserID req));
           ("location_input", SqlText (Request.LocationInput req));
           ("target_date", SqlText (Request.TargetDate req));
           ("image_path", SqlText (Request.ImagePath req));
           ("status", SqlText (Request.Status req));
           ("created_at", SqlTime now);
           ("updated_at", SqlTime now)] in
      (None, <[Request.ID req := row]> db)
  end.

Definition updateRequestGeocode (id locationName country : string) (lat lon : Q) :=
  update id [("location_name", SqlText locationName); ("country", SqlText country);
             ("latitude", SqlReal lat); ("longitude", SqlReal lon);
             ("status", SqlText "geocoding")].

Definition updateRequestWeather (id : string) (weatherData : WeatherData.t)
    (prompt : string) :=
  let condition := WeatherData.Condition weatherData in
  let description := WeatherData.Description weatherData in
  let precipitation :=
    if Num.Qltb 0 (WeatherData.Rain weatherData)
    then "Rain: " +:+ Str.format_float 1 (WeatherData.Rain weatherData) +:+ "mm"
    else if Num.Qltb 0 (WeatherData.Snow weatherData)
    then "Snow: " +:+ Str.format_float 1 (WeatherData.Snow weatherData) +:+ "mm"
    else "" in
  update id [("weather_condition", SqlText condition);
             ("weather_description", SqlText description);
             ("temperature", SqlReal (WeatherData.Temp weatherData));
             ("feels_like", SqlReal (WeatherData.FeelsLike weatherData));
             ("humidity", SqlInt (WeatherData.Humidity weatherData));
             ("clouds", SqlInt (WeatherData.Clouds weatherData));
             ("wind_speed", SqlReal (WeatherData.WindSpeed weatherData));
             ("visibility", SqlInt (WeatherData.Visibility weatherData));
             ("precipitation", SqlText precipitation);
             ("ai_prompt", SqlText prompt);
             ("status", SqlText "weather_fetched")].

Definition updateRequestError (id errorMsg : string) :=
  update id [("status", SqlText "error"); ("error_message", SqlText errorMsg)].

Definition updateRequestPredictionID (id predictionID : string) :=
  update id [("prediction_id", SqlText predictionID); ("status", SqlText "processing")].

Definition updateRequestStatus (id status : string) :=
  update id [("status", SqlText status)].

Definition updateRequestResult (id resultPath : string) :=
  update id [("result_image_path", SqlText resultPath); ("status", SqlText "completed")].

(** [COALESCE(col, '')] and [COALESCE(col, 0)] scanned into Go values. *)
Definition text (row : Row) (c : string) : string :=
  match row !! c with Some (SqlText s) => s | _ => "" end.
Definition real (row : Row) (c : string) : Q :=
  match row !! c with Some (SqlReal f) => f | _ => 0%Q end.
Definition int (row : Row) (c : string) : Z :=
  match row !! c with Some (SqlInt i) => i | _ => 0 end.

(** The 23 columns of the SELECT, scanned into a fresh [Request]; the
    field [TimeOfDay] is not one of them and keeps its zero value. *)
Definition scan (row : Row) : Request.t :=
  {| Request.ID := text row "id";
     Request.UserID := text row "user_id";
     Request.LocationInput := text row "location_input";
     Request.LocationName := text row "location_name";
     Request.Country := text row "country";
     Request.Latitude := real row "latitude";
     Request.Longitude := real row "longitude";
     Request.TargetDate := text row "target_date";
     Request.TimeOfDay := "";
     Request.ImagePath := text row "image_path";
     Request.WeatherCondition := text row "weather_condition";
     Request.WeatherDescription := text row "weather_description";
     Request.Temperature := real row "temperature";
     Request.FeelsLike := real row "feels_like";
     Request.Humidity := int row "humidity";
     Request.Clouds := int row "clouds";
     Request.WindSpeed := real row "wind_speed";
     Request.Visibility := int row "visibility";
     Request.Precipitation := text row "precipitation";
     Request.AIPrompt := text row "ai_prompt";
     Request.PredictionID := text row "prediction_id";
     Request.Status := text row "status";
     Request.ErrorMessage := text row "error_message";
     Request.ResultImagePath := text row "result_image_path" |}.

Definition getRequest (id : string) (db : DB) : result Request.t :=
  match db !! id with
  | Some row => Ok (scan row)
  | None => Err "sql: no rows in result set"
  end.

(** The [status] column of a request, if the request exists. *)
Definition status (id : string) (db : DB) : option string :=
  match db !! id with
  | Some row => Some (text row "status")
  | None => None
  end.

End Store.

(** ** Effects and programs *)

(** A background goroutine started by a handler: [go f(args)]. *)
Inductive Task : Type :=
| TaskWeather (requestID location : string) (targetDate : Time.t)
| TaskReplicate (requestID : string).

(** The SQL statements of database.go. *)
Inductive stmt : Type :=
| InsertRequest (req : Request.t)
| UpdateGeocode (id locationName country : string) (lat lon : Q)
| UpdateWeather (id : string) (weatherData : WeatherData.t) (prompt : string)
| UpdateError (id errorMsg : string)
| UpdatePredictionID (id predictionID : string)
| UpdateStatus (id status : string)
| UpdateResult (id resultPath : string).

(** What a program can ask of its environment, indexed by the type of the
    answer.  The four calls of the transform client (replicate.go) are
    taken at the level of their Go signatures. *)
Inductive effect : Type -> Type :=
| Now : effect Time.t
| Sleep (d : Z) : effect unit
| HttpGet (url : string) : effect (result HttpResponse.t)
| UploadFile (localPath : string) : effect (result string)
| CreatePrediction (prompt imageURL : string) : effect (result ReplicatePrediction.t)
| GetPredictionStatus (predictionID : string) : effect (result ReplicatePrediction.t)
| DownloadImage (imageURL savePath : string) : effect (option string)
| GenerateID (length : Z) : effect (result string)
| SaveUploadedFile (filename requestID : string) : effect (result string)
| Query (id : string) : effect (result Request.t)
| Exec (s : stmt) : effect (option string)
| Go (task : Task) : effect unit.

Inductive prog (R : Type) : Type :=
| Ret (r : R)
| Panic (msg : string)
| Vis {A : Type} (e : effect A) (k : A -> prog R).
Arguments Ret {R} r.
Arguments Panic {R} msg.
Arguments Vis {R A} e k.

Fixpoint bind {A B : Type} (p : prog A) (f : A -> prog B) : prog B :=
  match p with
  | Ret r => f r
  | Panic msg => Panic msg
  | Vis e k => Vis e (fun a => bind (k a) f)
  end.

#[global] Instance prog_ret : MRet prog := fun _ r => Ret r.
#[global] Instance prog_bind : MBind prog := fun _ _ f p => bind p f.

Definition call {A : Type} (e : effect A) : prog A := Vis e Ret.

(** An effect that was performed, without its answer. *)
Inductive event : Type :=
| Ev {A : Type} (e : effect A).

Definition is_remote (ev : event) : bool :=
  match ev with
  | Ev (HttpGet _) | Ev (UploadFile _) | Ev (CreatePrediction _ _)
  | Ev (GetPredictionStatus _) | Ev (DownloadImage _ _) => true
  | _ => false
  end.

Definition is_poll (ev : event) : bool :=
  match ev with Ev (GetPredictionStatus _) => true | _ => false end.

Definition is_submission (ev : event) : bool :=
  match ev with Ev (CreatePrediction _ _) => true | _ => false end.

Definition is_sleep_or_poll (ev : event) : bool :=
  match ev with Ev (GetPredictionStatus _) | Ev (Sleep _) => true | _ => false end.

(** Semantics of a statement on the table, at the time of the statement. *)
Definition exec_stmt (s : stmt) (now : Time.t) (db : DB) : option string * DB :=
  match s with
  | InsertRequest req => Store.saveRequest req now db
  | UpdateGeocode id n c lat lon => (None, Store.updateRequestGeocode id n c lat lon now db)
  | UpdateWeather id wd prompt => (None, Store.updateRequestWeather id wd prompt now db)
  | UpdateError id msg => (None, Store.updateRequestError id msg now db)
  | UpdatePredictionID id pid => (None, Store.updateRequestPredictionID id pid now db)
  | UpdateStatus id st => (None, Store.updateRequestStatus id st now db)
  | UpdateResult id path => (None, Store.updateRequestResult id path now db)
  end.

(** *** Running a program against scripted answers *)

(** The answers of the outside world.  The transform provider is polled
    repeatedly: [o_poll n] is the result of the poll number [n] (from 0). *)
Record Oracle := {
  o_http : string -> result HttpResponse.t;
  o_upload : string -> result string;
  o_create : string -> string -> result ReplicatePrediction.t;
  o_poll : nat -> result ReplicatePrediction.t;
  o_download : string -> string -> option string;
  o_generateID : Z -> result string;
  o_saveFile : string -> string -> result string
}.

Record World := {
  w_db : DB;
  w_now : Time.t;
  w_polls : nat;
  w_tasks : list Task;
  w_trace : list event
}.

Definition log {A : Type} (e : effect A) (w : World) : World :=
  {| w_db := w_db w; w_now := w_now w; w_polls := w_polls w;
     w_tasks := w_tasks w; w_trace := w_trace w ++ [Ev e] |}.

Definition handle (o : Oracle) {A : Type} (e : effect A) (w : World) : A * World :=
  let w := log e w in
  match e in effect T return T * World with
  | Now => (w_now w, w)
  | Sleep d =>
      (tt, {| w_db := w_db w; w_now := w_now w + d; w_polls := w_polls w;
              w_tasks := w_tasks w; w_trace := w_trace w |})
  | HttpGet url => (o_http o url, w)
  | UploadFile localPath => (o_upload o localPath, w)
  | CreatePrediction prompt imageURL => (o_create o prompt imageURL, w)
  | GetPredictionStatus _ =>
      (o_poll o (w_polls w),
       {| w_db := w_db w; w_now := w_now w; w_polls := S (w_polls w);
          w_tasks := w_tasks w; w_trace := w_trace w |})
  | DownloadImage imageURL savePath => (o_download o imageURL savePath, w)
  | GenerateID n => (o_generateID o n, w)
  | SaveUploadedFile filename requestID => (o_saveFile o filename requestID, w)
  | Query id => (Store.getRequest id (w_db w), w)
  | Exec s =>
      let r := exec_stmt s (w_now w) (w_db w) in
      (r.1, {| w_db := r.2; w_now := w_now w; w_polls := w_polls w;
               w_tasks := w_tasks w; w_trace := w_trace w |})
  | Go task =>
      (tt, {| w_db := w_db w; w_now := w_now w; w_polls := w_polls w;
              w_tasks := w_tasks w ++ [task]; w_trace := w_trace w |})
  end.

Inductive outcome (R : Type) : Type :=
| Returned (r : R)
| Panicked (msg : string).
Arguments Returned {R} r.
Arguments Panicked {R} msg.

Fixpoint run {R : Type} (o : Oracle) (p : prog R) (w : World) : outcome R * World :=
  match p with
  | Ret r => (Returned r, w)
  | Panic msg => (Panicked msg, w)
  | Vis e k => let aw := handle o e w in run o (k aw.1) aw.2
  end.

(** ** Library functions taken as parameters

    [json.Unmarshal] into each of the response types and [time.Parse] with
    the layout [2006-01-02] are not code of this repository. *)
Class Codec := {
  unmarshal_GeocodingResult : string -> result GeocodingResult.t;
  unmarshal_GeocodingResults : string -> result (list GeocodingResult.t);
  unmarshal_HistoricalWeatherResponse : string -> result HistoricalWeatherResponse.t;
  unmarshal_ForecastResponse : string -> result ForecastResponse.t;
  parse_date : string -> result Time.t
}.

(** ** weather.go *)

(** The loop of [geocodeLocation] over the characters of the location,
    leaving at the first digit.  Go ranges over runes; a byte in ['0'..'9']
    is always a rune of its own in UTF-8, so ranging over bytes finds the
    same digits. *)
Fixpoint isZipCode (location : string) : bool :=
  match location with
  | EmptyString => false
  | String char rest => if Str.is_digit char then true else isZipCode rest
  end.

Definition zipURL (key location : string) : string :=
  "http://api.openweathermap.org/geo/1.0/zip?zip=" +:+ Str.QueryEscape location
    +:+ "&appid=" +:+ key.

Definition directURL (key location : string) : string :=
  "http://api.openweathermap.org/geo/1.0/direct?q=" +:+ Str.QueryEscape location
    +:+ "&limit=1&appid=" +:+ key.

Definition geocodeLocation `{Codec} (openWeatherAPIKey location : string)
    : prog (result GeocodingResult.t) :=
  if String.eqb openWeatherAPIKey "" then
    mret (Err "OpenWeather API key not configured")
  else
    let apiURL := if isZipCode location
                  then zipURL openWeatherAPIKey location
                  else directURL openWeatherAPIKey location in
    r ← call (HttpGet apiURL);
    match r with
    | Err err => mret (Err ("geocoding API request failed: " +:+ err))
    | Ok resp =>
        match HttpResponse.Body resp with
        | Err err => mret (Err ("failed to read geocoding response: " +:+ err))
        | Ok body =>
            if negb (HttpResponse.StatusCode resp =? 200) then
              mret (Err ("geocoding API error: " +:+ HttpResponse.Status resp
                           +:+ " - " +:+ body))
            else if isZipCode location then
              match unmarshal_GeocodingResult body with
              | Err err => mret (Err ("failed to parse zip code response: " +:+ err))
              | Ok result => mret (Ok result)
              end
            else
              match unmarshal_GeocodingResults body with
              | Err err => mret (Err ("failed to parse geocoding response: " +:+ err))
              | Ok [] => mret (Err "location not found")
              | Ok (first :: _) => mret (Ok first)
              end
        end
    end.

Definition convertForecastToWeatherData (forecast : ForecastItem.t) : WeatherData.t :=
  let cd := match ForecastItem.Weather forecast with
            | w :: _ => (WeatherEntry.Main w, WeatherEntry.Description w)
            | [] => ("", "")
            end in
  {| WeatherData.Temp := ForecastItem.TempDay forecast;
     WeatherData.FeelsLike := ForecastItem.FeelsLikeDay forecast;
     WeatherData.Pressure := ForecastItem.Pressure forecast;
     WeatherData.Humidity := ForecastItem.Humidity forecast;
     WeatherData.Clouds := ForecastItem.Clouds forecast;
     WeatherData.Visibility := 10000;
     WeatherData.WindSpeed := ForecastItem.Speed forecast;
     WeatherData.WindDeg := ForecastItem.Deg forecast;
     WeatherData.Condition := cd.1;
     WeatherData.Description := cd.2;
     WeatherData.Rain := ForecastItem.Rain forecast;
     WeatherData.Snow := ForecastItem.Snow forecast |}.

Definition forecastURL (key : string) (lat lon : Q) (daysAhead : Z) : string :=
  "https://api.openweathermap.org/data/2.5/forecast/daily?lat=" +:+ Str.format_float 6 lat
    +:+ "&lon=" +:+ Str.format_float 6 lon
    +:+ "&cnt=" +:+ Str.format_int (Num.int_add daysAhead 1)
    +:+ "&units=metric&appid=" +:+ key.

Definition getForecastWeather `{Codec} (openWeatherAPIKey : string) (lat lon : Q)
    (daysAhead : Z) : prog (result WeatherData.t) :=
  r ← call (HttpGet (forecastURL openWeatherAPIKey lat lon daysAhead));
  match r with
  | Err err => mret (Err ("forecast API request failed: " +:+ err))
  | Ok resp =>
      match HttpResponse.Body resp with
      | Err err => mret (Err ("failed to read forecast response: " +:+ err))
      | Ok body =>
          if negb (HttpResponse.StatusCode resp =? 200) then
            mret (Err ("forecast API error: " +:+ HttpResponse.Status resp
                         +:+ " - " +:+ body))
          else
            match unmarshal_ForecastResponse body with
            | Err err => mret (Err ("failed to parse forecast response: " +:+ err))
            | Ok forecastData =>
                let list := ForecastResponse.List forecastData in
                if (length list =? 0)%nat then mret (Err "no forecast data available")
                else
                  match list !! (length list - 1)%nat with
                  | Some targetDay => mret (Ok (convertForecastToWeatherData targetDay))
                  | None => Panic "index out of range"
                  end
            end
      end
  end.

(** The running totals of the averaging loop. *)
Module Totals.
Record t := mk {
  totalTemp : Q;
  totalFeels : Q;
  totalWind : Q;
  totalPressure : Z;
  totalHumidity : Z;
  totalClouds : Z;
  rain : Q;
  snow : Q
}.
Definition zero : t := mk 0 0 0 0 0 0 0 0.
End Totals.

(** One iteration of [for _, item := range histData.List]. *)
Definition accumulate (a : Totals.t) (item : HistoricalItem.t) : Totals.t :=
  {| Totals.totalTemp := (Totals.totalTemp a + HistoricalItem.Temp item)%Q;
     Totals.totalFeels := (Totals.totalFeels a + HistoricalItem.FeelsLike item)%Q;
     Totals.totalWind := (Totals.totalWind a + HistoricalItem.WindSpeed item)%Q;
     Totals.totalPressure := Num.int_add (Totals.totalPressure a) (HistoricalItem.Pressure item);
     Totals.totalHumidity := Num.int_add (Totals.totalHumidity a) (HistoricalItem.Humidity item);
     Totals.totalClouds := Num.int_add (Totals.totalClouds a) (HistoricalItem.CloudsAll item);
     Totals.rain := match HistoricalItem.Rain item with
                    | Some oneH => (Totals.rain a + oneH)%Q
                    | None => Totals.rain a
                    end;
     Totals.snow := match HistoricalItem.Snow item with
                    | Some oneH => (Totals.snow a + oneH)%Q
                    | None => Totals.snow a
                    end |}.

Definition aggregateHistoricalData (histData : HistoricalWeatherResponse.t)
    : WeatherData.t :=
  let list := HistoricalWeatherResponse.List histData in
  if (length list =? 0)%nat then WeatherData.zero
  else
    let cd :=
      match list !! (length list / 2)%nat with
      | Some midpoint =>
          match HistoricalItem.Weather midpoint with
          | w :: _ => (WeatherEntry.Main w, WeatherEntry.Description w)
          | [] => ("", "")
          end
      | None => ("", "")
      end in
    let a := fold_left accumulate list Totals.zero in
    let count := Num.float64_of_int (Z.of_nat (length list)) in
    {| WeatherData.Temp := (Totals.totalTemp a / count)%Q;
       WeatherData.FeelsLike := (Totals.totalFeels a / count)%Q;
       WeatherData.Pressure :=
         Num.int_of_float64 (Num.float64_of_int (Totals.totalPressure a) / count);
       WeatherData.Humidity :=
         Num.int_of_float64 (Num.float64_of_int (Totals.totalHumidity a) / count);
       WeatherData.Clouds :=
         Num.int_of_float64 (Num.float64_of_int (Totals.totalClouds a) / count);
       WeatherData.Visibility := 10000;
       WeatherData.WindSpeed := (Totals.totalWind a / count)%Q;
       WeatherData.WindDeg := 0;
       WeatherData.Condition := cd.1;
       WeatherData.Description := cd.2;
       WeatherData.Rain := Totals.rain a;
       WeatherData.Snow := Totals.snow a |}.

Definition historyURL (key : string) (lat lon : Q) (startTime endTime : Time.t) : string :=
  "https://history.openweathermap.org/data/2.5/history/city?lat=" +:+ Str.format_float 6 lat
    +:+ "&lon=" +:+ Str.format_float 6 lon
    +:+ "&type=hour&start=" +:+ Str.format_int (Time.Unix startTime)
    +:+ "&end=" +:+ Str.format_int (Time.Unix endTime)
    +:+ "&units=metric&appid=" +:+ key.

Definition pastYearError (oneYearAgo : Time.t) : string :=
  "historical data only available for the past year (since "
    +:+ Time.format_date oneYearAgo +:+ ")".

Definition forecastRangeError : string :=
  "forecast only available for up to 16 days ahead".

(** [int(targetDate.Sub(now).Hours() / 24)]. *)
Definition daysAhead (targetDate now : Time.t) : Z :=
  Num.int_of_float64 (Time.Hours (Time.Sub targetDate now) / 24).

Definition getHistoricalWeather `{Codec} (openWeatherAPIKey : string) (lat lon : Q)
    (targetDate : Time.t) : prog (result WeatherData.t) :=
  if String.eqb openWeatherAPIKey "" then
    mret (Err "OpenWeather API key not configured")
  else
    now ← call Now;
    let oneYearAgo := Time.AddDate now (-1) 0 0 in
    if Time.Before targetDate oneYearAgo then
      mret (Err (pastYearError oneYearAgo))
    else if Time.After targetDate now then
      if daysAhead targetDate now >? 16 then mret (Err forecastRangeError)
      else getForecastWeather openWeatherAPIKey lat lon (daysAhead targetDate now)
    else
      let '(year, month, day) := Time.civil_from_days (targetDate / Time.Day) in
      let startTime := Time.Date year month day 0 in
      let endTime := startTime + 24 * Time.Hour in
      r ← call (HttpGet (historyURL openWeatherAPIKey lat lon startTime endTime));
      match r with
      | Err err => mret (Err ("history API request failed: " +:+ err))
      | Ok resp =>
          match HttpResponse.Body resp with
          | Err err => mret (Err ("failed to read history response: " +:+ err))
          | Ok body =>
              if negb (HttpResponse.StatusCode resp =? 200) then
                mret (Err ("history API error: " +:+ HttpResponse.Status resp
                             +:+ " - " +:+ body))
              else
                match unmarshal_HistoricalWeatherResponse body with
                | Err err => mret (Err ("failed to parse history response: " +:+ err))
                | Ok histData =>
                    if (length (HistoricalWeatherResponse.List histData) =? 0)%nat
                    then mret (Err "no historical data available for this date")
                    else mret (Ok (aggregateHistoricalData histData))
                end
          end
      end.

Definition generatePrompt (weatherData : WeatherData.t) (locationName : string) : string :=
  let condition := WeatherData.Condition weatherData in
  let condition := if String.eqb condition "" then "clear" else condition in
  let description := WeatherData.Description weatherData in
  let description := if String.eqb description "" then "clear sky" else description in
  let temp := WeatherData.Temp weatherData in
  let tempDesc :=
    if Num.Qltb temp 0 then "freezing cold"
    else if Num.Qltb temp 10 then "cold"
    else if Num.Qltb temp 20 then "cool"
    else if Num.Qltb temp 28 then "warm"
    else "hot" in
  let cloudiness :=
    if WeatherData.Clouds weatherData <? 20 then "clear skies"
    else if WeatherData.Clouds weatherData <? 50 then "partly cloudy skies"
    else if WeatherData.Clouds weatherData <? 80 then "mostly cloudy skies"
    else "overcast skies" in
  let visibilityDesc :=
    if WeatherData.Visibility weatherData <? 1000 then "with very poor visibility"
    else if WeatherData.Visibility weatherData <? 5000 then "with reduced visibility"
    else "" in
  let precipitation :=
    if Num.Qltb 0 (WeatherData.Rain weatherData) then
      if Num.Qltb (WeatherData.Rain weatherData) (5 # 2) then "light rain"
      else if Num.Qltb (WeatherData.Rain weatherData) 10 then "moderate rain"
      else "heavy rain"
    else if Num.Qltb 0 (WeatherData.Snow weatherData) then
      if Num.Qltb (WeatherData.Snow weatherData) (5 # 2) then "light snow"
      else if Num.Qltb (WeatherData.Snow weatherData) 10 then "moderate snow"
      else "heavy snow"
    else "" in
  let windDesc :=
    if Num.Qltb 10 (WeatherData.WindSpeed weatherData) then "with strong winds"
    else if Num.Qltb 5 (WeatherData.WindSpeed weatherData) then "with moderate winds"
    else "" in
  let prompt :=
    "Transform this landscape photo to accurately depict " +:+ locationName
      +:+ " weather conditions. The scene should show " +:+ condition
      +:+ " (" +:+ description +:+ ") with " +:+ cloudiness
      +:+ " and a temperature of " +:+ Str.format_float 1 temp +:+ Str.degC
      +:+ " (" +:+ tempDesc +:+ "). " in
  let prompt :=
    if negb (String.eqb precipitation "")
    then prompt +:+ "Add " +:+ precipitation +:+ " falling in the scene. "
    else prompt in
  let prompt :=
    if negb (String.eqb visibilityDesc "")
    then prompt +:+ "The atmosphere should appear " +:+ visibilityDesc +:+ ". "
    else prompt in
  let prompt :=
    if negb (String.eqb windDesc "")
    then prompt +:+ "Show signs of wind " +:+ windDesc
           +:+ " such as swaying trees or grass. "
    else prompt in
  prompt +:+ "The lighting should match the cloudiness level (clouds: "
    +:+ Str.format_int (WeatherData.Clouds weatherData)
    +:+ "%). Maintain the original composition and main subjects of the photo while "
    +:+ "authentically applying these weather conditions. The result should look "
    +:+ "natural and photorealistic.".

(** ** The store, the clock and the transform client as program steps *)

Definition getRequest (id : string) : prog (result Request.t) := call (Query id).
Definition saveRequest (req : Request.t) : prog (option string) :=
  call (Exec (InsertRequest req)).
Definition updateRequestGeocode (id locationName country : string) (lat lon : Q)
    : prog (option string) :=
  call (Exec (UpdateGeocode id locationName country lat lon)).
Definition updateRequestWeather (id : string) (weatherData : WeatherData.t)
    (prompt : string) : prog (option string) :=
  call (Exec (UpdateWeather id weatherData prompt)).
Definition updateRequestError (id errorMsg : string) : prog (option string) :=
  call (Exec (UpdateError id errorMsg)).
Definition updateRequestPredictionID (id predictionID : string) : prog (option string) :=
  call (Exec (UpdatePredictionID id predictionID)).
Definition updateRequestStatus (id status : string) : prog (option string) :=
  call (Exec (UpdateStatus id status)).
Definition updateRequestResult (id resultPath : string) : prog (option string) :=
  call (Exec (UpdateResult id resultPath)).

Definition uploadFileToReplicate (localPath : string) : prog (result string) :=
  call (UploadFile localPath).
Definition createReplicatePrediction (prompt imageURL : string)
    : prog (result ReplicatePrediction.t) :=
  call (CreatePrediction prompt imageURL).
Definition getPredictionStatus (predictionID : string)
    : prog (result ReplicatePrediction.t) :=
  call (GetPredictionStatus predictionID).
Definition downloadImage (imageURL savePath : string) : prog (option string) :=
  call (DownloadImage imageURL savePath).

(** ** replicate.go: the processing run *)

(** The type switch on [status.Output] in the [succeeded] case.  The
    element of a non-empty array is converted by the single-value type
    assertion [v[0].(string)], which panics on any other dynamic type. *)
Definition outputURL (output : JSON) : prog string :=
  match output with
  | JString v => mret v
  | JArray v =>
      match v with
      | [] => mret ""
      | JString s :: _ => mret s
      | _ :: _ => Panic "interface conversion: interface {} is not string"
      end
  | _ => mret ""
  end.

(** [filepath.Join("./data", "results", requestID+".jpg")] for an id
    without path separators (ids are hex strings). *)
Definition resultPath (requestID : string) : string :=
  "data/results/" +:+ requestID +:+ ".jpg".

Definition maxAttempts : nat := 120.

(** The body run for a terminal or non-terminal poll answer; [None]
    stands for falling out of the [switch] into the next iteration, [Some
    tt] for the [return] of the function. *)
Definition onStatus (requestID : string) (status : ReplicatePrediction.t)
    : prog (option unit) :=
  if String.eqb (ReplicatePrediction.Status status) "succeeded" then
    url ← outputURL (ReplicatePrediction.Output status);
    if String.eqb url "" then
      updateRequestError requestID "No output URL in prediction result";;
      mret (Some tt)
    else
      d ← downloadImage url (resultPath requestID);
      match d with
      | Some err =>
          updateRequestError requestID ("Failed to download result: " +:+ err);;
          mret (Some tt)
      | None =>
          updateRequestResult requestID (resultPath requestID);;
          mret (Some tt)
      end
  else if String.eqb (ReplicatePrediction.Status status) "failed" then
    let errMsg := if negb (String.eqb (ReplicatePrediction.Error status) "")
                  then ReplicatePrediction.Error status
                  else "Prediction failed" in
    updateRequestError requestID errMsg;;
    mret (Some tt)
  else if String.eqb (ReplicatePrediction.Status status) "canceled" then
    updateRequestStatus requestID "cancelled";;
    mret (Some tt)
  else mret None.

(** [for i := 0; i < maxAttempts; i++ { ... }] with [remaining =
    maxAttempts - i]; the result tells whether the function returned from
    inside the loop. *)
Fixpoint pollLoop (requestID predictionID : string) (remaining : nat) : prog bool :=
  match remaining with
  | O => mret false
  | S remaining' =>
      call (Sleep (5 * Time.Second));;
      r ← getPredictionStatus predictionID;
      match r with
      | Err _ => pollLoop requestID predictionID remaining'
      | Ok status =>
          done ← onStatus requestID status;
          match done with
          | Some _ => mret true
          | None => pollLoop requestID predictionID remaining'
          end
      end
  end.

Definition processImageWithReplicate (requestID : string) : prog unit :=
  r ← getRequest requestID;
  match r with
  | Err _ =>
      updateRequestError requestID "Failed to retrieve request details";; mret tt
  | Ok req =>
      u ← uploadFileToReplicate (Request.ImagePath req);
      match u with
      | Err err =>
          updateRequestError requestID ("Failed to upload image: " +:+ err);; mret tt
      | Ok imageURL =>
          c ← createReplicatePrediction (Request.AIPrompt req) imageURL;
          match c with
          | Err err =>
              updateRequestError requestID ("Failed to create prediction: " +:+ err);;
              mret tt
          | Ok prediction =>
              updateRequestPredictionID requestID (ReplicatePrediction.ID prediction);;
              returned ← pollLoop requestID (ReplicatePrediction.ID prediction) maxAttempts;
              if returned : bool then mret tt
              else updateRequestError requestID "Image processing timeout";; mret tt
          end
      end
  end.

(** ** handlers.go *)

Module HttpRequest.
(** The parts of [*http.Request] the handlers read: the method, the form
    values ([None] when the multipart form cannot be parsed) and the
    name of the uploaded file. *)
Record t := mk {
  Method : string;
  Form : option (string -> string);
  Photo : result string
}.
Definition FormValue (r : t) (key : string) : string :=
  match Form r with Some f => f key | None => "" end.
End HttpRequest.

Inductive HttpReply : Type :=
| Redirect (url : string) (code : Z)
| HttpError (msg : string) (code : Z).

(** The three-argument call [generatePrompt(weatherData, locationStr,
    req.TimeOfDay)] of handlers.go meets the two-parameter [generatePrompt]
    of weather.go: the time of day is read (and the read can fail) but does
    not enter the text. *)
Definition processWeatherRequest `{Codec} (openWeatherAPIKey : string)
    (requestID location : string) (targetDate : Time.t) : prog unit :=
  g ← geocodeLocation openWeatherAPIKey location;
  match g with
  | Err err =>
      updateRequestError requestID ("Failed to find location: " +:+ err);; mret tt
  | Ok geoResult =>
      e ← updateRequestGeocode requestID (GeocodingResult.Name geoResult)
            (GeocodingResult.Country geoResult) (GeocodingResult.Lat geoResult)
            (GeocodingResult.Lon geoResult);
      match e with
      | Some _ => mret tt
      | None =>
          updateRequestStatus requestID "weather_fetching";;
          w ← getHistoricalWeather openWeatherAPIKey (GeocodingResult.Lat geoResult)
                (GeocodingResult.Lon geoResult) targetDate;
          match w with
          | Err err =>
              updateRequestError requestID ("Failed to fetch weather: " +:+ err);;
              mret tt
          | Ok weatherData =>
              let locationStr := GeocodingResult.Name geoResult in
              let locationStr :=
                if negb (String.eqb (GeocodingResult.Country geoResult) "")
                then locationStr +:+ ", " +:+ GeocodingResult.Country geoResult
                else locationStr in
              r ← getRequest requestID;
              match r with
              | Err _ =>
                  updateRequestError requestID "Failed to retrieve request details";;
                  mret tt
              | Ok req =>
                  let prompt := generatePrompt weatherData locationStr in
                  e ← updateRequestWeather requestID weatherData prompt;
                  match e with
                  | Some _ =>
                      updateRequestError requestID "Failed to save weather data";;
                      mret tt
                  | None => mret tt
                  end
              end
          end
      end
  end.

Definition submitHandler `{Codec} (r : HttpRequest.t) : prog HttpReply :=
  if negb (String.eqb (HttpRequest.Method r) "POST") then
    mret (HttpError "Method not allowed" 405)
  else
    match HttpRequest.Form r with
    | None => mret (HttpError "Failed to parse form" 400)
    | Some form =>
        let userID := form "user_id" in
        let location := form "location" in
        let dateStr := form "date" in
        let timeOfDay := form "time_of_day" in
        match parse_date dateStr with
        | Err _ => mret (HttpError "Invalid date format" 400)
        | Ok targetDate =>
            match HttpRequest.Photo r with
            | Err _ => mret (HttpError "Failed to get uploaded file" 400)
            | Ok filename =>
                i ← call (GenerateID 16);
                match i with
                | Err _ => mret (HttpError "Failed to generate request ID" 500)
                | Ok requestID =>
                    f ← call (SaveUploadedFile filename requestID);
                    match f with
                    | Err _ => mret (HttpError "Failed to save file" 500)
                    | Ok imagePath =>
                        let req :=
                          {| Request.ID := requestID;
                             Request.UserID := userID;
                             Request.LocationInput := location;
                             Request.LocationName := "";
                             Request.Country := "";
                             Request.Latitude := 0;
                             Request.Longitude := 0;
                             Request.TargetDate := dateStr;
                             Request.TimeOfDay := timeOfDay;
                             Request.ImagePath := imagePath;
                             Request.WeatherCondition := "";
                             Request.WeatherDescription := "";
                             Request.Temperature := 0;
                             Request.FeelsLike := 0;
                             Request.Humidity := 0;
                             Request.Clouds := 0;
                             Request.WindSpeed := 0;
                             Request.Visibility := 0;
                             Request.Precipitation := "";
                             Request.AIPrompt := "";
                             Request.PredictionID := "";
                             Request.Status := "pending";
                             Request.ErrorMessage := "";
                             Request.ResultImagePath := "" |} in
                        e ← saveRequest req;
                        match e with
                        | Some _ => mret (HttpError "Failed to save request" 500)
                        | None =>
                            call (Go (TaskWeather requestID location targetDate));;
                            mret (Redirect ("/processing/" +:+ requestID) 303)
                        end
                    end
                end
            end
        end
    end.

Definition confirmHandler (r : HttpRequest.t) : prog HttpReply :=
  if negb (String.eqb (HttpRequest.Method r) "POST") then
    mret (HttpError "Method not allowed" 405)
  else
    let requestID := HttpRequest.FormValue r "request_id" in
    let action := HttpRequest.FormValue r "action" in
    if String.eqb action "cancel" then
      updateRequestStatus requestID "cancelled";;
      mret (Redirect "/start" 303)
    else
      q ← getRequest requestID;
      match q with
      | Err _ => mret (HttpError "Request not found" 404)
      | Ok req =>
          if negb (String.eqb (Request.Status req) "weather_fetched") then
            mret (Redirect ("/processing/" +:+ requestID) 303)
          else
            updateRequestStatus requestID "confirmed";;
            call (Go (TaskReplicate requestID));;
            mret (Redirect ("/processing/" +:+ requestID) 303)
      end.

(** The program of a background task. *)
Definition task_prog `{Codec} (openWeatherAPIKey : string) (task : Task) : prog unit :=
  match task with
  | TaskWeather requestID location targetDate =>
      processWeatherRequest openWeatherAPIKey requestID location targetDate
  | TaskReplicate requestID => processImageWithReplicate requestID
  end.

(** ** The status graph *)








(** ** The running system *)

Definition stmt_id (s : stmt) : string :=
  match s with
  | InsertRequest req => Request.ID req
  | UpdateGeocode id _ _ _ _ | UpdateWeather id _ _ | UpdateError id _
  | UpdatePredictionID id _ | UpdateStatus id _ | UpdateResult id _ => id
  end.

(** The status a statement writes. *)
Definition stmt_status (s : stmt) : string :=
  match s with
  | InsertRequest req => Request.Status req
  | UpdateGeocode _ _ _ _ _ => "geocoding"
  | UpdateWeather _ _ _ => "weather_fetched"
  | UpdateError _ _ => "error"
  | UpdatePredictionID _ _ => "processing"
  | UpdateStatus _ status => status
  | UpdateResult _ _ => "completed"
  end.

Definition is_insert (s : stmt) : bool :=
  match s with InsertRequest _ => true | _ => false end.

(** One effect performed at time [now] on the table [db]: its possible
    answers [a], the table afterwards and the goroutines started.  The
    store and the clock answer as they must, the outside world as it
    likes. *)
Definition effect_step {A : Type} (e : effect A) (now : Time.t) (db : DB)
    (a : A) (db' : DB) (spawned : list Task) : Prop :=
  match e in effect T return T -> Prop with
  | Now => fun a => a = now /\ db' = db /\ spawned = []
  | Query id => fun a => a = Store.getRequest id db /\ db' = db /\ spawned = []
  | Exec s => fun a =>
      a = (exec_stmt s now db).1 /\ db' = (exec_stmt s now db).2 /\ spawned = []
  | Go task => fun _ => db' = db /\ spawned = [task]
  | _ => fun _ => db' = db /\ spawned = []
  end a.

(** A handler runs to its reply without interleaving: the embedding of
    HTTP requests served one at a time, none overlapping another or a
    step of a background run.  [net/http] itself serves requests
    concurrently; handlers that interleave are the subject of [pool_step]
    further down. *)
Fixpoint atomic {R : Type} (now : Time.t) (p : prog R) (db : DB)
    (out : outcome R) (db' : DB) (spawned : list Task) (evs : list event) : Prop :=
  match p with
  | Ret r => out = Returned r /\ db' = db /\ spawned = [] /\ evs = []
  | Panic msg => out = Panicked msg /\ db' = db /\ spawned = [] /\ evs = []
  | Vis e k =>
      exists a db1 sp1 sp2 evs',
        effect_step e now db a db1 sp1
        /\ atomic now (k a) db1 out db' sp2 evs'
        /\ spawned = sp1 ++ sp2 /\ evs = Ev e :: evs'
  end.

Record Sys := {
  sys_db : DB;
  sys_tasks : list (Task * prog unit);
  sys_log : list (option Task * event)
}.

Definition sys_init : Sys := {| sys_db := ∅; sys_tasks := []; sys_log := [] |}.

Inductive label : Type :=
| LTask (n : nat)
| LSubmit (r : HttpRequest.t)
| LConfirm (r : HttpRequest.t).

Section System.
Context `{Codec} (openWeatherAPIKey : string).

Definition spawn (task : Task) : Task * prog unit :=
  (task, task_prog openWeatherAPIKey task).

Definition after_handler (s : Sys) (db' : DB) (spawned : list Task)
    (evs : list event) : Sys :=
  {| sys_db := db';
     sys_tasks := sys_tasks s ++ (spawn <$> spawned);
     sys_log := sys_log s ++ ((fun ev => (None, ev)) <$> evs) |}.

(** A step of the system in which requests are served one at a time:
    a background task performs its next effect, or a handler serves a
    request from its first statement to its reply. *)
Inductive sys_step : Sys -> label -> Sys -> Prop :=
| step_task s n task A (e : effect A) k a now db' spawned :
    sys_tasks s !! n = Some (task, Vis e k) ->
    effect_step e now (sys_db s) a db' spawned ->
    sys_step s (LTask n)
      {| sys_db := db';
         sys_tasks := <[n := (task, k a)]> (sys_tasks s) ++ (spawn <$> spawned);
         sys_log := sys_log s ++ [(Some task, Ev e)] |}
| step_submit s r now out db' spawned evs :
    atomic now (submitHandler r) (sys_db s) out db' spawned evs ->
    sys_step s (LSubmit r) (after_handler s db' spawned evs)
| step_confirm s r now out db' spawned evs :
    atomic now (confirmHandler r) (sys_db s) out db' spawned evs ->
    sys_step s (LConfirm r) (after_handler s db' spawned evs).

(** The user's cancel arrives from the confirmation page, which is shown
    while the request is [weather_fetched]. *)
Definition is_cancel (r : HttpRequest.t) : bool :=
  String.eqb (HttpRequest.Method r) "POST"
  && String.eqb (HttpRequest.FormValue r "action") "cancel".


(** States reached from the empty system by steps that [allowed]
    admits. *)
Inductive reachable (allowed : Sys -> label -> Prop) : Sys -> Prop :=
| reach_init : reachable allowed sys_init
| reach_step s l s' :
    reachable allowed s -> allowed s l -> sys_step s l s' -> reachable allowed s'.

Definition any_step (s : Sys) (l : label) : Prop := True.

(** Background steps only. *)
Inductive background : Sys -> Sys -> Prop :=
| bg_refl s : background s s
| bg_step s n s' s'' :
    sys_step s (LTask n) s' -> background s' s'' -> background s s''.

End System.

(** Processing runs started and transform jobs submitted for a request. *)
Definition is_run_start (id : string) (x : option Task * event) : bool :=
  match x with
  | (None, Ev (Go (TaskReplicate id'))) => String.eqb id id'
  | _ => false
  end.

Definition is_job_submission (id : string) (x : option Task * event) : bool :=
  match x with
  | (Some (TaskReplicate id'), Ev (CreatePrediction _ _)) => String.eqb id id'
  | _ => false
  end.

Definition runs_started (id : string) (s : Sys) : nat :=
  length (filter (fun x => is_run_start id x = true) (sys_log s)).

Definition jobs_submitted (id : string) (s : Sys) : nat :=
  length (filter (fun x => is_job_submission id x = true) (sys_log s)).

(** *** What a program may still do to the status of one request

    [wp E id p st Q]: whatever the answers of the outside world, every
    status [p] writes to the request [id], last seen at [st], follows an
    edge of [E], [p] neither inserts that request nor starts goroutines,
    and [Q] holds of the result and the status when [p] returns.  An
    UPDATE answers [nil]. *)
Definition wp_effect (E : string -> string -> Prop) (id : string) {A : Type}
    (e : effect A) (st : option string) (K : A -> option string -> Prop) : Prop :=
  match e in effect T return (T -> option string -> Prop) -> Prop with
  | Exec s => fun K =>
      if decide (stmt_id s = id) then
        match st with
        | Some a =>
            is_insert s = false /\ E a (stmt_status s) /\ K None (Some (stmt_status s))
        | None => False
        end
      else if is_insert s then forall r, K r st
      else K None st
  | Go _ => fun _ => False
  | _ => fun K => forall a, K a st
  end K.

Fixpoint wp {R : Type} (E : string -> string -> Prop) (id : string) (p : prog R)
    (st : option string) (Q : R -> option string -> Prop) : Prop :=
  match p with
  | Ret r => Q r st
  | Panic _ => True
  | Vis e k => wp_effect E id e st (fun a st' => wp E id (k a) st' Q)
  end.


Definition quiet (id : string) (p : prog unit) : Prop :=
  wp (fun _ _ => False) id p None (fun _ _ => True).



(** The requests that passed [weather_fetched]. *)
Definition past_fetched (st : option string) : Prop :=
  exists a, st = Some a
    /\ a ∈ ["confirmed"; "processing"; "completed"; "error"; "cancelled"].



(** ** Vocabulary of the properties *)

(** The columns [updateRequestError] assigns. *)
Definition error_columns : list string := ["status"; "error_message"; "updated_at"].

(** A request with its status and error message replaced. *)
Definition with_error (req : Request.t) (errorMsg : string) : Request.t :=
  {| Request.ID := Request.ID req;
     Request.UserID := Request.UserID req;
     Request.LocationInput := Request.LocationInput req;
     Request.LocationName := Request.LocationName req;
     Request.Country := Request.Country req;
     Request.Latitude := Request.Latitude req;
     Request.Longitude := Request.Longitude req;
     Request.TargetDate := Request.TargetDate req;
     Request.TimeOfDay := Request.TimeOfDay req;
     Request.ImagePath := Request.ImagePath req;
     Request.WeatherCondition := Request.WeatherCondition req;
     Request.WeatherDescription := Request.WeatherDescription req;
     Request.Temperature := Request.Temperature req;
     Request.FeelsLike := Request.FeelsLike req;
     Request.Humidity := Request.Humidity req;
     Request.Clouds := Request.Clouds req;
     Request.WindSpeed := Request.WindSpeed req;
     Request.Visibility := Request.Visibility req;
     Request.Precipitation := Request.Precipitation req;
     Request.AIPrompt := Request.AIPrompt req;
     Request.PredictionID := Request.PredictionID req;
     Request.Status := "error";
     Request.ErrorMessage := errorMsg;
     Request.ResultImagePath := Request.ResultImagePath req |}.

(** The poll loop: a status that ends it, the first such answer among
    the polls [from .. from + budget - 1], one round of the loop as events,
    and the world after [k] rounds. *)
Definition terminal_status (s : string) : bool :=
  String.eqb s "succeeded" || String.eqb s "failed" || String.eqb s "canceled".

Fixpoint first_terminal (poll : nat -> result ReplicatePrediction.t) (from budget : nat)
    : option (nat * ReplicatePrediction.t) :=
  match budget with
  | O => None
  | S budget' =>
      match poll from with
      | Ok status =>
          if terminal_status (ReplicatePrediction.Status status)
          then Some (from, status)
          else first_terminal poll (S from) budget'
      | Err _ => first_terminal poll (S from) budget'
      end
  end.

Definition poll_round (predictionID : string) : list event :=
  [Ev (Sleep (5 * Time.Second)); Ev (GetPredictionStatus predictionID)].

Definition after_polls (predictionID : string) (k : nat) (w : World) : World :=
  {| w_db := w_db w;
     w_now := w_now w + 5 * Time.Second * Z.of_nat k;
     w_polls := w_polls w + k;
     w_tasks := w_tasks w;
     w_trace := w_trace w ++ concat (replicate k (poll_round predictionID)) |}.

Definition valid_output (output : JSON) (url : string) : Prop :=
  url <> "" /\ (output = JString url \/ exists rest, output = JArray (JString url :: rest)).

Definition stored (id : string) (db : DB) (field : Request.t -> string) : option string :=
  match Store.getRequest id db with
  | Ok req => Some (field req)
  | Err _ => None
  end.

(** What a poll answer's handling leaves alone: no sleep, no further poll. *)
Definition same_clock (w w' : World) : Prop :=
  w_polls w' = w_polls w /\ w_now w' = w_now w
  /\ List.filter is_sleep_or_poll (w_trace w') = List.filter is_sleep_or_poll (w_trace w).


(** The location holds a decimal digit. *)
Definition has_digit (location : string) : Prop :=
  exists c : ascii, In c (list_ascii_of_string location)
    /\ (48 <= nat_of_ascii c <= 57)%nat.

Definition zip_endpoint : string := "http://api.openweathermap.org/geo/1.0/zip?".
Definition direct_endpoint : string := "http://api.openweathermap.org/geo/1.0/direct?".

(** Concrete data for the examples. *)
Module Sample.

Definition paris : GeocodingResult.t :=
  GeocodingResult.mk "Paris" (4885 # 100) (235 # 100) "FR" "Ile-de-France".

Definition codec : Codec := {|
  unmarshal_GeocodingResult := fun _ => Ok paris;
  unmarshal_GeocodingResults := fun body => if String.eqb body "[]" then Ok [] else Ok [paris];
  unmarshal_HistoricalWeatherResponse := fun _ => Err "unexpected end of JSON input";
  unmarshal_ForecastResponse := fun _ => Err "unexpected end of JSON input";
  parse_date := fun _ => Ok (Time.Date 2024 1 18 0)
|}.

Definition prediction (status : string) (output : JSON) (error : string)
    : ReplicatePrediction.t :=
  ReplicatePrediction.mk "p1" status output error "".

Definition oracle (poll : nat -> result ReplicatePrediction.t) : Oracle :=
  {| o_http := fun _ => Ok (HttpResponse.mk 200 "200 OK" (Ok "[]"));
     o_upload := fun _ => Ok "https://api.replicate.com/v1/files/f1";
     o_create := fun _ _ => Ok (prediction "starting" JNull "");
     o_poll := poll;
     o_download := fun _ _ => None;
     o_generateID := fun _ => Ok "00a1";
     o_saveFile := fun _ _ => Ok "data/uploads/00a1.jpg" |}.

Definition request : Request.t :=
  Request.mk "00a1" "u1" "Paris" "" "" 0 0 "2024-01-18" "" "data/uploads/00a1.jpg"
    "" "" 0 0 0 0 0 0 "" "" "" "confirmed" "" "".

(** The row [saveRequest] creates for it at time 0. *)
Definition row : Row :=
  list_to_map
    [("id", SqlText "00a1"); ("user_id", SqlText "u1");
     ("location_input", SqlText "Paris"); ("target_date", SqlText "2024-01-18");
     ("image_path", SqlText "data/uploads/00a1.jpg");
     ("status", SqlText "confirmed"); ("created_at", SqlTime 0);
     ("updated_at", SqlTime 0)].

Definition db : DB := <["00a1" := row]> ∅.

Definition world : World :=
  {| w_db := db; w_now := Time.Date 2024 1 1 (12 * Time.Hour); w_polls := 0;
     w_tasks := []; w_trace := [] |}.

(** [processing] on attempts 1 to 119, [succeeded] with an output URL on
    attempt 120. *)
Definition late_success (n : nat) : result ReplicatePrediction.t :=
  if (n <? 119)%nat then Ok (prediction "processing" JNull "")
  else Ok (prediction "succeeded" (JArray [JString "https://replicate.delivery/out.jpg"]) "").

(** A job that succeeds at once with an array output whose first element
    is not a string. *)
Definition odd_output (n : nat) : result ReplicatePrediction.t :=
  Ok (prediction "succeeded" (JArray [JNumber 1]) "").

End Sample.

(** The bands of the prompt, with the thresholds of the specification. *)
Definition temperature_band (temp : Q) (band : string) : Prop :=
  ((temp < 0)%Q /\ band = "freezing cold")
  \/ ((0 <= temp)%Q /\ (temp < 10)%Q /\ band = "cold")
  \/ ((10 <= temp)%Q /\ (temp < 20)%Q /\ band = "cool")
  \/ ((20 <= temp)%Q /\ (temp < 28)%Q /\ band = "warm")
  \/ ((28 <= temp)%Q /\ band = "hot").

Definition cloud_band (clouds : Z) (band : string) : Prop :=
  (clouds < 20 /\ band = "clear skies")
  \/ (20 <= clouds < 50 /\ band = "partly cloudy")
  \/ (50 <= clouds < 80 /\ band = "mostly cloudy")
  \/ (80 <= clouds /\ band = "overcast").

(** A clause that is present, as [opening ++ what ++ closing], exactly
    when [present] holds, and empty otherwise. *)
Definition clause (present : Prop) (opening closing : string) (text : string) : Prop :=
  (~ present /\ text = "")
  \/ (present /\ exists what, what <> "" /\ text = opening +:+ what +:+ closing).

(** The number that a run of decimal digits denotes; no number for the
    empty text or for a text with another byte in it. *)
Definition read_natural (s : string) : option Z :=
  match NilZero.uint_of_string s with
  | Some d => Some (Z.of_N (N.of_uint d))
  | None => None
  end.

(** [text] is [x] written with one decimal: a minus sign when [x] is
    negative, the digits of the whole part, a point and one digit; what is
    written is a multiple of 1/10 nearest to [x]. *)
Definition one_decimal (x : Q) (text : string) : Prop :=
  exists (whole tenth : string) (a b : Z),
    text = (if Num.Qltb x 0 then "-" else "") +:+ whole +:+ "." +:+ tenth
    /\ read_natural whole = Some a
    /\ String.length tenth = 1%nat /\ read_natural tenth = Some b
    /\ (Qabs (Qabs x - (inject_Z a + inject_Z b / 10)) <= 1 # 20)%Q.

(** The words for the cloud cover. *)
Definition cloudiness_text (clouds : Z) (text : string) : Prop :=
  (clouds < 20 /\ text = "clear skies")
  \/ (20 <= clouds < 50 /\ text = "partly cloudy skies")
  \/ (50 <= clouds < 80 /\ text = "mostly cloudy skies")
  \/ (80 <= clouds /\ text = "overcast skies").

(** The word for an amount of rain or snow. *)
Definition intensity (amount : Q) (word : string) : Prop :=
  ((amount < 5 # 2)%Q /\ word = "light")
  \/ ((5 # 2 <= amount)%Q /\ (amount < 10)%Q /\ word = "moderate")
  \/ ((10 <= amount)%Q /\ word = "heavy").

(** The three optional sentences.  Rain goes before snow. *)
Definition precipitation_clause (rain snow : Q) (text : string) : Prop :=
  (~ ((0 < rain)%Q \/ (0 < snow)%Q) /\ text = "")
  \/ ((0 < rain)%Q /\ exists word, intensity rain word
        /\ text = "Add " +:+ word +:+ " rain falling in the scene. ")
  \/ (~ (0 < rain)%Q /\ (0 < snow)%Q /\ exists word, intensity snow word
        /\ text = "Add " +:+ word +:+ " snow falling in the scene. ").

Definition visibility_clause (visibility : Z) (text : string) : Prop :=
  (5000 <= visibility /\ text = "")
  \/ (1000 <= visibility < 5000
      /\ text = "The atmosphere should appear with reduced visibility. ")
  \/ (visibility < 1000
      /\ text = "The atmosphere should appear with very poor visibility. ").

Definition wind_clause (speed : Q) (text : string) : Prop :=
  (~ (5 < speed)%Q /\ text = "")
  \/ ((5 < speed)%Q /\ ~ (10 < speed)%Q
      /\ text = "Show signs of wind with moderate winds such as swaying trees or grass. ")
  \/ ((10 < speed)%Q
      /\ text = "Show signs of wind with strong winds such as swaying trees or grass. ").

(** The paragraph: the opening sentences, the three optional clauses in
    their order, and the closing instruction. *)
Definition prompt_text (location condition description cloudiness temperature band
    precipitation visibility wind clouds : string) : string :=
  "Transform this landscape photo to accurately depict " +:+ location
    +:+ " weather conditions. The scene should show " +:+ condition
    +:+ " (" +:+ description +:+ ") with " +:+ cloudiness
    +:+ " and a temperature of " +:+ temperature +:+ Str.degC
    +:+ " (" +:+ band +:+ "). "
    +:+ precipitation +:+ visibility +:+ wind
    +:+ "The lighting should match the cloudiness level (clouds: " +:+ clouds
    +:+ "%). Maintain the original composition and main subjects of the photo while "
    +:+ "authentically applying these weather conditions. The result should look "
    +:+ "natural and photorealistic.".

(** A text, or its default when it is missing. *)
Definition or_default (s default : string) : string :=
  if String.eqb s "" then default else s.

(** Two summaries that show the same numbers and texts. *)
Definition same_summary (a b : WeatherData.t) : Prop :=
  (WeatherData.Temp a == WeatherData.Temp b)%Q
  /\ (WeatherData.FeelsLike a == WeatherData.FeelsLike b)%Q
  /\ WeatherData.Pressure a = WeatherData.Pressure b
  /\ WeatherData.Humidity a = WeatherData.Humidity b
  /\ WeatherData.Clouds a = WeatherData.Clouds b
  /\ WeatherData.Visibility a = WeatherData.Visibility b
  /\ (WeatherData.WindSpeed a == WeatherData.WindSpeed b)%Q
  /\ WeatherData.WindDeg a = WeatherData.WindDeg b
  /\ WeatherData.Condition a = WeatherData.Condition b
  /\ WeatherData.Description a = WeatherData.Description b
  /\ (WeatherData.Rain a == WeatherData.Rain b)%Q
  /\ (WeatherData.Snow a == WeatherData.Snow b)%Q.

Module Scenario.
(** temp 25.0, clouds 15, rain 0, snow 0, wind 3; the visibility is the
    default both weather sources report. *)
Definition summary : WeatherData.t :=
  {| WeatherData.Temp := 25; WeatherData.FeelsLike := 25;
     WeatherData.Pressure := 1013; WeatherData.Humidity := 40;
     WeatherData.Clouds := 15; WeatherData.Visibility := 10000;
     WeatherData.WindSpeed := 3; WeatherData.WindDeg := 0;
     WeatherData.Condition := ""; WeatherData.Description := "";
     WeatherData.Rain := 0; WeatherData.Snow := 0 |}.
(** The same numbers written with other fractions. *)
Definition summary' : WeatherData.t :=
  {| WeatherData.Temp := 50 # 2; WeatherData.FeelsLike := 100 # 4;
     WeatherData.Pressure := 1013; WeatherData.Humidity := 40;
     WeatherData.Clouds := 15; WeatherData.Visibility := 10000;
     WeatherData.WindSpeed := 6 # 2; WeatherData.WindDeg := 0;
     WeatherData.Condition := ""; WeatherData.Description := "";
     WeatherData.Rain := 0 # 3; WeatherData.Snow := 0 # 7 |}.
End Scenario.


(** The hourly amount of an optional [rain]/[snow] object. *)
Definition amount (o : option Q) : Q := default 0%Q o.


Module Hourly.
Definition clear : WeatherEntry.t := WeatherEntry.mk 800 "Clear" "clear sky" "01d".
End Hourly.

(** The two out-of-range failures of the weather fetch at time [now]. *)
Definition out_of_range (now : Time.t) (msg : string) : Prop :=
  msg = pastYearError (Time.AddDate now (-1) 0 0) \/ msg = forecastRangeError.

Module Dates.
(** Noon of 2024-01-01 and of 2024-03-01; midnight of 2024-01-18 (16
    days and a half after the first) and of 2023-03-02 (365 days and a
    half before the second, a leap day lying between). *)
Definition jan1_noon : Time.t := Time.Date 2024 1 1 (12 * Time.Hour).
Definition mar1_noon : Time.t := Time.Date 2024 3 1 (12 * Time.Hour).
Definition jan18 : Time.t := Time.Date 2024 1 18 0.
Definition mar2_2023 : Time.t := Time.Date 2023 3 2 0.
Definition feb19 : Time.t := Time.Date 2024 2 19 0.
Definition world (now : Time.t) : World :=
  {| w_db := ∅; w_now := now; w_polls := 0; w_tasks := []; w_trace := [] |}.
End Dates.


(** ** Vocabulary of the properties of the running system *)

(** The statuses a weather run writes to its request, last seen at [s0],
    all follow [E]; likewise for a processing run. *)
Definition weather_path (E : string -> string -> Prop) (s0 : string) : Prop :=
  E s0 "error" /\ E s0 "geocoding" /\ E "geocoding" "weather_fetching"
  /\ E "weather_fetching" "error" /\ E "weather_fetching" "weather_fetched".

Definition replicate_path (E : string -> string -> Prop) (s0 : string) : Prop :=
  E s0 "error" /\ E s0 "processing" /\ E "processing" "completed"
  /\ E "processing" "error" /\ E "processing" "cancelled".




(** Several steps of the system in a row, each one passing [allowed]. *)
Inductive steps `{Codec} (key : string) (allowed : Sys -> label -> Prop)
    : Sys -> Sys -> Prop :=
| steps_refl s : steps key allowed s s
| steps_step s l s' s'' :
    allowed s l -> sys_step key s l s' -> steps key allowed s' s'' ->
    steps key allowed s s''.

(** A request of the confirmation page for the request [id]. *)
Definition confirm_request (id action : string) : HttpRequest.t :=
  HttpRequest.mk "POST"
    (Some (fun k => if String.eqb k "request_id" then id
                    else if String.eqb k "action" then action else ""))
    (Err "http: no such file").

(** A submission of the start page. *)
Definition submit_request (location date : string) : HttpRequest.t :=
  HttpRequest.mk "POST"
    (Some (fun k => if String.eqb k "location" then location
                    else if String.eqb k "date" then date
                    else if String.eqb k "user_id" then "u1" else ""))
    (Ok "photo.jpg").

Module Demo.

(** The system after one submission at time 0 under [Sample.codec], the
    id generator answering [00a1] and the API key being [k]. *)
Definition submission : HttpRequest.t := submit_request "Paris" "2024-01-18".

Definition pending : Request.t :=
  Request.mk "00a1" "u1" "Paris" "" "" 0 0 "2024-01-18" "" "data/uploads/00a1.jpg"
    "" "" 0 0 0 0 0 0 "" "" "" "pending" "" "".

Definition submitted : Sys :=
  {| sys_db := (Store.saveRequest pending 0 ∅).2;
     sys_tasks := [@spawn Sample.codec "k" (TaskWeather "00a1" "Paris" (Time.Date 2024 1 18 0))];
     sys_log := [(None, Ev (GenerateID 16));
                 (None, Ev (SaveUploadedFile "photo.jpg" "00a1"));
                 (None, Ev (Exec (InsertRequest pending)));
                 (None, Ev (Go (TaskWeather "00a1" "Paris" (Time.Date 2024 1 18 0))))] |}.

(** A table holding one request with the given status. *)
Definition with_status (status : string) : Sys :=
  {| sys_db := Store.updateRequestStatus "00a1" status 0 (sys_db submitted);
     sys_tasks := []; sys_log := [] |}.

End Demo.

(** Starting with an allowance of [n] effects that [P] selects, [p]
    never exceeds it, whatever the answers, and [Q] holds of its result
    and of what is left of the allowance. *)
Fixpoint spends {R : Type} (P : event -> bool) (p : prog R) (n : nat)
    (Q : R -> nat -> Prop) : Prop :=
  match p with
  | Ret r => Q r n
  | Panic _ => True
  | Vis e k =>
      if P (Ev e) then
        match n with
        | O => False
        | S n' => forall a, spends P (k a) n' Q
        end
      else forall a, spends P (k a) n Q
  end.

(** [p] performs at most [n] effects that [P] selects. *)
Definition at_most {R : Type} (P : event -> bool) (n : nat) (p : prog R) : Prop :=
  spends P p n (fun _ _ => True).

Definition is_go (ev : event) : bool :=
  match ev with Ev (Go _) => true | _ => false end.


(** ** Vocabulary of the properties of one run *)

(** The events a program adds to the trace. *)
Definition performed {R : Type} (o : Oracle) (p : prog R) (w : World) : list event :=
  drop (length (w_trace w)) (w_trace (run o p w).2).

Definition count (P : event -> bool) (evs : list event) : nat :=
  length (filter (fun ev => P ev = true) evs).

Definition is_http (ev : event) : bool :=
  match ev with Ev (HttpGet _) => true | _ => false end.
Definition is_upload (ev : event) : bool :=
  match ev with Ev (UploadFile _) => true | _ => false end.
Definition is_download (ev : event) : bool :=
  match ev with Ev (DownloadImage _ _) => true | _ => false end.
Definition is_sleep (ev : event) : bool :=
  match ev with Ev (Sleep _) => true | _ => false end.
Definition is_write (ev : event) : bool :=
  match ev with Ev (Exec _) => true | _ => false end.

(** A call to the transform provider. *)
Definition is_transform_call (ev : event) : bool :=
  match ev with
  | Ev (UploadFile _) | Ev (CreatePrediction _ _)
  | Ev (GetPredictionStatus _) | Ev (DownloadImage _ _) => true
  | _ => false
  end.

(** [p] returns, whatever the answers, with a result that [Q] holds of:
    it cannot panic. *)
Fixpoint returns {R : Type} (p : prog R) (Q : R -> Prop) : Prop :=
  match p with
  | Ret r => Q r
  | Panic _ => False
  | Vis e k => forall a, returns (k a) Q
  end.

(** No constraint on the statuses written. *)
Definition any_edge (a b : string) : Prop := True.

(** The request of a background task. *)
Definition task_id (task : Task) : string :=
  match task with TaskWeather id _ _ | TaskReplicate id => id end.

(** A request in a terminal status. *)
Definition settled (st : option string) : Prop :=
  st = Some "completed" \/ st = Some "error" \/ st = Some "cancelled".


(** The record [submitHandler] builds for a new request. *)
Definition new_request (r : HttpRequest.t) (requestID imagePath : string) : Request.t :=
  {| Request.ID := requestID;
     Request.UserID := HttpRequest.FormValue r "user_id";
     Request.LocationInput := HttpRequest.FormValue r "location";
     Request.LocationName := "";
     Request.Country := "";
     Request.Latitude := 0;
     Request.Longitude := 0;
     Request.TargetDate := HttpRequest.FormValue r "date";
     Request.TimeOfDay := HttpRequest.FormValue r "time_of_day";
     Request.ImagePath := imagePath;
     Request.WeatherCondition := "";
     Request.WeatherDescription := "";
     Request.Temperature := 0;
     Request.FeelsLike := 0;
     Request.Humidity := 0;
     Request.Clouds := 0;
     Request.WindSpeed := 0;
     Request.Visibility := 0;
     Request.Precipitation := "";
     Request.AIPrompt := "";
     Request.PredictionID := "";
     Request.Status := "pending";
     Request.ErrorMessage := "";
     Request.ResultImagePath := "" |}.

(** ** Vocabulary of the properties of the store *)

(** What [getRequest] returns for a request just inserted: the inserted
    columns, and the zero value of every column the INSERT leaves NULL. *)
Definition as_inserted (req : Request.t) : Request.t :=
  {| Request.ID := Request.ID req;
     Request.UserID := Request.UserID req;
     Request.LocationInput := Request.LocationInput req;
     Request.LocationName := "";
     Request.Country := "";
     Request.Latitude := 0;
     Request.Longitude := 0;
     Request.TargetDate := Request.TargetDate req;
     Request.TimeOfDay := "";
     Request.ImagePath := Request.ImagePath req;
     Request.WeatherCondition := "";
     Request.WeatherDescription := "";
     Request.Temperature := 0;
     Request.FeelsLike := 0;
     Request.Humidity := 0;
     Request.Clouds := 0;
     Request.WindSpeed := 0;
     Request.Visibility := 0;
     Request.Precipitation := "";
     Request.AIPrompt := "";
     Request.PredictionID := "";
     Request.Status := Request.Status req;
     Request.ErrorMessage := "";
     Request.ResultImagePath := "" |}.

(** The precipitation column [updateRequestWeather] computes: rain goes
    before snow. *)
Definition precipitation_text (rain snow : Q) : string :=
  if Num.Qltb 0 rain then "Rain: " +:+ Str.format_float 1 rain +:+ "mm"
  else if Num.Qltb 0 snow then "Snow: " +:+ Str.format_float 1 snow +:+ "mm"
  else "".

(** A request with the weather columns replaced. *)
Definition with_weather (req : Request.t) (weatherData : WeatherData.t) (prompt : string)
    : Request.t :=
  {| Request.ID := Request.ID req;
     Request.UserID := Request.UserID req;
     Request.LocationInput := Request.LocationInput req;
     Request.LocationName := Request.LocationName req;
     Request.Country := Request.Country req;
     Request.Latitude := Request.Latitude req;
     Request.Longitude := Request.Longitude req;
     Request.TargetDate := Request.TargetDate req;
     Request.TimeOfDay := Request.TimeOfDay req;
     Request.ImagePath := Request.ImagePath req;
     Request.WeatherCondition := WeatherData.Condition weatherData;
     Request.WeatherDescription := WeatherData.Description weatherData;
     Request.Temperature := WeatherData.Temp weatherData;
     Request.FeelsLike := WeatherData.FeelsLike weatherData;
     Request.Humidity := WeatherData.Humidity weatherData;
     Request.Clouds := WeatherData.Clouds weatherData;
     Request.WindSpeed := WeatherData.WindSpeed weatherData;
     Request.Visibility := WeatherData.Visibility weatherData;
     Request.Precipitation :=
       precipitation_text (WeatherData.Rain weatherData) (WeatherData.Snow weatherData);
     Request.AIPrompt := prompt;
     Request.PredictionID := Request.PredictionID req;
     Request.Status := "weather_fetched";
     Request.ErrorMessage := Request.ErrorMessage req;
     Request.ResultImagePath := Request.ResultImagePath req |}.

(** The fields of a request that are fixed at its creation. *)
Definition same_fixed (req req' : Request.t) : Prop :=
  Request.ID req' = Request.ID req
  /\ Request.UserID req' = Request.UserID req
  /\ Request.LocationInput req' = Request.LocationInput req
  /\ Request.TargetDate req' = Request.TargetDate req
  /\ Request.ImagePath req' = Request.ImagePath req.

Definition fixed_columns : list string :=
  ["id"; "user_id"; "location_input"; "target_date"; "image_path"; "created_at"].

(** The value a SET clause assigns to a column, if any. *)
Fixpoint assigned (c : string) (set : list (string * SqlValue)) : option SqlValue :=
  match set with
  | [] => None
  | (c', v) :: set' => if String.eqb c' c then Some v else assigned c set'
  end.

Module Demo2.

(** [Demo.submitted] after a cancellation at time 5. *)
Definition cancellation : HttpRequest.t := confirm_request "00a1" "cancel".

Definition cancelled : Sys :=
  {| sys_db := Store.updateRequestStatus "00a1" "cancelled" 5 (sys_db Demo.submitted);
     sys_tasks := sys_tasks Demo.submitted;
     sys_log := sys_log Demo.submitted
                ++ [(None, Ev (Exec (UpdateStatus "00a1" "cancelled")))] |}.

End Demo2.

(** A statement that marks a request [completed] only by storing the
    result path made from its id. *)
Definition stmt_ok (s : stmt) : bool :=
  match s with
  | InsertRequest req => negb (String.eqb (Request.Status req) "completed")
  | UpdateStatus _ status => negb (String.eqb status "completed")
  | UpdateResult id path => String.eqb path (resultPath id)
  | _ => true
  end.

(** ** handlers.go: the pages

    The handlers that render a template or serve a file.  The data
    handed to the template is kept, the rendering is not modelled; the
    path value [id] of the route is the argument. *)

Inductive PageData : Type :=
| NoData
| StartData (UserID MinDate MaxDate : string)
| ConfirmData (Request : Request.t)
| ProcessingData (RequestID : string)
| StatusData (Status RequestID ErrorMessage : string).

Inductive Response : Type :=
| Reply (r : HttpReply)
| Page (name : string) (data : PageData)
| ServeFile (path : string).

Definition home : prog Response := mret (Page "home.html" NoData).

Definition startHandler : prog Response :=
  u ← call (GenerateID 8);
  match u with
  | Err _ => mret (Reply (HttpError "Failed to generate user ID" 500))
  | Ok userID =>
      now ← call Now;
      let minDate := Time.format_date (Time.AddDate now (-1) 0 0) in
      let maxDate := Time.format_date (Time.AddDate now 0 0 16) in
      mret (Page "start.html" (StartData userID minDate maxDate))
  end.

Definition weatherHandler (requestID : string) : prog Response :=
  q ← getRequest requestID;
  match q with
  | Err _ => mret (Reply (HttpError "Request not found" 404))
  | Ok req =>
      if negb (String.eqb (Request.Status req) "weather_fetched") then
        mret (Reply (Redirect ("/processing/" +:+ requestID) 303))
      else mret (Page "confirm.html" (ConfirmData req))
  end.

Definition processingHandler (requestID : string) : prog Response :=
  mret (Page "processing.html" (ProcessingData requestID)).

Definition statusHandler (requestID : string) : prog Response :=
  q ← getRequest requestID;
  match q with
  | Err _ => mret (Reply (HttpError "Request not found" 404))
  | Ok req =>
      mret (Page "status.html"
              (StatusData (Request.Status req) requestID (Request.ErrorMessage req)))
  end.

(** [os.Stat] looks at the file system, which is outside the store:
    [isNotExist path] tells whether it reports that the file does not
    exist. *)
Definition imageHandler (isNotExist : string -> bool) (requestID : string)
    : prog Response :=
  q ← getRequest requestID;
  match q with
  | Err _ => mret (Reply (HttpError "Request not found" 404))
  | Ok req =>
      if negb (String.eqb (Request.Status req) "completed") then
        mret (Reply (HttpError "Image not ready" 404))
      else
        let imagePath := Request.ResultImagePath req in
        if isNotExist imagePath then mret (Reply (HttpError "Image file not found" 404))
        else mret (ServeFile imagePath)
  end.

(** A world around the table of a state of the system. *)
Definition world_of (s : Sys) (now : Time.t) : World :=
  {| w_db := sys_db s; w_now := now; w_polls := 0; w_tasks := []; w_trace := [] |}.

(** A write that is not [stmt_ok]. *)
Definition is_odd_write (ev : event) : bool :=
  match ev with Ev (Exec s) => negb (stmt_ok s) | _ => false end.

(** Every completed request has the result path made from its id. *)
Definition ResultsNamed (db : DB) : Prop :=
  forall id row, db !! id = Some row ->
    Store.text row "status" = "completed" ->
    Store.text row "result_image_path" = resultPath id.

Definition Named (s : Sys) : Prop :=
  ResultsNamed (sys_db s)
  /\ forall m task p, sys_tasks s !! m = Some (task, p) -> at_most is_odd_write 0 p.

(** ** The system run step by step

    One step of the system computed against scripted answers: the task
    [n] performs its next effect, or a handler serves the request.  A
    step that cannot be made (no such task, or a task that has finished)
    leaves the system as it is. *)
Definition polls_so_far (s : Sys) : nat :=
  length (filter (fun x => is_poll x.2 = true) (sys_log s)).

Definition world_at (s : Sys) (now : Time.t) : World :=
  {| w_db := sys_db s; w_now := now; w_polls := polls_so_far s;
     w_tasks := []; w_trace := [] |}.

Definition sys_exec `{Codec} (key : string) (o : Oracle) (now : Time.t) (l : label)
    (s : Sys) : Sys :=
  match l with
  | LTask n =>
      match sys_tasks s !! n with
      | Some (task, Vis e k) =>
          let aw := handle o e (world_at s now) in
          {| sys_db := w_db aw.2;
             sys_tasks := <[n := (task, k aw.1)]> (sys_tasks s)
                          ++ (spawn key <$> w_tasks aw.2);
             sys_log := sys_log s ++ [(Some task, Ev e)] |}
      | _ => s
      end
  | LSubmit r =>
      let res := run o (submitHandler r) (world_at s now) in
      after_handler key s (w_db res.2) (w_tasks res.2) (w_trace res.2)
  | LConfirm r =>
      let res := run o (confirmHandler r) (world_at s now) in
      after_handler key s (w_db res.2) (w_tasks res.2) (w_trace res.2)
  end.

(** A schedule: the steps to make, each with the time it is made at. *)
Definition sys_exec_all `{Codec} (key : string) (o : Oracle)
    (schedule : list (Time.t * label)) (s : Sys) : Sys :=
  foldl (fun s tl => sys_exec key o tl.1 tl.2 s) s schedule.

Module Walk.

(** A request that goes all the way: submitted, located, given its
    forecast, confirmed, transformed at the first poll and completed. *)
Definition day : ForecastItem.t :=
  ForecastItem.mk 1705536000 (7 # 2) (1 # 2) 1015 80 (4 # 1) 250 75
    [WeatherEntry.mk 500 "Rain" "light rain" "10d"] (6 # 5) 0 (9 # 10).

Definition codec : Codec := {|
  unmarshal_GeocodingResult := fun _ => Ok Sample.paris;
  unmarshal_GeocodingResults := fun _ => Ok [Sample.paris];
  unmarshal_HistoricalWeatherResponse := fun _ => Err "unexpected end of JSON input";
  unmarshal_ForecastResponse := fun _ => Ok (ForecastResponse.mk "200" 1 [day]);
  parse_date := fun _ => Ok (Time.Date 2024 1 18 0)
|}.

Definition succeeded (n : nat) : result ReplicatePrediction.t :=
  Ok (Sample.prediction "succeeded" (JString "https://replicate.delivery/out.jpg") "").

Definition oracle : Oracle := Sample.oracle succeeded.

Definition noon : Time.t := Time.Date 2024 1 17 (12 * Time.Hour).

Definition confirmation : HttpRequest.t := confirm_request "00a1" "confirm".

Definition submitted : Sys :=
  @sys_exec_all codec "k" oracle [(noon, LSubmit Demo.submission)] sys_init.

Definition schedule : list (Time.t * label) :=
  replicate 7 (noon, LTask 0%nat)
    ++ (noon, LConfirm confirmation)
    :: replicate 8 (noon, LTask 1%nat)
    ++ [(noon, LConfirm confirmation)].

Definition final : Sys := @sys_exec_all codec "k" oracle schedule submitted.

End Walk.


(** ** Vocabulary of the properties of dates *)

(** Midnight (UTC) of the day of an instant. *)
Definition midnight (x : Time.t) : Time.t := x / Time.Day * Time.Day.

(** The address the weather lookup asks for a target in its window. *)
Definition lookup_url (key : string) (lat lon : Q) (targetDate now : Time.t) : string :=
  if targetDate <=? now
  then historyURL key lat lon (midnight targetDate) (midnight targetDate + 24 * Time.Hour)
  else forecastURL key lat lon ((targetDate - now) / Time.Day).

Module Form.

(** The start form at noon of 2024-01-17 and a parser for the two dates
    it offers. *)
Definition codec : Codec := {|
  unmarshal_GeocodingResult := fun _ => Ok Sample.paris;
  unmarshal_GeocodingResults := fun _ => Ok [Sample.paris];
  unmarshal_HistoricalWeatherResponse := fun _ => Err "unexpected end of JSON input";
  unmarshal_ForecastResponse := fun _ => Err "unexpected end of JSON input";
  parse_date := fun s => if String.eqb s "2023-01-17" then Ok (Time.Date 2023 1 17 0)
                         else Ok (Time.Date 2024 2 2 0)
|}.

Definition world : World := Dates.world (Time.Date 2024 1 17 (12 * Time.Hour)).

End Form.

(** ** Vocabulary of the properties of the request addresses *)

(** A byte that has no meaning of its own in a query string: a letter, a
    digit, one of [-_.~], or the [+] and [%] of the escaping. *)
Definition url_safe (c : ascii) : bool :=
  let n := Z.of_nat (nat_of_ascii c) in
  Str.is_digit c || Str.is_alpha c
  || (n =? 45) || (n =? 95) || (n =? 46) || (n =? 126) || (n =? 43) || (n =? 37).

Fixpoint all_bytes (P : ascii -> bool) (s : string) : bool :=
  match s with
  | EmptyString => true
  | String c s' => P c && all_bytes P s'
  end.

(** ** Vocabulary of the outcome of the weather run *)




(** ** Requests served concurrently

    [net/http] serves every request in a goroutine of its own, so the
    handlers under way and the background runs are threads over the one
    store: a step performs the next effect of one of them. *)

Inductive thread : Type :=
| Handler (p : prog HttpReply)
| Background (task : Task) (p : prog unit).

(** The goroutine an effect starts. *)
Definition started {A : Type} (e : effect A) : list Task :=
  match e with Go task => [task] | _ => [] end.

Record Pool := {
  p_threads : list thread;
  p_world : World
}.

Section Pool.
Context `{Codec} (openWeatherAPIKey : string) (o : Oracle).

Definition goroutine (task : Task) : thread :=
  Background task (task_prog openWeatherAPIKey task).

(** Thread [n] performs its next effect; a thread that has replied or
    returned, or that does not exist, does nothing. *)
Definition pool_step (s : Pool) (n : nat) : Pool :=
  match p_threads s !! n with
  | Some (Handler (Vis e k)) =>
      let aw := handle o e (p_world s) in
      {| p_threads := <[n := Handler (k aw.1)]> (p_threads s) ++ (goroutine <$> started e);
         p_world := aw.2 |}
  | Some (Background task (Vis e k)) =>
      let aw := handle o e (p_world s) in
      {| p_threads := <[n := Background task (k aw.1)]> (p_threads s)
                        ++ (goroutine <$> started e);
         p_world := aw.2 |}
  | _ => s
  end.

Definition pool_run (schedule : list nat) (s : Pool) : Pool :=
  foldl pool_step s schedule.

End Pool.

(** * Properties *)

(** ** Sanity checks of the formatting and calendar functions *)

Example format_float_25 : Str.format_float 1 25 = "25.0".
Proof. vm_compute. reflexivity. Qed.
Example format_float_neg : Str.format_float 1 (-(1 # 25)) = "-0.0".
Proof. vm_compute. reflexivity. Qed.
Example format_float_tie : Str.format_float 1 (3 # 4) = "0.8" /\ Str.format_float 1 (1 # 4) = "0.2".
Proof. vm_compute. split; reflexivity. Qed.
Example format_float_6 : Str.format_float 6 (4885 # 100) = "48.850000".
Proof. vm_compute. reflexivity. Qed.
Example civil_roundtrip : Time.civil_from_days (Time.days_from_civil 2024 2 29) = (2024, 2, 29).
Proof. vm_compute. reflexivity. Qed.
Example epoch_day : Time.days_from_civil 1970 1 1 = 0 /\ Time.days_from_civil 2024 3 1 = 19783.
Proof. vm_compute. split; reflexivity. Qed.
Example add_year_leap : Time.format_date (Time.AddDate (Time.Date 2024 2 29 0) (-1) 0 0) = "2023-03-01".
Proof. vm_compute. reflexivity. Qed.
Example sample_row :
  Store.getRequest "00a1" (Store.saveRequest Sample.request 0 ∅).2 = Ok Sample.request
  /\ Store.getRequest "00a1" Sample.db = Ok Sample.request.
Proof. vm_compute. split; reflexivity. Qed.
Example escape_ex : Str.QueryEscape "New York,US" = "New+York%2CUS".
Proof. vm_compute. reflexivity. Qed.

(** ** The store *)

Lemma set_columns_other (set : list (string * SqlValue)) (row : Row) (c : string) :
  c ∉ set.*1 -> Store.set_columns set row !! c = row !! c.
Proof.
  induction set as [|[c' v] set IH]; simpl; intros Hc; [done|].
  apply not_elem_of_cons in Hc as [Hne Hc].
  rewrite lookup_insert_ne by done. auto.
Qed.

Lemma update_lookup (id : string) set now (db : DB) (id' : string) :
  Store.update id set now db !! id' =
    if decide (id = id')
    then (fun row => <["updated_at" := SqlTime now]> (Store.set_columns set row)) <$> db !! id
    else db !! id'.
Proof.
  unfold Store.update. rewrite lookup_alter. case_decide; subst; done.
Qed.

Lemma update_other (id : string) set now (db : DB) (id' : string) :
  id <> id' -> Store.update id set now db !! id' = db !! id'.
Proof. intros. rewrite update_lookup. by case_decide. Qed.

Lemma update_absent (id : string) set now (db : DB) :
  db !! id = None -> Store.update id set now db = db.
Proof.
  intros Hn. apply map_eq. intros j. rewrite update_lookup.
  case_decide; subst; [by rewrite Hn|done].
Qed.

Lemma update_same (id : string) set now (db : DB) (row : Row) :
  db !! id = Some row ->
  Store.update id set now db !! id
    = Some (<["updated_at" := SqlTime now]> (Store.set_columns set row)).
Proof. intros Hrow. by rewrite update_lookup, decide_True, Hrow. Qed.

Lemma text_other (row row' : Row) (c : string) :
  row' !! c = row !! c -> Store.text row' c = Store.text row c.
Proof. unfold Store.text. by intros ->. Qed.

Lemma real_other (row row' : Row) (c : string) :
  row' !! c = row !! c -> Store.real row' c = Store.real row c.
Proof. unfold Store.real. by intros ->. Qed.

Lemma int_other (row row' : Row) (c : string) :
  row' !! c = row !! c -> Store.int row' c = Store.int row c.
Proof. unfold Store.int. by intros ->. Qed.

(** C10.  [updateRequestError] leaves every other request as it is, and in
    the request it names it assigns the columns [status], [error_message]
    and [updated_at] only: every other column, hence every field written by
    an earlier stage (location input, geocode results, weather fields,
    prompt, prediction id, result path), reads as before, both in the table
    and through [getRequest]. *)
Theorem updateRequestError_frame (o : Oracle) (id errorMsg : string) (w : World) :
  let w' := (run o (updateRequestError id errorMsg) w).2 in
  (forall id', id' <> id -> w_db w' !! id' = w_db w !! id')
  /\ (w_db w !! id = None -> w_db w' !! id = None)
  /\ (forall row, w_db w !! id = Some row ->
        exists row', w_db w' !! id = Some row'
          /\ row' !! "status" = Some (SqlText "error")
          /\ row' !! "error_message" = Some (SqlText errorMsg)
          /\ row' !! "updated_at" = Some (SqlTime (w_now w))
          /\ forall c, c ∉ error_columns -> row' !! c = row !! c)
  /\ (forall req, Store.getRequest id (w_db w) = Ok req ->
        Store.getRequest id (w_db w') = Ok (with_error req errorMsg)).
Proof.
  cbn. unfold Store.updateRequestError.
  assert (Hrow : forall row, w_db w !! id = Some row ->
    exists row', Store.update id [("status", SqlText "error");
        ("error_message", SqlText errorMsg)] (w_now w) (w_db w) !! id = Some row'
      /\ row' !! "status" = Some (SqlText "error")
      /\ row' !! "error_message" = Some (SqlText errorMsg)
      /\ row' !! "updated_at" = Some (SqlTime (w_now w))
      /\ forall c, c ∉ error_columns -> row' !! c = row !! c).
  { intros row Hrow. rewrite (update_same _ _ _ _ _ Hrow). simpl.
    eexists; split; [done|]. repeat split.
    - rewrite lookup_insert_ne by done. by rewrite lookup_insert_eq.
    - rewrite !lookup_insert_ne by done. by rewrite lookup_insert_eq.
    - by rewrite lookup_insert_eq.
    - intros c Hc. unfold error_columns in Hc.
      rewrite !not_elem_of_cons in Hc. destruct Hc as (?&?&?&_).
      by rewrite !lookup_insert_ne by done. }
  split; [|split; [|split]].
  - intros id' Hne. by apply update_other.
  - intros Hn. by rewrite update_absent.
  - exact Hrow.
  - intros req. unfold Store.getRequest.
    destruct (w_db w !! id) as [row|] eqn:Hr; [|done].
    intros [= <-]. destruct (Hrow row eq_refl) as (row' & -> & Hs & He & _ & Hc).
    f_equal. unfold Store.scan, with_error. simpl.
    assert (Ht : forall c, c ∉ error_columns -> Store.text row' c = Store.text row c)
      by (intros; apply text_other; auto).
    assert (Hq : forall c, c ∉ error_columns -> Store.real row' c = Store.real row c)
      by (intros; apply real_other; auto).
    assert (Hi : forall c, c ∉ error_columns -> Store.int row' c = Store.int row c)
      by (intros; apply int_other; auto).
    assert (Hst : Store.text row' "status" = "error") by (unfold Store.text; by rewrite Hs).
    assert (Hem : Store.text row' "error_message" = errorMsg)
      by (unfold Store.text; by rewrite He).
    rewrite Hst, Hem.
    rewrite !Ht, !Hq, !Hi by (unfold error_columns; rewrite !not_elem_of_cons, elem_of_nil; naive_solver).
    reflexivity.
Qed.

(** ** The processing run (replicate.go) *)

Lemma run_bind {A B : Type} (o : Oracle) (p : prog A) (f : A -> prog B) (w : World) :
  run o (p ≫= f) w =
    match run o p w with
    | (Returned r, w') => run o (f r) w'
    | (Panicked msg, w') => (Panicked msg, w')
    end.
Proof.
  revert w. induction p as [r|msg|X e k IH]; intros w; simpl; auto.
Qed.

Lemma first_terminal_range poll n : forall from k st,
  first_terminal poll from n = Some (k, st) ->
  (from <= k < from + n)%nat /\ poll k = Ok st
  /\ terminal_status (ReplicatePrediction.Status st) = true.
Proof.
  induction n as [|n IH]; intros from k st; simpl; [done|].
  destruct (poll from) as [s|e] eqn:Hp.
  - destruct (terminal_status _) eqn:Ht.
    + intros [= <- <-]. repeat split; [lia | lia | done | done].
    + intros Hf. apply IH in Hf as (? & ? & ?). repeat split; [lia | lia | done | done].
  - intros Hf. apply IH in Hf as (? & ? & ?). repeat split; [lia | lia | done | done].
Qed.

Lemma after_polls_0 pid w : after_polls pid 0 w = w.
Proof.
  destruct w. unfold after_polls. simpl. f_equal; [lia| lia | by rewrite app_nil_r].
Qed.

Lemma after_polls_S pid k w o :
  after_polls pid (S k) w =
    after_polls pid k (handle o (GetPredictionStatus pid) (handle o (Sleep (5 * Time.Second)) w).2).2.
Proof.
  destruct w. unfold after_polls. simpl. f_equal; try lia.
  rewrite <- !app_assoc. done.
Qed.

Lemma onStatus_nonterminal o id st w :
  terminal_status (ReplicatePrediction.Status st) = false ->
  run o (onStatus id st) w = (Returned None, w).
Proof.
  unfold terminal_status, onStatus. intros Hn.
  apply orb_false_iff in Hn as [Hn H3]. apply orb_false_iff in Hn as [H1 H2].
  by rewrite H1, H2, H3.
Qed.

Lemma onStatus_terminal o id st w :
  terminal_status (ReplicatePrediction.Status st) = true ->
  (exists w', run o (onStatus id st) w = (Returned (Some tt), w'))
  \/ (exists msg w', run o (onStatus id st) w = (Panicked msg, w')).
Proof.
  unfold terminal_status, onStatus. intros Hn.
  destruct (String.eqb (ReplicatePrediction.Status st) "succeeded").
  - rewrite run_bind. destruct (run o (outputURL _) w) as [[url|msg] w1]; [|eauto].
    destruct (String.eqb url ""); [left; eexists; reflexivity|].
    simpl. destruct (o_download _ _ _); left; eexists; reflexivity.
  - destruct (String.eqb (ReplicatePrediction.Status st) "failed"); [left; eexists; reflexivity|].
    destruct (String.eqb (ReplicatePrediction.Status st) "canceled"); [left; eexists; reflexivity|done].
Qed.

Lemma pollLoop_run o id pid n : forall w,
  run o (pollLoop id pid n) w =
    match first_terminal (o_poll o) (w_polls w) n with
    | None => (Returned false, after_polls pid n w)
    | Some (k, st) =>
        match run o (onStatus id st) (after_polls pid (S k - w_polls w) w) with
        | (Returned _, w') => (Returned true, w')
        | (Panicked msg, w') => (Panicked msg, w')
        end
    end.
Proof.
  induction n as [|n IH]; intros w.
  - simpl. by rewrite after_polls_0.
  - cbn [pollLoop first_terminal]. 
    change (run o (call (Sleep (5 * Time.Second));; ?k) w) with
      (run o k (handle o (Sleep (5 * Time.Second)) w).2).
    set (w1 := (handle o (Sleep (5 * Time.Second)) w).2).
    change (run o (getPredictionStatus pid ≫= ?k) w1) with 
      (run o (k (o_poll o (w_polls w))) (handle o (GetPredictionStatus pid) w1).2).
    set (w2 := (handle o (GetPredictionStatus pid) w1).2).
    assert (Hp : w_polls w2 = S (w_polls w)) by done.
    destruct (o_poll o (w_polls w)) as [st|err] eqn:Hpoll.
    + destruct (terminal_status (ReplicatePrediction.Status st)) eqn:Hterm.
      * replace (S (w_polls w) - w_polls w)%nat with 1%nat by lia.
        rewrite (after_polls_S pid 0 w o). fold w1 w2. rewrite after_polls_0.
        rewrite run_bind.
        destruct (onStatus_terminal o id st w2 Hterm) as [[w' ->]|(msg & w' & ->)]; done.
      * rewrite run_bind, onStatus_nonterminal by done.
        rewrite IH, Hp. destruct (first_terminal _ _ _) as [[k st']|] eqn:Hft.
        -- apply first_terminal_range in Hft as (Hk & _).
           replace (S k - w_polls w)%nat with (S (S k - S (w_polls w)))%nat by lia.
           by rewrite (after_polls_S pid _ w o).
        -- by rewrite (after_polls_S pid n w o).
    + rewrite IH, Hp. destruct (first_terminal _ _ _) as [[k st']|] eqn:Hft.
      * apply first_terminal_range in Hft as (Hk & _).
        replace (S k - w_polls w)%nat with (S (S k - S (w_polls w)))%nat by lia.
        by rewrite (after_polls_S pid _ w o).
      * by rewrite (after_polls_S pid n w o).
Qed.

Ltac row_lookup :=
  simpl; unfold Store.text;
  repeat first [ rewrite lookup_insert_eq | rewrite lookup_insert_ne by done ].

Lemma stored_error id msg now (db : DB) row :
  db !! id = Some row ->
  stored id (Store.updateRequestError id msg now db) Request.Status = Some "error"
  /\ stored id (Store.updateRequestError id msg now db) Request.ErrorMessage = Some msg.
Proof.
  intros Hrow. unfold stored, Store.getRequest, Store.updateRequestError.
  rewrite (update_same _ _ _ _ _ Hrow). split; f_equal; by row_lookup.
Qed.

Lemma stored_status id st now (db : DB) row :
  db !! id = Some row ->
  stored id (Store.updateRequestStatus id st now db) Request.Status = Some st.
Proof.
  intros Hrow. unfold stored, Store.getRequest, Store.updateRequestStatus.
  rewrite (update_same _ _ _ _ _ Hrow). f_equal; by row_lookup.
Qed.

Lemma stored_result id path now (db : DB) row :
  db !! id = Some row ->
  stored id (Store.updateRequestResult id path now db) Request.Status = Some "completed"
  /\ stored id (Store.updateRequestResult id path now db) Request.ResultImagePath = Some path.
Proof.
  intros Hrow. unfold stored, Store.getRequest, Store.updateRequestResult.
  rewrite (update_same _ _ _ _ _ Hrow). split; f_equal; by row_lookup.
Qed.

Lemma filter_poll_rounds pid k :
  List.filter is_sleep_or_poll (concat (replicate k (poll_round pid)))
  = concat (replicate k (poll_round pid)).
Proof. induction k as [|k IH]; simpl; [done|]. by rewrite IH. Qed.


Lemma run_call {A : Type} (o : Oracle) (e : effect A) (w : World) :
  run o (call e) w = (Returned (handle o e w).1, (handle o e w).2).
Proof. reflexivity. Qed.

Lemma run_exec o s w :
  run o (call (Exec s)) w =
    (Returned (exec_stmt s (w_now w) (w_db w)).1,
     {| w_db := (exec_stmt s (w_now w) (w_db w)).2; w_now := w_now w;
        w_polls := w_polls w; w_tasks := w_tasks w;
        w_trace := w_trace w ++ [Ev (Exec s)] |}).
Proof. reflexivity. Qed.


Lemma same_clock_refl w : same_clock w w.
Proof. by repeat split. Qed.

Lemma same_clock_exec o s w : same_clock w (run o (call (Exec s)) w).2.
Proof.
  rewrite run_exec. repeat split. cbn [snd w_trace].
  rewrite List.filter_app. cbn. by rewrite app_nil_r.
Qed.

Lemma same_clock_download o u p w : same_clock w (run o (downloadImage u p) w).2.
Proof.
  unfold downloadImage. rewrite run_call. repeat split. 
  cbn [handle log snd w_trace]. rewrite List.filter_app. cbn. by rewrite app_nil_r.
Qed.

Lemma same_clock_trans w1 w2 w3 : same_clock w1 w2 -> same_clock w2 w3 -> same_clock w1 w3.
Proof. intros (?&?&?) (?&?&?). repeat split; congruence. Qed.

Lemma run_outputURL o out w : (run o (outputURL out) w).2 = w.
Proof. destruct out as [| | | |[|[] ?]|]; reflexivity. Qed.

Lemma run_then_ret {A B : Type} o (p : prog A) (b : B) w :
  (run o (p ;; mret b) w).2 = (run o p w).2.
Proof. rewrite run_bind. by destruct (run o p w) as [[]]. Qed.

Lemma onStatus_frame o id st w : same_clock w (run o (onStatus id st) w).2.
Proof.
  unfold onStatus.
  destruct (String.eqb (ReplicatePrediction.Status st) "succeeded").
  - rewrite run_bind. pose proof (run_outputURL o (ReplicatePrediction.Output st) w) as Hw.
    destruct (run o (outputURL _) w) as [[url|msg] w1]; simpl in Hw; subst w1;
      [|apply same_clock_refl].
    destruct (String.eqb url "").
    + rewrite run_then_ret. apply same_clock_exec.
    + rewrite run_bind.
      pose proof (same_clock_download o url (resultPath id) w) as Hd.
      destruct (run o (downloadImage _ _) w) as [[[err|]|msg] w1]; simpl in Hd; [| |done].
      * rewrite run_then_ret. eapply same_clock_trans; [done|apply same_clock_exec].
      * rewrite run_then_ret. eapply same_clock_trans; [done|apply same_clock_exec].
  - destruct (String.eqb (ReplicatePrediction.Status st) "failed").
    { rewrite run_then_ret. apply same_clock_exec. }
    destruct (String.eqb (ReplicatePrediction.Status st) "canceled").
    { rewrite run_then_ret. apply same_clock_exec. }
    apply same_clock_refl.
Qed.

Lemma onStatus_failed o id st w :
  ReplicatePrediction.Status st = "failed" ->
  w_db (run o (onStatus id st) w).2 =
    Store.updateRequestError id
      (if String.eqb (ReplicatePrediction.Error st) "" then "Prediction failed"
       else ReplicatePrediction.Error st) (w_now w) (w_db w).
Proof.
  intros Hs. unfold onStatus. rewrite Hs. cbn [String.eqb Ascii.eqb Bool.eqb].
  rewrite run_then_ret. unfold updateRequestError. rewrite run_exec.
  by destruct (String.eqb (ReplicatePrediction.Error st) "").
Qed.

Lemma onStatus_canceled o id st w :
  ReplicatePrediction.Status st = "canceled" ->
  w_db (run o (onStatus id st) w).2 =
    Store.updateRequestStatus id "cancelled" (w_now w) (w_db w).
Proof.
  intros Hs. unfold onStatus. rewrite Hs. cbn [String.eqb Ascii.eqb Bool.eqb].
  rewrite run_then_ret. unfold updateRequestStatus. by rewrite run_exec.
Qed.

Lemma run_outputURL_valid o out url w :
  valid_output out url -> run o (outputURL out) w = (Returned url, w).
Proof. intros [_ [->|[rest ->]]]; reflexivity. Qed.

Lemma onStatus_succeeded o id st url w :
  ReplicatePrediction.Status st = "succeeded" ->
  valid_output (ReplicatePrediction.Output st) url ->
  o_download o url (resultPath id) = None ->
  w_db (run o (onStatus id st) w).2 =
    Store.updateRequestResult id (resultPath id) (w_now w) (w_db w).
Proof.
  intros Hs Hv Hd. unfold onStatus. rewrite Hs. cbn [String.eqb Ascii.eqb Bool.eqb].
  rewrite run_bind, (run_outputURL_valid _ _ _ _ Hv).
  destruct Hv as [Hne _]. apply String.eqb_neq in Hne. rewrite Hne.
  rewrite run_bind. unfold downloadImage. rewrite run_call.
  change (handle o (DownloadImage ?u ?p) ?x).1 with (o_download o u p). rewrite Hd.
  rewrite run_then_ret. unfold updateRequestResult. by rewrite run_exec.
Qed.

Theorem poll_loop_outcome (o : Oracle) (id : string) (w : World) (row : Row)
    (imageURL : string) (prediction : ReplicatePrediction.t) :
  w_db w !! id = Some row ->
  o_upload o (Store.text row "image_path") = Ok imageURL ->
  o_create o (Store.text row "ai_prompt") imageURL = Ok prediction ->
  let pid := ReplicatePrediction.ID prediction in
  let res := run o (processImageWithReplicate id) w in
  let polls := (w_polls res.2 - w_polls w)%nat in
  (polls <= 120)%nat
  /\ w_now res.2 = w_now w + 5 * Time.Second * Z.of_nat polls
  /\ List.filter is_sleep_or_poll (w_trace res.2)
     = List.filter is_sleep_or_poll (w_trace w) ++ concat (replicate polls (poll_round pid))
  /\ match first_terminal (o_poll o) (w_polls w) 120 with
     | None =>
         polls = 120%nat
         /\ stored id (w_db res.2) Request.Status = Some "error"
         /\ stored id (w_db res.2) Request.ErrorMessage = Some "Image processing timeout"
     | Some (k, st) =>
         polls = (S k - w_polls w)%nat
         /\ (ReplicatePrediction.Status st = "failed" ->
             stored id (w_db res.2) Request.Status = Some "error"
             /\ stored id (w_db res.2) Request.ErrorMessage
                = Some (if String.eqb (ReplicatePrediction.Error st) ""
                        then "Prediction failed" else ReplicatePrediction.Error st))
         /\ (ReplicatePrediction.Status st = "canceled" ->
             stored id (w_db res.2) Request.Status = Some "cancelled")
         /\ (ReplicatePrediction.Status st = "succeeded" ->
             forall url, valid_output (ReplicatePrediction.Output st) url ->
               o_download o url (resultPath id) = None ->
               stored id (w_db res.2) Request.Status = Some "completed"
               /\ stored id (w_db res.2) Request.ResultImagePath = Some (resultPath id))
     end.
Proof.
  intros Hrow Hup Hcr pid res polls.
  set (w1 := {| w_db := Store.updateRequestPredictionID id pid (w_now w) (w_db w);
                w_now := w_now w; w_polls := w_polls w; w_tasks := w_tasks w;
                w_trace := w_trace w ++ [Ev (Query id); Ev (UploadFile (Store.text row "image_path"));
                   Ev (CreatePrediction (Store.text row "ai_prompt") imageURL);
                   Ev (Exec (UpdatePredictionID id pid))] |}).
  set (rest := fun returned : bool =>
        if returned then mret tt
        else updateRequestError id "Image processing timeout";; mret tt).
  assert (Hres : res = run o (pollLoop id pid maxAttempts ≫= rest) w1).
  { subst res polls. unfold processImageWithReplicate.
    rewrite run_bind. unfold getRequest. rewrite run_call.
    change (handle o (Query id) w).1 with (Store.getRequest id (w_db w)).
    unfold Store.getRequest at 1. rewrite Hrow.
    rewrite run_bind. unfold uploadFileToReplicate. rewrite run_call.
    change (handle o (UploadFile ?p) ?x).1 with (o_upload o p).
    change (Request.ImagePath (Store.scan row)) with (Store.text row "image_path").
    rewrite Hup.
    rewrite run_bind. unfold createReplicatePrediction. rewrite run_call.
    change (handle o (CreatePrediction ?p ?u) ?x).1 with (o_create o p u).
    change (Request.AIPrompt (Store.scan row)) with (Store.text row "ai_prompt").
    rewrite Hcr.
    rewrite run_bind. unfold updateRequestPredictionID. rewrite run_exec.
    subst w1 rest pid. unfold log. cbn [w_db w_now w_polls w_tasks w_trace].
    cbn [handle log w_db w_now w_polls w_tasks w_trace exec_stmt fst snd].
    rewrite <- !app_assoc. reflexivity. }
  assert (Hrow1 : exists row1, w_db w1 !! id = Some row1).
  { subst w1. cbn [w_db]. unfold Store.updateRequestPredictionID.
    rewrite (update_same _ _ _ _ _ Hrow). eauto. }
  destruct Hrow1 as [row1 Hrow1].
  assert (Ht1 : List.filter is_sleep_or_poll (w_trace w1)
                = List.filter is_sleep_or_poll (w_trace w)).
  { subst w1. cbn [w_trace]. rewrite List.filter_app. cbn. by rewrite app_nil_r. }
  assert (Hclock : forall k w', same_clock (after_polls pid k w1) w' ->
    let n := (w_polls w' - w_polls w)%nat in
    n = k /\ w_now w' = w_now w + 5 * Time.Second * Z.of_nat n
    /\ List.filter is_sleep_or_poll (w_trace w')
       = List.filter is_sleep_or_poll (w_trace w) ++ concat (replicate n (poll_round pid))).
  { intros k w' (Hp & Hn & Ht). cbn zeta. rewrite Hp, Hn, Ht.
    cbn [after_polls w_polls w_now w_trace w1].
    replace (w_polls w + k - w_polls w)%nat with k by lia.
    rewrite List.filter_app, filter_poll_rounds, <- Ht1. done. }
  rewrite run_bind, pollLoop_run in Hres.
  change (w_polls w1) with (w_polls w) in Hres.
  unfold maxAttempts in Hres.
  destruct (first_terminal (o_poll o) (w_polls w) 120) as [[k st]|] eqn:Hft.
  - apply first_terminal_range in Hft as (Hk & Hpoll & Hterm).
    set (w2 := after_polls pid (S k - w_polls w) w1) in *.
    assert (Hrow2 : w_db w2 !! id = Some row1) by exact Hrow1.
    pose proof (onStatus_frame o id st w2) as Hframe.
    assert (Hres2 : res.2 = (run o (onStatus id st) w2).2).
    { rewrite Hres. by destruct (run o (onStatus id st) w2) as [[[]|] ?]. }
    clearbody res. subst polls. rewrite Hres2.
    destruct (Hclock _ _ Hframe) as (Hn & Hnow & Htr). rewrite Hn in Hnow, Htr.
    rewrite Hn. split; [lia|]. split; [done|]. split; [done|].
    split; [done|]. split; [|split].
    + intros Hs. rewrite (onStatus_failed _ _ _ _ Hs).
      apply (stored_error _ _ _ _ _ Hrow2).
    + intros Hs. rewrite (onStatus_canceled _ _ _ _ Hs).
      apply (stored_status _ _ _ _ _ Hrow2).
    + intros Hs url Hv Hd. rewrite (onStatus_succeeded _ _ _ _ _ Hs Hv Hd).
      apply (stored_result _ _ _ _ _ Hrow2).
  - set (w2 := after_polls pid 120 w1) in *.
    assert (Hrow2 : w_db w2 !! id = Some row1) by exact Hrow1.
    assert (Hres2 : res.2 = (run o (call (Exec (UpdateError id "Image processing timeout"))) w2).2).
    { rewrite Hres. subst rest. cbv beta iota. by rewrite run_then_ret. }
    clearbody res. subst polls. rewrite Hres2.
    destruct (Hclock _ _ (same_clock_exec o (UpdateError id "Image processing timeout") w2))
      as (Hn & Hnow & Htr). rewrite Hn in Hnow, Htr.
    rewrite Hn. split; [lia|]. split; [done|]. split; [done|]. split; [done|].
    rewrite run_exec. apply (stored_error _ _ _ _ _ Hrow2).
Qed.


(** C1, at the boundary of the budget: [processing] for attempts 1 to 119
    and [succeeded] on attempt 120 gives [completed] after 120 polls. *)
Lemma poll_loop_outcome_witness :
  let res := run (Sample.oracle Sample.late_success)
               (processImageWithReplicate "00a1") Sample.world in
  w_polls res.2 = 120%nat
  /\ stored "00a1" (w_db res.2) Request.Status = Some "completed"
  /\ stored "00a1" (w_db res.2) Request.ResultImagePath = Some (resultPath "00a1").
Proof.
  assert (Hrow : w_db Sample.world !! "00a1" = Some Sample.row)
    by apply lookup_insert_eq.
  pose proof (poll_loop_outcome (Sample.oracle Sample.late_success) "00a1" Sample.world
    Sample.row "https://api.replicate.com/v1/files/f1"
    (Sample.prediction "starting" JNull "") Hrow eq_refl eq_refl) as H.
  cbv zeta in H. destruct H as (_ & _ & _ & H).
  assert (Hft : first_terminal (o_poll (Sample.oracle Sample.late_success))
                  (w_polls Sample.world) 120
                = Some (119%nat, Sample.prediction "succeeded"
                     (JArray [JString "https://replicate.delivery/out.jpg"]) ""))
    by (vm_compute; reflexivity).
  rewrite Hft in H. destruct H as (Hn & _ & _ & Hs).
  cbv zeta. split; [|apply (Hs eq_refl "https://replicate.delivery/out.jpg")].
  - change (w_polls Sample.world) with 0%nat in Hn. lia.
  - split; [discriminate|]. right. by exists [].
  - reflexivity.
Defined.

(** C9.  The output of a succeeded job: a string is the URL, an empty
    array and every non-array shape give the empty URL, an array starting
    with a string gives that string; an array starting with anything else
    makes the type assertion panic. *)
Theorem outputURL_cases (output : JSON) :
  match output with
  | JString v => outputURL output = Ret v
  | JArray (JString s :: _) => outputURL output = Ret s
  | JArray (_ :: _) =>
      outputURL output = Panic "interface conversion: interface {} is not string"
  | _ => outputURL output = Ret ""
  end.
Proof. destruct output as [| | | |[|[] ?]|]; reflexivity. Qed.

(** C9, at the failing input: a succeeded job whose output is the array
    [[1]] ends the run in a panic; no error is recorded and the request
    stays in [processing]. *)
Theorem non_string_output_panics :
  let res := run (Sample.oracle Sample.odd_output)
               (processImageWithReplicate "00a1") Sample.world in
  res.1 = Panicked "interface conversion: interface {} is not string"
  /\ stored "00a1" (w_db res.2) Request.Status = Some "processing"
  /\ stored "00a1" (w_db res.2) Request.ErrorMessage = Some "".
Proof. vm_compute. repeat split; reflexivity. Qed.

(** ** Geocoding (weather.go) *)

Lemma is_digit_spec (c : ascii) :
  Str.is_digit c = true <-> (48 <= nat_of_ascii c <= 57)%nat.
Proof.
  unfold Str.is_digit. cbv zeta. rewrite andb_true_iff, !Z.leb_le. lia.
Qed.

(** The loop with [break] finds a digit exactly when there is one. *)
Lemma isZipCode_spec (location : string) :
  isZipCode location = true <-> has_digit location.
Proof.
  unfold has_digit. induction location as [|c rest IH]; simpl.
  - split; [done|]. by intros (c & [] & _).
  - destruct (Str.is_digit c) eqn:Hc.
    + split; [|done]. intros _. exists c. split; [by left|]. by apply is_digit_spec.
    + rewrite IH. split.
      * intros (c' & Hin & Hd). exists c'. split; [by right|done].
      * intros (c' & [<-|Hin] & Hd); [|by exists c'].
        apply is_digit_spec in Hd. congruence.
Qed.

Lemma zipURL_endpoint key location :
  Str.has_prefix zip_endpoint (zipURL key location) = true
  /\ Str.has_prefix direct_endpoint (zipURL key location) = false.
Proof. split; reflexivity. Qed.

Lemma directURL_endpoint key location :
  Str.has_prefix direct_endpoint (directURL key location) = true
  /\ Str.has_prefix zip_endpoint (directURL key location) = false.
Proof. split; reflexivity. Qed.

(** C7 (amended).  With the API key configured, [geocodeLocation] makes
    exactly one request; it goes to the zip endpoint if and only if the
    location holds a decimal digit, and to the free-text search endpoint
    otherwise.  A successful zip lookup yields the single decoded result; a
    successful search yields the first match and fails with "location not
    found" when there is none. *)
Theorem geocode_routing `{Codec} (key location : string) (o : Oracle) (w : World) :
  key <> "" ->
  let res := run o (geocodeLocation key location) w in
  exists url,
    w_trace res.2 = w_trace w ++ [Ev (HttpGet url)]
    /\ (Str.has_prefix zip_endpoint url = true <-> has_digit location)
    /\ (Str.has_prefix direct_endpoint url = true <-> ~ has_digit location)
    /\ (forall resp body,
          o_http o url = Ok resp -> HttpResponse.Body resp = Ok body ->
          HttpResponse.StatusCode resp = 200 ->
          (has_digit location ->
             forall result, unmarshal_GeocodingResult body = Ok result ->
               res.1 = Returned (Ok result))
          /\ (~ has_digit location ->
             forall results, unmarshal_GeocodingResults body = Ok results ->
               res.1 = Returned (match results with
                                 | [] => Err "location not found"
                                 | first :: _ => Ok first
                                 end))).
Proof.
  intros Hkey res. subst res. unfold geocodeLocation.
  apply String.eqb_neq in Hkey. rewrite Hkey.
  pose proof (isZipCode_spec location) as Hz.
  set (url := if isZipCode location then zipURL key location else directURL key location).
  exists url. rewrite run_bind, run_call.
  change (handle o (HttpGet url) w).1 with (o_http o url).
  assert (Htrace : forall (p : prog (result GeocodingResult.t)),
            (forall w', (run o p w').2 = w') ->
            w_trace (run o p (handle o (HttpGet url) w).2).2 = w_trace w ++ [Ev (HttpGet url)]).
  { intros p Hp. by rewrite Hp. }
  split; [|split; [|split]].
  - apply Htrace. intros w'.
    destruct (o_http o url) as [resp|err]; [|done].
    destruct (HttpResponse.Body resp) as [body|err]; [|done].
    destruct (negb _); [done|]. destruct (isZipCode location).
    + by destruct (unmarshal_GeocodingResult body).
    + by destruct (unmarshal_GeocodingResults body) as [[|]|].
  - subst url. destruct (isZipCode location).
    + rewrite (proj1 (zipURL_endpoint _ _)). tauto.
    + rewrite (proj2 (directURL_endpoint _ _)). split; [done|]. intros Hd. by apply Hz.
  - subst url. destruct (isZipCode location).
    + rewrite (proj2 (zipURL_endpoint _ _)). split; [done|]. intros Hn. destruct Hn. by apply Hz.
    + rewrite (proj1 (directURL_endpoint _ _)). split; [|done]. intros _ Hd.
      apply Hz in Hd. done.
  - intros resp body -> -> Hcode. rewrite Hcode. cbn [Z.eqb Pos.eqb negb].
    split.
    + intros Hd result Hr. apply Hz in Hd. rewrite Hd, Hr. reflexivity.
    + intros Hn results Hr. destruct (isZipCode location); [destruct Hn; by apply Hz|].
      rewrite Hr. by destruct results.
Qed.

Lemma has_digit_10001 : has_digit "10001".
Proof. apply isZipCode_spec. reflexivity. Qed.

(** C7, at the input "10001": the request goes to the zip endpoint. *)
Lemma geocode_routing_witness :
  "k" <> "" /\
  exists url,
    w_trace (run (Sample.oracle Sample.late_success)
               (@geocodeLocation Sample.codec "k" "10001") Sample.world).2
      = w_trace Sample.world ++ [Ev (HttpGet url)]
    /\ Str.has_prefix zip_endpoint url = true.
Proof.
  split; [discriminate|].
  destruct (@geocode_routing Sample.codec "k" "10001" (Sample.oracle Sample.late_success) Sample.world
              ltac:(discriminate)) as (url & Ht & Hz & _).
  exists url. split; [exact Ht|]. apply Hz. exact has_digit_10001.
Defined.

(** C7 as stated fails without the API key: the digit-bearing location
    "10001" is not routed to the zip endpoint, no request is made at all
    and the call fails before the location is looked at. *)
Lemma geocode_unconfigured_counterexample :
  has_digit "10001"
  /\ run (Sample.oracle Sample.late_success)
       (@geocodeLocation Sample.codec "" "10001") Sample.world
     = (Returned (Err "OpenWeather API key not configured"), Sample.world).
Proof. split; [exact has_digit_10001|reflexivity]. Qed.

(** ** Prompt synthesis (weather.go) *)

Lemma append_assoc (a b c : string) : (a +:+ b) +:+ c = a +:+ b +:+ c.
Proof.
  induction a as [|x a IH]; [reflexivity|].
  change (String x ((a +:+ b) +:+ c) = String x (a +:+ b +:+ c)). by rewrite IH.
Qed.

Lemma append_nil_r (a : string) : a +:+ "" = a.
Proof.
  induction a as [|x a IH]; [reflexivity|].
  change (String x (a +:+ "") = String x a). by rewrite IH.
Qed.

Lemma Qltb_lt (x y : Q) : Num.Qltb x y = true <-> (x < y)%Q.
Proof.
  unfold Num.Qltb. rewrite negb_true_iff, <- not_true_iff_false, Qle_bool_iff.
  split; [apply Qnot_le_lt | apply Qlt_not_le].
Qed.

Lemma Qltb_ge (x y : Q) : Num.Qltb x y = false <-> (y <= x)%Q.
Proof. unfold Num.Qltb. by rewrite negb_false_iff, Qle_bool_iff. Qed.

#[global] Instance Qltb_proper : Proper (Qeq ==> Qeq ==> eq) Num.Qltb.
Proof.
  intros x x' Hx y y' Hy. destruct (Num.Qltb x' y') eqn:H'.
  - apply Qltb_lt. apply Qltb_lt in H'. by rewrite Hx, Hy.
  - apply Qltb_ge. apply Qltb_ge in H'. by rewrite Hx, Hy.
Qed.

#[global] Instance round_half_even_proper : Proper (Qeq ==> eq) Num.round_half_even.
Proof.
  intros x y Hxy. unfold Num.round_half_even.
  assert (Hf : Qfloor x = Qfloor y) by (by rewrite Hxy).
  rewrite Hf.
  assert (Hc : ((x - inject_Z (Qfloor y)) ?= 1 # 2)%Q = ((y - inject_Z (Qfloor y)) ?= 1 # 2)%Q)
    by (by rewrite Hxy).
  by rewrite Hc.
Qed.

#[global] Instance format_float_proper (prec : nat) :
  Proper (Qeq ==> eq) (Str.format_float prec).
Proof.
  intros x y Hxy. unfold Str.format_float.
  assert (Hr : Num.round_half_even (Qabs x * inject_Z (10 ^ Z.of_nat prec))
             = Num.round_half_even (Qabs y * inject_Z (10 ^ Z.of_nat prec)))
    by (by rewrite Hxy).
  assert (Hs : Num.Qltb x 0 = Num.Qltb y 0) by (by rewrite Hxy).
  by rewrite Hr, Hs.
Qed.

Lemma contains_here (a s b : string) : Str.contains (a +:+ s +:+ b) s.
Proof. by exists a, b. Qed.

Lemma contains_later (a t s : string) : Str.contains t s -> Str.contains (a +:+ t) s.
Proof.
  intros (x & y & ->). exists (a +:+ x), y. by rewrite append_assoc.
Qed.

Lemma contains_prefix (s b : string) : Str.contains (s +:+ b) s.
Proof. by exists "", b. Qed.

Lemma contains_within (t b s : string) : Str.contains t s -> Str.contains (t +:+ b) s.
Proof.
  intros (x & y & ->). exists x, (y +:+ b). by rewrite !append_assoc.
Qed.

Lemma temperature_band_of (temp : Q) :
  temperature_band temp
    (if Num.Qltb temp 0 then "freezing cold"
     else if Num.Qltb temp 10 then "cold"
     else if Num.Qltb temp 20 then "cool"
     else if Num.Qltb temp 28 then "warm"
     else "hot").
Proof.
  unfold temperature_band.
  destruct (Num.Qltb temp 0) eqn:H0; [apply Qltb_lt in H0; tauto|apply Qltb_ge in H0].
  destruct (Num.Qltb temp 10) eqn:H1; [apply Qltb_lt in H1; tauto|apply Qltb_ge in H1].
  destruct (Num.Qltb temp 20) eqn:H2; [apply Qltb_lt in H2; tauto|apply Qltb_ge in H2].
  destruct (Num.Qltb temp 28) eqn:H3; [apply Qltb_lt in H3; tauto|apply Qltb_ge in H3].
  tauto.
Qed.

Lemma cloud_band_of (clouds : Z) :
  exists band,
    cloud_band clouds band
    /\ Str.contains
         (if clouds <? 20 then "clear skies"
          else if clouds <? 50 then "partly cloudy skies"
          else if clouds <? 80 then "mostly cloudy skies"
          else "overcast skies") band.
Proof.
  unfold cloud_band.
  destruct (Z.ltb_spec clouds 20).
  { exists "clear skies". split; [tauto|]. by exists "", "". }
  destruct (Z.ltb_spec clouds 50).
  { exists "partly cloudy". split; [right; left; split; [lia|done]|]. by exists "", " skies". }
  destruct (Z.ltb_spec clouds 80).
  { exists "mostly cloudy". split; [right; right; left; split; [lia|done]|]. by exists "", " skies". }
  exists "overcast". split; [right; right; right; split; [lia|done]|]. by exists "", " skies".
Qed.

Lemma precipitation_present (rain snow : Q) :
  let what :=
    if Num.Qltb 0 rain then
      if Num.Qltb rain (5 # 2) then "light rain"
      else if Num.Qltb rain 10 then "moderate rain" else "heavy rain"
    else if Num.Qltb 0 snow then
      if Num.Qltb snow (5 # 2) then "light snow"
      else if Num.Qltb snow 10 then "moderate snow" else "heavy snow"
    else "" in
  (what = "" -> ~ ((0 < rain)%Q \/ (0 < snow)%Q))
  /\ (what <> "" -> (0 < rain)%Q \/ (0 < snow)%Q).
Proof.
  cbv zeta.
  destruct (Num.Qltb 0 rain) eqn:Hr.
  { apply Qltb_lt in Hr. split; [|by left].
    by destruct (Num.Qltb rain (5 # 2)), (Num.Qltb rain 10). }
  apply Qltb_ge in Hr.
  destruct (Num.Qltb 0 snow) eqn:Hs.
  { apply Qltb_lt in Hs. split; [|by right].
    by destruct (Num.Qltb snow (5 # 2)), (Num.Qltb snow 10). }
  apply Qltb_ge in Hs. split; [|done].
  intros _ [H|H]; eapply Qlt_not_le; eauto.
Qed.

Lemma visibility_present (visibility : Z) :
  let what :=
    if visibility <? 1000 then "with very poor visibility"
    else if visibility <? 5000 then "with reduced visibility"
    else "" in
  (what = "" -> ~ visibility < 5000) /\ (what <> "" -> visibility < 5000).
Proof.
  cbv zeta. destruct (Z.ltb_spec visibility 1000); [split; [done|lia]|].
  destruct (Z.ltb_spec visibility 5000); [split; [done|lia]|]. split; [lia|done].
Qed.

Lemma wind_present (speed : Q) :
  let what :=
    if Num.Qltb 10 speed then "with strong winds"
    else if Num.Qltb 5 speed then "with moderate winds"
    else "" in
  (what = "" -> ~ (5 < speed)%Q) /\ (what <> "" -> (5 < speed)%Q).
Proof.
  cbv zeta. destruct (Num.Qltb 10 speed) eqn:H10.
  { apply Qltb_lt in H10. split; [done|]. intros _.
    eapply Qlt_trans; [|exact H10]. reflexivity. }
  destruct (Num.Qltb 5 speed) eqn:H5.
  { apply Qltb_lt in H5. by split. }
  apply Qltb_ge in H5. split; [|done]. intros _ H. eapply Qlt_not_le; eauto.
Qed.

Lemma read_natural_decimal (n : Z) : 0 <= n -> read_natural (Str.decimal n) = Some n.
Proof.
  intros Hn. unfold read_natural, Str.decimal.
  rewrite NilZero.usu.
  - by rewrite DecimalN.Unsigned.of_to, Z2N.id.
  - destruct (Z.to_N n) as [|p]; [done|]. apply DecimalPos.Unsigned.to_uint_nonnil.
Qed.

Lemma decimal_digit (d : Z) : 0 <= d < 10 -> String.length (Str.decimal d) = 1%nat.
Proof.
  intros Hd.
  assert (d = 0 \/ d = 1 \/ d = 2 \/ d = 3 \/ d = 4 \/ d = 5 \/ d = 6 \/ d = 7 \/ d = 8
          \/ d = 9) as Hcases by lia.
  repeat (destruct Hcases as [->|Hcases]; [reflexivity|]). by subst.
Qed.

Lemma round_half_even_close (q : Q) :
  (Qabs (q - inject_Z (Num.round_half_even q)) <= 1 # 2)%Q.
Proof.
  unfold Num.round_half_even.
  pose proof (Qfloor_le q) as Hlo. pose proof (Qlt_floor q) as Hhi.
  set (f := Qfloor q) in *.
  assert (Hup : (q - inject_Z f < 1)%Q).
  { rewrite inject_Z_plus in Hhi. change (inject_Z 1) with 1%Q in Hhi. lra. }
  assert (Hdown : (0 <= q - inject_Z f)%Q) by lra.
  apply Qabs_Qle_condition.
  destruct (Qcompare_spec (q - inject_Z f) (1 # 2)) as [Heq|Hlt|Hgt].
  - destruct (Z.even f); [lra|]. rewrite inject_Z_plus. change (inject_Z 1) with 1%Q. lra.
  - lra.
  - rewrite inject_Z_plus. change (inject_Z 1) with 1%Q. lra.
Qed.

Lemma round_half_even_nonneg (q : Q) : (0 <= q)%Q -> 0 <= Num.round_half_even q.
Proof.
  intros Hq. unfold Num.round_half_even.
  assert (Hf : 0 <= Qfloor q).
  { change 0 with (Qfloor 0). by apply Qfloor_resp_le. }
  destruct (Qcompare _ _); [destruct (Z.even _)|..]; lia.
Qed.

(** The rendering [%.1f] is the number to one decimal. *)
Lemma format_float_one_decimal (x : Q) : one_decimal x (Str.format_float 1 x).
Proof.
  unfold Str.format_float, one_decimal.
  change (10 ^ Z.of_nat 1) with 10.
  set (r := Num.round_half_even (Qabs x * inject_Z 10)).
  assert (Hr : 0 <= r).
  { apply round_half_even_nonneg. apply Qmult_le_0_compat; [apply Qabs_nonneg|done]. }
  pose proof (Z.mod_pos_bound r 10 eq_refl) as Hmod.
  assert (Hdiv : 0 <= r / 10) by (apply Z.div_pos; lia).
  exists (Str.decimal (r / 10)), (Str.decimal (r mod 10)), (r / 10), (r mod 10).
  split.
  { unfold Str.pad0. by rewrite (decimal_digit _ Hmod). }
  split; [by apply read_natural_decimal|].
  split; [by apply decimal_digit|].
  split; [apply read_natural_decimal; lia|].
  pose proof (round_half_even_close (Qabs x * inject_Z 10)) as Hclose. fold r in Hclose.
  apply Qabs_Qle_condition in Hclose.
  assert (Hsplit : (inject_Z r == 10 * inject_Z (r / 10) + inject_Z (r mod 10))%Q).
  { rewrite (Z.div_mod r 10) at 1 by done.
    rewrite inject_Z_plus, inject_Z_mult. reflexivity. }
  change (inject_Z 10) with 10%Q in Hclose.
  apply Qabs_Qle_condition.
  set (a := inject_Z (r / 10)) in *. set (b := inject_Z (r mod 10)) in *.
  set (y := Qabs x) in *. set (ir := inject_Z r) in *.
  assert (Hb : (b / 10 == b * (1 # 10))%Q) by reflexivity.
  rewrite Hb. lra.
Qed.

Lemma optional_sentence (b : bool) (p t : string) :
  (if b then p +:+ t else p) = p +:+ (if b then t else "").
Proof. destruct b; [done|by rewrite append_nil_r]. Qed.

Lemma cloudiness_text_of (clouds : Z) :
  cloudiness_text clouds
    (if clouds <? 20 then "clear skies"
     else if clouds <? 50 then "partly cloudy skies"
     else if clouds <? 80 then "mostly cloudy skies"
     else "overcast skies").
Proof.
  unfold cloudiness_text.
  destruct (Z.ltb_spec clouds 20); [tauto|].
  destruct (Z.ltb_spec clouds 50); [right; left; split; [lia|done]|].
  destruct (Z.ltb_spec clouds 80); [right; right; left; split; [lia|done]|].
  right; right; right. split; [lia|done].
Qed.

Lemma clause_of (present : Prop) (what opening closing : string) :
  (what = "" -> ~ present) -> (what <> "" -> present) ->
  clause present opening closing
    (if negb (String.eqb what "") then opening +:+ what +:+ closing else "").
Proof.
  intros Hw Hp. destruct (String.eqb_spec what "") as [He|Hne]; cbn [negb].
  - left. split; [by apply Hw|done].
  - right. split; [by apply Hp|by exists what].
Qed.

Lemma intensity_of (amount : Q) :
  intensity amount
    (if Num.Qltb amount (5 # 2) then "light"
     else if Num.Qltb amount 10 then "moderate" else "heavy").
Proof.
  unfold intensity.
  destruct (Num.Qltb amount (5 # 2)) eqn:H1; [apply Qltb_lt in H1; tauto|apply Qltb_ge in H1].
  destruct (Num.Qltb amount 10) eqn:H2; [apply Qltb_lt in H2; tauto|apply Qltb_ge in H2].
  tauto.
Qed.

Lemma precipitation_clause_of (rain snow : Q) :
  let what :=
    if Num.Qltb 0 rain then
      if Num.Qltb rain (5 # 2) then "light rain"
      else if Num.Qltb rain 10 then "moderate rain" else "heavy rain"
    else if Num.Qltb 0 snow then
      if Num.Qltb snow (5 # 2) then "light snow"
      else if Num.Qltb snow 10 then "moderate snow" else "heavy snow"
    else "" in
  precipitation_clause rain snow
    (if negb (String.eqb what "") then "Add " +:+ what +:+ " falling in the scene. " else "").
Proof.
  cbv zeta. unfold precipitation_clause.
  pose proof (intensity_of rain) as Hr. pose proof (intensity_of snow) as Hs.
  destruct (Num.Qltb 0 rain) eqn:H0.
  { apply Qltb_lt in H0. right; left. split; [done|].
    eexists. split; [exact Hr|].
    by destruct (Num.Qltb rain (5 # 2)), (Num.Qltb rain 10). }
  apply Qltb_ge in H0.
  assert (Hnr : ~ (0 < rain)%Q) by (intros Hlt; eapply Qlt_not_le; eauto).
  destruct (Num.Qltb 0 snow) eqn:H1.
  { apply Qltb_lt in H1. right; right. split; [done|]. split; [done|].
    eexists. split; [exact Hs|].
    by destruct (Num.Qltb snow (5 # 2)), (Num.Qltb snow 10). }
  apply Qltb_ge in H1. left. split; [|done].
  intros [Hlt|Hlt]; eapply Qlt_not_le; eauto.
Qed.

Lemma visibility_clause_of (visibility : Z) :
  let what :=
    if visibility <? 1000 then "with very poor visibility"
    else if visibility <? 5000 then "with reduced visibility"
    else "" in
  visibility_clause visibility
    (if negb (String.eqb what "") then "The atmosphere should appear " +:+ what +:+ ". "
     else "").
Proof.
  cbv zeta. unfold visibility_clause.
  destruct (Z.ltb_spec visibility 1000); [right; right; by split|].
  destruct (Z.ltb_spec visibility 5000); [right; left; split; [lia|done]|].
  left. by split.
Qed.

Lemma wind_clause_of (speed : Q) :
  let what :=
    if Num.Qltb 10 speed then "with strong winds"
    else if Num.Qltb 5 speed then "with moderate winds"
    else "" in
  wind_clause speed
    (if negb (String.eqb what "")
     then "Show signs of wind " +:+ what +:+ " such as swaying trees or grass. "
     else "").
Proof.
  cbv zeta. unfold wind_clause.
  destruct (Num.Qltb 10 speed) eqn:H10.
  { apply Qltb_lt in H10. right; right. by split. }
  apply Qltb_ge in H10.
  assert (Hn10 : ~ (10 < speed)%Q) by (intros Hlt; eapply Qlt_not_le; eauto).
  destruct (Num.Qltb 5 speed) eqn:H5.
  { apply Qltb_lt in H5. right; left. by repeat split. }
  apply Qltb_ge in H5. left. split; [|done].
  intros Hlt; eapply Qlt_not_le; eauto.
Qed.


(** C6.  The prompt is the paragraph [prompt_text]: it names the location,
    the condition and the description (or their defaults), the words for
    the cloud cover and the temperature band of the thresholds, the
    temperature written with one decimal (the nearest tenth), then the
    precipitation sentence exactly when rain or snow is positive (rain
    before snow, with the word for the amount), the visibility sentence
    exactly when visibility is below 5000, the wind sentence exactly when
    the wind speed exceeds 5, in this order, and the closing instruction
    with the cloud percentage.  The summary of the scenario gives a prompt
    with "warm" and "clear skies" and without precipitation or wind
    clause. *)
Theorem prompt_contents :
  (forall (weatherData : WeatherData.t) (location : string),
     exists cloudiness band precipitation visibility wind cloudBand,
       let prompt := generatePrompt weatherData location in
       let condition := or_default (WeatherData.Condition weatherData) "clear" in
       let description := or_default (WeatherData.Description weatherData) "clear sky" in
       let temperature := Str.format_float 1 (WeatherData.Temp weatherData) in
       prompt = prompt_text location condition description cloudiness temperature band
                  precipitation visibility wind
                  (Str.format_int (WeatherData.Clouds weatherData))
       /\ cloud_band (WeatherData.Clouds weatherData) cloudBand
       /\ Str.contains cloudiness cloudBand
       /\ temperature_band (WeatherData.Temp weatherData) band
       /\ clause ((0 < WeatherData.Rain weatherData)%Q \/ (0 < WeatherData.Snow weatherData)%Q)
            "Add " " falling in the scene. " precipitation
       /\ clause (WeatherData.Visibility weatherData < 5000)
            "The atmosphere should appear " ". " visibility
       /\ clause (5 < WeatherData.WindSpeed weatherData)%Q
            "Show signs of wind " " such as swaying trees or grass. " wind
       /\ Str.contains prompt location /\ Str.contains prompt condition
       /\ Str.contains prompt description /\ Str.contains prompt cloudBand
       /\ Str.contains prompt temperature /\ Str.contains prompt band
       /\ cloudiness_text (WeatherData.Clouds weatherData) cloudiness
       /\ one_decimal (WeatherData.Temp weatherData) temperature
       /\ precipitation_clause (WeatherData.Rain weatherData) (WeatherData.Snow weatherData)
            precipitation
       /\ visibility_clause (WeatherData.Visibility weatherData) visibility
       /\ wind_clause (WeatherData.WindSpeed weatherData) wind)
  /\ (let prompt := generatePrompt Scenario.summary "Paris, FR" in
      Str.containsb prompt "warm" = true
      /\ Str.containsb prompt "clear skies" = true
      /\ Str.containsb prompt "25.0" = true
      /\ Str.containsb prompt "falling in the scene" = false
      /\ Str.containsb prompt "wind" = false
      /\ prompt = prompt_text "Paris, FR" "clear" "clear sky" "clear skies" "25.0" "warm"
                    "" "" "" "15").
Proof.
  split; [|vm_compute; repeat split; reflexivity].
  intros wd loc.
  destruct (cloud_band_of (WeatherData.Clouds wd)) as (cb & Hcb & Hcontains).
  pose proof (temperature_band_of (WeatherData.Temp wd)) as Htemp.
  pose proof (cloudiness_text_of (WeatherData.Clouds wd)) as Hcloud.
  pose proof (format_float_one_decimal (WeatherData.Temp wd)) as Hdec.
  destruct (precipitation_present (WeatherData.Rain wd) (WeatherData.Snow wd)) as [Hp1 Hp2].
  destruct (visibility_present (WeatherData.Visibility wd)) as [Hv1 Hv2].
  destruct (wind_present (WeatherData.WindSpeed wd)) as [Hw1 Hw2].
  unfold generatePrompt. cbv zeta.
  fold (or_default (WeatherData.Condition wd) "clear").
  fold (or_default (WeatherData.Description wd) "clear sky").
  rewrite !optional_sentence.
  pose proof (clause_of _ _ "Add " " falling in the scene. " Hp1 Hp2) as Hpc.
  pose proof (clause_of _ _ "The atmosphere should appear " ". " Hv1 Hv2) as Hvc.
  pose proof (clause_of _ _ "Show signs of wind " " such as swaying trees or grass. " Hw1 Hw2)
    as Hwc.
  pose proof (precipitation_clause_of (WeatherData.Rain wd) (WeatherData.Snow wd)) as Hpc'.
  pose proof (visibility_clause_of (WeatherData.Visibility wd)) as Hvc'.
  pose proof (wind_clause_of (WeatherData.WindSpeed wd)) as Hwc'.
  cbv zeta in Hpc', Hvc', Hwc'.
  eexists _, _, _, _, _, cb.
  split; [|split; [exact Hcb|split; [exact Hcontains|split; [exact Htemp|
    split; [exact Hpc|split; [exact Hvc|split; [exact Hwc|]]]]]]].
  - unfold prompt_text. rewrite !append_assoc. reflexivity.
  - rewrite !append_assoc.
    split; [apply contains_later, contains_prefix|].
    split; [do 3 apply contains_later; apply contains_prefix|].
    split; [do 5 apply contains_later; apply contains_prefix|].
    split; [do 7 apply contains_later; by apply contains_within|].
    split; [do 9 apply contains_later; apply contains_prefix|].
    split; [do 12 apply contains_later; apply contains_prefix|].
    split; [exact Hcloud|]. split; [exact Hdec|].
    split; [exact Hpc'|]. split; [exact Hvc'|exact Hwc'].
Qed.

(** C8.  Prompt synthesis is a function of the weather summary and of the
    location label alone: two summaries that show the same numbers and
    texts give, with the same label, the same bytes, whatever the requested
    time of day, the clock or the state of the store, none of which it
    receives. *)
Theorem generatePrompt_deterministic (a b : WeatherData.t) (location : string) :
  same_summary a b -> generatePrompt a location = generatePrompt b location.
Proof.
  intros (Ht & _ & _ & _ & Hc & Hv & Hw & _ & Hcond & Hdesc & Hr & Hs).
  assert (Hlt : forall x y c, (x == y)%Q -> Num.Qltb x c = Num.Qltb y c)
    by (intros x y c Hxy; by rewrite Hxy).
  assert (Hgt : forall x y c, (x == y)%Q -> Num.Qltb c x = Num.Qltb c y)
    by (intros x y c Hxy; by rewrite Hxy).
  unfold generatePrompt. rewrite Hc, Hv, Hcond, Hdesc.
  rewrite (format_float_proper 1 _ _ Ht).
  rewrite (Hlt _ _ 0%Q Ht), (Hlt _ _ 10%Q Ht), (Hlt _ _ 20%Q Ht), (Hlt _ _ 28%Q Ht).
  rewrite (Hgt _ _ 0%Q Hr), (Hlt _ _ (5 # 2)%Q Hr), (Hlt _ _ 10%Q Hr).
  rewrite (Hgt _ _ 0%Q Hs), (Hlt _ _ (5 # 2)%Q Hs), (Hlt _ _ 10%Q Hs).
  rewrite (Hgt _ _ 10%Q Hw), (Hgt _ _ 5%Q Hw).
  reflexivity.
Qed.

(** C8, on two representations of the scenario's numbers. *)
Lemma generatePrompt_deterministic_witness :
  same_summary Scenario.summary Scenario.summary'
  /\ generatePrompt Scenario.summary "Paris, FR" = generatePrompt Scenario.summary' "Paris, FR".
Proof.
  assert (H : same_summary Scenario.summary Scenario.summary')
    by (unfold same_summary; simpl; repeat split; reflexivity).
  split; [exact H|]. exact (generatePrompt_deterministic _ _ "Paris, FR" H).
Defined.

(** ** Historical aggregation (weather.go) *)

Lemma pow64 : 2 ^ 64 = 2 * 2 ^ 63 /\ 0 < 2 ^ 63.
Proof. split; reflexivity. Qed.


Lemma wrap64_id (z : Z) : Num.in_int64 z -> Num.wrap64 z = z.
Proof.
  unfold Num.in_int64, Num.wrap64. destruct pow64 as [H64 H63]. intros Hz.
  rewrite H64 in *. set (M := 2 ^ 63) in *.
  rewrite Z.mod_small by lia. lia.
Qed.








(** ** The date window of the weather fetch (weather.go) *)

Lemma int_of_float64_nonneg (x : Q) : (0 <= x)%Q -> Num.int_of_float64 x = Qfloor x.
Proof.
  destruct x as [n d]. unfold Qle, Num.int_of_float64, Qfloor. simpl.
  intros Hn. apply Z.quot_div_nonneg; lia.
Qed.

Lemma Hours_value (d : Z) : (Time.Hours d == d # 3600000000000)%Q.
Proof.
  unfold Time.Hours, Num.float64_of_int.
  pose proof (Z.quot_rem' d Time.Hour) as Hd.
  change Time.Hour with 3600000000000 in *.
  set (q := Z.quot d 3600000000000) in *. set (r := Z.rem d 3600000000000) in *.
  clearbody q r. unfold Qeq, Qplus, Qdiv, Qmult, Qinv, inject_Z. simpl. lia.
Qed.

Lemma Sub_nonneg (x y : Time.t) :
  y <= x -> Time.Sub x y = Z.min (x - y) 9223372036854775807.
Proof.
  intros Hle. unfold Time.Sub, Time.minDuration, Time.maxDuration.
  change (2 ^ 63 - 1) with 9223372036854775807.
  change (- 2 ^ 63) with (-9223372036854775808).
  repeat match goal with
         | |- context [?a <? ?b] => destruct (Z.ltb_spec a b)
         end; lia.
Qed.

(** The whole days of a non-negative duration. *)
Lemma daysAhead_value (targetDate now : Time.t) :
  now <= targetDate ->
  daysAhead targetDate now = Time.Sub targetDate now / Time.Day.
Proof.
  intros Hle. unfold daysAhead.
  assert (Hd : 0 <= Time.Sub targetDate now) by (rewrite Sub_nonneg by done; lia).
  set (d := Time.Sub targetDate now) in *. clearbody d.
  assert (Hq : (Time.Hours d / 24 == d # 86400000000000)%Q).
  { rewrite Hours_value. unfold Qeq, Qdiv, Qmult, Qinv. simpl. lia. }
  rewrite int_of_float64_nonneg.
  - rewrite Hq. unfold Qfloor. reflexivity.
  - rewrite Hq. unfold Qle. simpl. lia.
Qed.

(** More than 16 whole days ahead means 17 times 24 hours or more. *)
Lemma daysAhead_over_16 (targetDate now : Time.t) :
  now <= targetDate ->
  (daysAhead targetDate now >? 16) = true <-> now + 17 * Time.Day <= targetDate.
Proof.
  intros Hle. rewrite daysAhead_value, Sub_nonneg by done.
  change Time.Day with 86400000000000.
  rewrite Z.gtb_ltb, Z.ltb_lt.
  set (m := Z.min (targetDate - now) 9223372036854775807).
  assert (Hm : m = targetDate - now \/ (m = 9223372036854775807 /\ m <= targetDate - now))
    by (subst m; lia).
  pose proof (Z.div_mod m 86400000000000 ltac:(lia)).
  pose proof (Z.mod_pos_bound m 86400000000000 ltac:(lia)).
  clearbody m. lia.
Qed.

(** C4 (amended).  With the API key configured, a target date earlier
    than the instant one calendar year before now, and a target date 17
    times 24 hours or more after now (a whole-day offset above 16), make
    the weather fetch fail with an out-of-range error after reading the
    clock and before any remote call. *)
Theorem weather_out_of_range `{Codec} (key : string) (lat lon : Q) (targetDate : Time.t)
    (o : Oracle) (w : World) :
  key <> "" ->
  targetDate < Time.AddDate (w_now w) (-1) 0 0 \/ w_now w + 17 * Time.Day <= targetDate ->
  let res := run o (getHistoricalWeather key lat lon targetDate) w in
  (exists msg, res.1 = Returned (Err msg) /\ out_of_range (w_now w) msg)
  /\ w_trace res.2 = w_trace w ++ [Ev Now]
  /\ List.filter is_remote (w_trace res.2) = List.filter is_remote (w_trace w).
Proof.
  intros Hkey Hrange res.
  assert (Hres : (exists msg, res.1 = Returned (Err msg) /\ out_of_range (w_now w) msg)
                 /\ w_trace res.2 = w_trace w ++ [Ev Now]).
  { subst res. unfold getHistoricalWeather.
    apply String.eqb_neq in Hkey. rewrite Hkey.
    rewrite run_bind, run_call.
    change (handle o Now w).1 with (w_now w).
    change (handle o Now w).2 with (log Now w).
    unfold Time.Before, Time.After.
    destruct (Z.ltb_spec targetDate (Time.AddDate (w_now w) (-1) 0 0)) as [Hpast|Hpast].
    { split; [|done]. eexists. split; [reflexivity|]. by left. }
    destruct Hrange as [Hr|Hr]; [lia|].
    assert (Hlt : w_now w < targetDate) by (change Time.Day with 86400000000000 in Hr; lia).
    apply Z.ltb_lt in Hlt. rewrite Hlt.
    assert (Hd : (daysAhead targetDate (w_now w) >? 16) = true).
    { apply daysAhead_over_16; [apply Z.ltb_lt in Hlt; lia|done]. }
    rewrite Hd. split; [|done]. eexists. split; [reflexivity|]. by right. }
  destruct Hres as [Hmsg Htrace]. split; [done|]. split; [done|].
  rewrite Htrace, List.filter_app. cbn. by rewrite app_nil_r.
Qed.

(** C4, on 2024-02-19 seen from noon of 2024-01-01 (48 days and a half
    ahead). *)
Lemma weather_out_of_range_witness :
  let res := run (Sample.oracle Sample.late_success)
               (@getHistoricalWeather Sample.codec "k" 0 0 Dates.feb19)
               (Dates.world Dates.jan1_noon) in
  res.1 = Returned (Err forecastRangeError) /\ w_trace res.2 = [Ev Now].
Proof.
  destruct (@weather_out_of_range Sample.codec "k" 0 0 Dates.feb19
              (Sample.oracle Sample.late_success) (Dates.world Dates.jan1_noon))
    as ((msg & Hmsg & _) & Htrace & _).
  - discriminate.
  - right. vm_compute. discriminate.
  - cbv zeta. split; [|exact Htrace]. vm_compute. reflexivity.
Defined.

(** C4 as stated fails on both sides of the window.  Seen from noon of
    2024-01-01, midnight of 2024-01-18 is 16 days and a half ahead: the
    whole-day offset is 16 and the forecast is requested.  Seen from noon
    of 2024-03-01, midnight of 2023-03-02 is 365 days and a half back, but
    one calendar year back is noon of 2023-03-01, 366 days: the history is
    requested.  And without the API key the failure is not an out-of-range
    one. *)
Lemma weather_window_counterexample :
  (Dates.jan18 - Dates.jan1_noon > 16 * Time.Day
   /\ exists url, w_trace (run (Sample.oracle Sample.late_success)
                     (@getHistoricalWeather Sample.codec "k" 0 0 Dates.jan18)
                     (Dates.world Dates.jan1_noon)).2
                  = [Ev Now; Ev (HttpGet url)])
  /\ (Dates.mar1_noon - Dates.mar2_2023 > 365 * Time.Day
      /\ exists url, w_trace (run (Sample.oracle Sample.late_success)
                        (@getHistoricalWeather Sample.codec "k" 0 0 Dates.mar2_2023)
                        (Dates.world Dates.mar1_noon)).2
                     = [Ev Now; Ev (HttpGet url)])
  /\ (run (Sample.oracle Sample.late_success)
        (@getHistoricalWeather Sample.codec "" 0 0 Dates.feb19)
        (Dates.world Dates.jan1_noon)).1
     = Returned (Err "OpenWeather API key not configured").
Proof.
  split; [|split].
  - split; [reflexivity|]. eexists. vm_compute. reflexivity.
  - split; [reflexivity|]. eexists. vm_compute. reflexivity.
  - reflexivity.
Qed.

(** ** Programs and the status of a request *)

Lemma wp_effect_mono (E E' : string -> string -> Prop) id {A} (e : effect A) st
    (K K' : A -> option string -> Prop) :
  (forall a b, E a b -> E' a b) ->
  (forall a st', K a st' -> K' a st') ->
  wp_effect E id e st K -> wp_effect E' id e st K'.
Proof.
  intros HE HK. destruct e; simpl; try (intros Hw x; apply HK, Hw); try done.
  case_decide.
  - destruct st; [|done]. intros (? & ? & ?). eauto.
  - destruct (is_insert s); [intros Hw r; apply HK, Hw|apply HK].
Qed.

Lemma wp_mono {R} (E E' : string -> string -> Prop) id (p : prog R) :
  forall st (Q Q' : R -> option string -> Prop),
  (forall a b, E a b -> E' a b) ->
  (forall r st', Q r st' -> Q' r st') ->
  wp E id p st Q -> wp E' id p st Q'.
Proof.
  induction p as [r|msg|A e k IH]; intros st Q Q' HE HQ; simpl; [auto|done|].
  apply wp_effect_mono; [done|]. intros a st'. by apply IH.
Qed.

Lemma wp_bind {A B} E id (p : prog A) (f : A -> prog B) :
  forall st (Q : B -> option string -> Prop),
  wp E id p st (fun r st' => wp E id (f r) st' Q) -> wp E id (p ≫= f) st Q.
Proof.
  induction p as [r|msg|X e k IH]; intros st Q; simpl; [done|done|].
  apply wp_effect_mono; [done|]. intros a st'. apply IH.
Qed.




Ltac wp_step := cbn [wp bind mbind prog_bind mret prog_ret call wp_effect].

Lemma wp_write {R} E id (s : stmt) (f : option string -> prog R) st Q :
  is_insert s = false ->
  (if decide (stmt_id s = id)
   then exists a, st = Some a /\ E a (stmt_status s)
                  /\ wp E id (f None) (Some (stmt_status s)) Q
   else wp E id (f None) st Q) ->
  wp E id (call (Exec s) ≫= f) st Q.
Proof.
  intros Hi Hw. simpl. case_decide.
  - destruct Hw as (a & -> & He & Hw). done.
  - by rewrite Hi.
Qed.

Section ReadOnly.
Context `{Codec}.

Lemma wp_geocodeLocation E id key location st
    (Q : result GeocodingResult.t -> option string -> Prop) :
  (forall r, Q r st) -> wp E id (geocodeLocation key location) st Q.
Proof.
  intros HQ. unfold geocodeLocation.
  destruct (String.eqb key ""); [apply HQ|].
  simpl. intros r. repeat case_match; apply HQ.
Qed.

Lemma wp_getForecastWeather E id key lat lon days st
    (Q : result WeatherData.t -> option string -> Prop) :
  (forall r, Q r st) -> wp E id (getForecastWeather key lat lon days) st Q.
Proof.
  intros HQ. unfold getForecastWeather.
  simpl. intros r. repeat case_match; try apply HQ. done.
Qed.

Lemma wp_getHistoricalWeather E id key lat lon targetDate st
    (Q : result WeatherData.t -> option string -> Prop) :
  (forall r, Q r st) -> wp E id (getHistoricalWeather key lat lon targetDate) st Q.
Proof.
  intros HQ. unfold getHistoricalWeather.
  destruct (String.eqb key ""); [apply HQ|].
  wp_step. intros now.
  case_match; [apply HQ|].
  case_match.
  { case_match; [apply HQ|]. by apply wp_getForecastWeather. }
  destruct (Time.civil_from_days _) as [[y m] d].
  wp_step. intros r. repeat case_match; apply HQ.
Qed.

End ReadOnly.



Ltac wp_write_same :=
  apply wp_write; [reflexivity|]; cbn [stmt_id stmt_status];
  rewrite decide_True by done; eexists; split; [reflexivity|]; split; [assumption|].

Ltac wp_write_other :=
  apply wp_write; [reflexivity|]; cbn [stmt_id stmt_status];
  rewrite decide_False by done.

Section Tasks.
Context `{Codec}.

Lemma processWeatherRequest_wp E id key requestID location targetDate st :
  (requestID = id -> exists s0, st = Some s0 /\ weather_path E s0) ->
  wp E id (processWeatherRequest key requestID location targetDate) st (fun _ _ => True).
Proof.
  intros Hpre. unfold processWeatherRequest.
  unfold updateRequestError, updateRequestGeocode, updateRequestStatus,
    updateRequestWeather, getRequest.
  destruct (decide (requestID = id)) as [->|Hne].
  - destruct (Hpre eq_refl) as (s0 & -> & He0 & Hg & Hwf & Hwe & Hw).
    apply wp_bind, wp_geocodeLocation. intros [geo|err].
    + wp_write_same. wp_write_same.
      apply wp_bind, wp_getHistoricalWeather. intros [wd|err].
      * wp_step. intros [req|err].
        -- wp_write_same. done.
        -- wp_write_same. done.
      * wp_write_same. done.
    + wp_write_same. done.
  - clear Hpre.
    apply wp_bind, wp_geocodeLocation. intros [geo|err].
    + wp_write_other. wp_write_other.
      apply wp_bind, wp_getHistoricalWeather. intros [wd|err].
      * wp_step. intros [req|err].
        -- wp_write_other. done.
        -- wp_write_other. done.
      * wp_write_other. done.
    + wp_write_other. done.
Qed.

End Tasks.

Lemma wp_outputURL E id output st (Q : string -> option string -> Prop) :
  (forall url, Q url st) -> wp E id (outputURL output) st Q.
Proof. intros HQ. destruct output as [| | | |[|[] ?]|]; simpl; auto. Qed.

Lemma onStatus_wp E id requestID status st :
  (requestID = id -> st = Some "processing" /\ E "processing" "completed"
     /\ E "processing" "error" /\ E "processing" "cancelled") ->
  wp E id (onStatus requestID status) st (fun r st' => r = None -> st' = st).
Proof.
  intros Hpre. unfold onStatus.
  unfold updateRequestError, updateRequestStatus, updateRequestResult, downloadImage.
  destruct (decide (requestID = id)) as [->|Hne].
  - destruct (Hpre eq_refl) as (-> & Hc & He & Hx).
    destruct (String.eqb _ "succeeded").
    { apply wp_bind, wp_outputURL. intros url. destruct (String.eqb url "").
      - wp_write_same. done.
      - wp_step. intros [err|]; wp_write_same; done. }
    destruct (String.eqb _ "failed"); [wp_write_same; done|].
    destruct (String.eqb _ "canceled"); [wp_write_same; done|].
    by wp_step.
  - clear Hpre.
    destruct (String.eqb _ "succeeded").
    { apply wp_bind, wp_outputURL. intros url. destruct (String.eqb url "").
      - wp_write_other. done.
      - wp_step. intros [err|]; wp_write_other; done. }
    destruct (String.eqb _ "failed"); [wp_write_other; done|].
    destruct (String.eqb _ "canceled"); [wp_write_other; done|].
    by wp_step.
Qed.

Lemma pollLoop_wp E id requestID predictionID n : forall st,
  (requestID = id -> st = Some "processing" /\ E "processing" "completed"
     /\ E "processing" "error" /\ E "processing" "cancelled") ->
  wp E id (pollLoop requestID predictionID n) st (fun r st' => r = false -> st' = st).
Proof.
  induction n as [|n IH]; intros st Hpre; [done|].
  cbn [pollLoop]. unfold getPredictionStatus. wp_step. intros _ [status|err].
  - apply wp_bind. eapply wp_mono; [done| |by apply onStatus_wp].
    intros [[]|] st' Hst'; [done|]. rewrite Hst' by done. by apply IH.
  - by apply IH.
Qed.

Lemma processImageWithReplicate_wp E id requestID st :
  (requestID = id -> exists s0, st = Some s0 /\ replicate_path E s0) ->
  wp E id (processImageWithReplicate requestID) st (fun _ _ => True).
Proof.
  intros Hpre. unfold processImageWithReplicate.
  unfold getRequest, uploadFileToReplicate, createReplicatePrediction,
    updateRequestPredictionID.
  destruct (decide (requestID = id)) as [->|Hne].
  - destruct (Hpre eq_refl) as (s0 & -> & He0 & Hp & Hc & He & Hx).
    wp_step. intros [req|err]; [|unfold updateRequestError; wp_write_same; done].
    wp_step. intros [imageURL|err]; [|unfold updateRequestError; wp_write_same; done].
    wp_step. intros [prediction|err]; [|unfold updateRequestError; wp_write_same; done].
    wp_write_same. apply wp_bind.
    eapply wp_mono; [done| |by apply pollLoop_wp].
    intros [] st' Hst'; [done|]. rewrite Hst' by done.
    unfold updateRequestError. wp_write_same. done.
  - clear Hpre.
    wp_step. intros [req|err]; [|unfold updateRequestError; wp_write_other; done].
    wp_step. intros [imageURL|err]; [|unfold updateRequestError; wp_write_other; done].
    wp_step. intros [prediction|err]; [|unfold updateRequestError; wp_write_other; done].
    wp_write_other. apply wp_bind.
    eapply wp_mono; [done| |by apply (pollLoop_wp E id)].
    intros [] st' Hst'; [done|]. rewrite Hst' by done.
    unfold updateRequestError. wp_write_other. done.
Qed.

(** ** The store under the statements *)

Lemma status_lookup id (db db' : DB) :
  db' !! id = db !! id -> Store.status id db' = Store.status id db.
Proof. unfold Store.status. by intros ->. Qed.

Lemma status_None id (db : DB) : Store.status id db = None <-> db !! id = None.
Proof. unfold Store.status. by destruct (db !! id). Qed.

Lemma exec_answer s now db : is_insert s = false -> (exec_stmt s now db).1 = None.
Proof. by destruct s. Qed.

Lemma exec_other s now (db : DB) id :
  stmt_id s <> id -> (exec_stmt s now db).2 !! id = db !! id.
Proof.
  intros Hne. destruct s; simpl in Hne; cbn [exec_stmt snd];
    unfold Store.updateRequestGeocode, Store.updateRequestWeather,
      Store.updateRequestError, Store.updateRequestPredictionID,
      Store.updateRequestStatus, Store.updateRequestResult;
    try (by apply update_other).
  unfold Store.saveRequest. destruct (db !! Request.ID req); [done|].
  cbn [snd]. by rewrite lookup_insert_ne.
Qed.

Lemma exec_absent s now (db : DB) id :
  is_insert s = false -> db !! id = None -> (exec_stmt s now db).2 !! id = None.
Proof.
  intros Hi Hn. destruct s; try done; cbn [exec_stmt snd];
    unfold Store.updateRequestGeocode, Store.updateRequestWeather,
      Store.updateRequestError, Store.updateRequestPredictionID,
      Store.updateRequestStatus, Store.updateRequestResult;
    rewrite update_lookup; case_decide; subst; by rewrite ?Hn.
Qed.

Lemma exec_same s now (db : DB) a :
  is_insert s = false -> Store.status (stmt_id s) db = Some a ->
  Store.status (stmt_id s) (exec_stmt s now db).2 = Some (stmt_status s).
Proof.
  intros Hi Hst. unfold Store.status in *.
  destruct (db !! stmt_id s) as [row|] eqn:Hrow; [|done].
  destruct s; try done; cbn [exec_stmt snd stmt_id stmt_status] in *;
    unfold Store.updateRequestGeocode, Store.updateRequestWeather,
      Store.updateRequestError, Store.updateRequestPredictionID,
      Store.updateRequestStatus, Store.updateRequestResult;
    rewrite (update_same _ _ _ _ _ Hrow); f_equal; by row_lookup.
Qed.

(** One effect of a task that respects [E], seen on the table: either the
    row of the request is left as it is, or the task wrote a status along
    an edge of [E]. *)
Lemma wp_effect_step E id {A} (e : effect A) st (K : A -> option string -> Prop)
    now (db : DB) a db' spawned :
  wp_effect E id e st K -> effect_step e now db a db' spawned ->
  spawned = []
  /\ ((K a st /\ db' !! id = db !! id)
      \/ (exists a0 b, st = Some a0 /\ E a0 b /\ K a (Some b)
            /\ ((db !! id = None /\ db' !! id = None)
                \/ (is_Some (db !! id) /\ Store.status id db' = Some b)))).
Proof.
  destruct e; simpl; try (intros HK (-> & -> & ->); split; [done|left; by split]);
    try (intros HK (-> & ->); split; [done|left; by split]); try done.
  destruct (decide (stmt_id s = id)) as [<-|Hne].
  - destruct st as [a0|]; [|done]. intros (Hi & He & HK) (-> & -> & ->).
    split; [done|]. right. exists a0, (stmt_status s).
    rewrite exec_answer by done. do 3 (split; [done|]).
    destruct (db !! stmt_id s) as [row|] eqn:Hrow.
    + right. split; [done|]. eapply exec_same; [done|].
      unfold Store.status. by rewrite Hrow.
    + left. split; [done|]. by apply exec_absent.
  - intros HK (-> & -> & ->). split; [done|]. left.
    split; [|by apply exec_other].
    destruct (is_insert s) eqn:Hi; [apply HK|]. by rewrite exec_answer.
Qed.

(** *** The handlers, run to their reply *)

Ltac atomic_step := cbn [atomic bind mbind prog_bind mret prog_ret call effect_step].




(** ** The status graph *)










(** ** The invariant of the state machine *)



Section Machine.
Context `{Codec} (key : string).

Lemma task_prog_quiet id task :
  (match task with TaskWeather i _ _ | TaskReplicate i => i end) <> id ->
  quiet id (task_prog key task).
Proof.
  intros Hne. destruct task; cbn [task_prog].
  - by apply processWeatherRequest_wp.
  - by apply processImageWithReplicate_wp.
Qed.





End Machine.

(** ** At most one processing run *)












Section OneRun.
Context `{Codec} (key : string).




End OneRun.


(** ** The system as a whole *)


Lemma demo_submit_step :
  @sys_step Sample.codec "k" sys_init (LSubmit Demo.submission) Demo.submitted.
Proof.
  assert (Hat : @atomic HttpReply 0 (@submitHandler Sample.codec Demo.submission) ∅
                  (Returned (Redirect "/processing/00a1" 303))
                  (Store.saveRequest Demo.pending 0 ∅).2
                  [TaskWeather "00a1" "Paris" (Time.Date 2024 1 18 0)]
                  [Ev (GenerateID 16); Ev (SaveUploadedFile "photo.jpg" "00a1");
                   Ev (Exec (InsertRequest Demo.pending));
                   Ev (Go (TaskWeather "00a1" "Paris" (Time.Date 2024 1 18 0)))]).
  { cbn [submitHandler Demo.submission submit_request HttpRequest.Method HttpRequest.Form
         HttpRequest.Photo String.eqb Ascii.eqb Bool.eqb negb parse_date Sample.codec].
    atomic_step. eexists (Ok "00a1"), ∅, [], _, _. split; [done|]. split; [|done].
    atomic_step. eexists (Ok "data/uploads/00a1.jpg"), ∅, [], _, _. split; [done|].
    split; [|done].
    atomic_step. eexists None, (Store.saveRequest Demo.pending 0 ∅).2, [], _, _.
    split; [done|]. split; [|done].
    atomic_step. eexists tt, _, _, [], _. split; [done|]. split; [|done].
    atomic_step. done. }
  exact (step_submit "k" sys_init Demo.submission 0 _ _ _ _ Hat).
Qed.

Section Reachable.
Context `{Codec} (key : string).





Lemma reachable_steps allowed s s' :
  reachable key allowed s -> steps key allowed s s' -> reachable key allowed s'.
Proof.
  intros Hr Hs. induction Hs as [|s l s' s'' Ha Hs _ IH]; [done|].
  apply IH. by eapply reach_step.
Qed.




End Reachable.

Lemma demo_reachable allowed :
  allowed sys_init (LSubmit Demo.submission) ->
  @reachable Sample.codec "k" allowed Demo.submitted.
Proof.
  intros Ha. eapply reach_step; [apply reach_init|exact Ha|apply demo_submit_step].
Qed.

Lemma demo_status : Store.status "00a1" (sys_db Demo.submitted) = Some "pending".
Proof. vm_compute. reflexivity. Qed.


(** ** Counting the effects of a program *)

Lemma spends_mono {R} P (p : prog R) (Q Q' : R -> nat -> Prop) : forall n m,
  (n <= m)%nat ->
  (forall r k k', (k <= k')%nat -> Q r k -> Q' r k') ->
  spends P p n Q -> spends P p m Q'.
Proof.
  induction p as [r|msg|A e k IH]; intros n m Hle HQ; cbn [spends]; [by apply HQ|done|].
  destruct (P (Ev e)).
  - destruct n as [|n]; [done|]. destruct m as [|m]; [lia|].
    intros Hk a. apply (IH a n m); [lia|done|done].
  - intros Hk a. by apply (IH a n m).
Qed.

Lemma spends_bind {A B} P (p : prog A) (f : A -> prog B) (Q : B -> nat -> Prop) : forall n,
  spends P p n (fun r m => spends P (f r) m Q) -> spends P (p ≫= f) n Q.
Proof.
  induction p as [r|msg|T e k IH]; intros n Hp;
    cbn [mbind prog_bind bind spends] in *; [done|done|].
  destruct (P (Ev e)).
  - destruct n as [|n]; [done|]. intros a. by apply (IH a n).
  - intros a. by apply (IH a n).
Qed.

Lemma at_most_mono {R} P (p : prog R) n m :
  (n <= m)%nat -> at_most P n p -> at_most P m p.
Proof. intros Hle. by apply spends_mono. Qed.

Lemma spends_call_bind {A R} (P : event -> bool) (e : effect A) (f : A -> prog R) n Q :
  (if P (Ev e) return Prop then
     match n return Prop with O => False | S n' => forall a, spends P (f a) n' Q end
   else forall a, spends P (f a) n Q) ->
  spends P (call e ≫= f) n Q.
Proof. done. Qed.

Ltac count_step :=
  cbn [spends bind mbind prog_bind mret prog_ret call
       getRequest saveRequest updateRequestGeocode updateRequestWeather updateRequestError
       updateRequestPredictionID updateRequestStatus updateRequestResult
       uploadFileToReplicate createReplicatePrediction getPredictionStatus downloadImage].

Ltac stmt_ok_tac := cbn [stmt_ok Request.Status]; rewrite ?String.eqb_refl; reflexivity.

Section Counting.
Context (P : event -> bool).
Context (P_exec : forall s, stmt_ok s = true -> P (Ev (Exec s)) = false).
Context (P_sleep : forall d, P (Ev (Sleep d)) = false).
Context (P_poll : forall i, P (Ev (GetPredictionStatus i)) = false).
Context (P_query : forall i, P (Ev (Query i)) = false).
Context (P_now : P (Ev Now) = false).

Lemma outputURL_spends output n (Q : string -> nat -> Prop) :
  (forall u, Q u n) -> spends P (outputURL output) n Q.
Proof.
  intros HQ. unfold outputURL. destruct output as [| | | | |]; try apply HQ.
  all: try (destruct l as [|[] ?]; cbn [spends mret prog_ret]; try done; apply HQ).
Qed.

(** A poll answer that is not terminal spends nothing. *)
Lemma onStatus_spends requestID status (c : nat) :
  (forall u q, P (Ev (DownloadImage u q)) = true -> (1 <= c)%nat) ->
  spends P (onStatus requestID status) c (fun r m => r = None -> m = c).
Proof.
  intros Hd. unfold onStatus.
  destruct (String.eqb _ "succeeded").
  - apply spends_bind, outputURL_spends. intros url.
    destruct (String.eqb url ""); count_step; rewrite ?P_exec by stmt_ok_tac; [done|].
    destruct (P (Ev (DownloadImage _ _))) eqn:HP.
    + specialize (Hd _ _ HP). destruct c as [|c]; [lia|].
      intros [err|]; count_step; by rewrite P_exec by stmt_ok_tac.
    + intros [err|]; count_step; by rewrite P_exec by stmt_ok_tac.
  - destruct (String.eqb _ "failed"); [count_step; by rewrite P_exec by stmt_ok_tac|].
    destruct (String.eqb _ "canceled"); [count_step; by rewrite P_exec by stmt_ok_tac|].
    by count_step.
Qed.

Lemma pollLoop_at_most requestID predictionID (c : nat) :
  (forall u q, P (Ev (DownloadImage u q)) = true -> (1 <= c)%nat) ->
  forall n, at_most P c (pollLoop requestID predictionID n).
Proof.
  intros Hd. unfold at_most. induction n as [|n IH]; cbn [pollLoop]; [by count_step|].
  count_step. rewrite P_sleep. intros _. count_step. rewrite P_poll.
  intros [status|err]; [|exact IH].
  apply spends_bind. eapply spends_mono; [reflexivity| |apply onStatus_spends, Hd].
  intros [[]|] k k' Hle Hk; [done|]. cbn beta iota.
  eapply spends_mono; [|done|exact IH]. specialize (Hk eq_refl). lia.
Qed.

Lemma spends_exec {R} (s : stmt) (f : option string -> prog R) n Q :
  stmt_ok s = true ->
  (forall a, spends P (f a) n Q) -> spends P (call (Exec s) ≫= f) n Q.
Proof. intros Hs Hf. cbn [spends bind mbind prog_bind call]. by rewrite P_exec. Qed.

Lemma spends_error requestID msg n :
  spends P (updateRequestError requestID msg;; mret tt) n (fun _ _ => True).
Proof. by apply spends_exec. Qed.

(** The processing run: one upload, one submission, one download at
    most, beside what [P] selects among them. *)
Lemma processImageWithReplicate_at_most requestID (c : nat) :
  (forall q, P (Ev (UploadFile q)) = true -> forall a b, P (Ev (CreatePrediction a b)) = false) ->
  (forall q, P (Ev (UploadFile q)) = true -> forall a b, P (Ev (DownloadImage a b)) = false) ->
  (forall a b, P (Ev (CreatePrediction a b)) = true ->
     forall u q, P (Ev (DownloadImage u q)) = false) ->
  (forall q, P (Ev (UploadFile q)) = true -> (1 <= c)%nat) ->
  (forall a b, P (Ev (CreatePrediction a b)) = true -> (1 <= c)%nat) ->
  (forall u q, P (Ev (DownloadImage u q)) = true -> (1 <= c)%nat) ->
  at_most P c (processImageWithReplicate requestID).
Proof.
  intros Huc Hud Hcd Hu Hc Hd. unfold at_most, processImageWithReplicate.
  generalize maxAttempts. intros n.
  assert (Hrest : forall (c' : nat) prediction,
            (forall u q, P (Ev (DownloadImage u q)) = true -> (1 <= c')%nat) ->
            spends P
              (updateRequestPredictionID requestID (ReplicatePrediction.ID prediction);;
               returned ← pollLoop requestID (ReplicatePrediction.ID prediction) n;
               if returned : bool then mret tt
               else updateRequestError requestID "Image processing timeout";; mret tt)
              c' (fun _ _ => True)).
  { intros c' prediction Hd'. apply spends_exec; [done|]. intros _.
    apply spends_bind.
    eapply spends_mono; [reflexivity| |apply (pollLoop_at_most _ _ c' Hd' n)].
    intros [|] k k' _ _; [done|]. apply spends_error. }
  apply spends_call_bind. rewrite P_query. intros [req|err]; [|apply spends_error].
  apply spends_call_bind. destruct (P (Ev (UploadFile _))) eqn:HPu.
  - pose proof (Hu _ HPu). destruct c as [|c]; [lia|].
    intros [imageURL|err]; [|apply spends_error].
    apply spends_call_bind. rewrite (Huc _ HPu).
    intros [prediction|err]; [|apply spends_error].
    apply Hrest. intros u q HP. by rewrite (Hud _ HPu) in HP.
  - intros [imageURL|err]; [|apply spends_error].
    apply spends_call_bind. destruct (P (Ev (CreatePrediction _ _))) eqn:HPc.
    + pose proof (Hc _ _ HPc). destruct c as [|c]; [lia|].
      intros [prediction|err]; [|apply spends_error].
      apply Hrest. intros u q HP. by rewrite (Hcd _ _ HPc) in HP.
    + intros [prediction|err]; [|apply spends_error].
      by apply Hrest.
Qed.

Context `{Codec} (b : bool).
Context (P_http : forall u, P (Ev (HttpGet u)) = b).

(** The cost of one remote call to the weather provider. *)
Let cost : nat := if b then 1%nat else 0%nat.

Lemma spends_http {R} url (f : result HttpResponse.t -> prog R) n Q :
  (forall a, spends P (f a) n Q) -> spends P (call (HttpGet url) ≫= f) (n + cost) Q.
Proof.
  intros Hf. apply spends_call_bind. rewrite P_http. unfold cost. destruct b.
  - by replace (n + 1)%nat with (S n) by lia.
  - by replace (n + 0)%nat with n by lia.
Qed.

Lemma geocodeLocation_spends key location n (Q : result GeocodingResult.t -> nat -> Prop) :
  (forall r m, (n <= m)%nat -> Q r m) ->
  spends P (geocodeLocation key location) (n + cost) Q.
Proof.
  intros HQ. unfold geocodeLocation.
  destruct (String.eqb key ""); [apply HQ; lia|].
  apply spends_http. intros [resp|err]; [|by apply HQ].
  destruct (HttpResponse.Body resp); [|by apply HQ].
  destruct (negb _); [by apply HQ|].
  destruct (isZipCode location).
  - destruct (unmarshal_GeocodingResult _); by apply HQ.
  - destruct (unmarshal_GeocodingResults _) as [[|? ?]|]; by apply HQ.
Qed.

Lemma getForecastWeather_spends key lat lon days n (Q : result WeatherData.t -> nat -> Prop) :
  (forall r m, (n <= m)%nat -> Q r m) ->
  spends P (getForecastWeather key lat lon days) (n + cost) Q.
Proof.
  intros HQ. unfold getForecastWeather.
  apply spends_http. intros [resp|err]; [|by apply HQ].
  destruct (HttpResponse.Body resp); [|by apply HQ].
  destruct (negb _); [by apply HQ|].
  destruct (unmarshal_ForecastResponse _); [|by apply HQ].
  destruct (_ =? _)%nat; [by apply HQ|].
  destruct (_ !! _); [by apply HQ|done].
Qed.

Lemma getHistoricalWeather_spends key lat lon targetDate n
    (Q : result WeatherData.t -> nat -> Prop) :
  (forall r m, (n <= m)%nat -> Q r m) ->
  spends P (getHistoricalWeather key lat lon targetDate) (n + cost) Q.
Proof.
  intros HQ. unfold getHistoricalWeather.
  destruct (String.eqb key ""); [apply HQ; lia|].
  apply spends_call_bind. rewrite P_now. intros now.
  destruct (Time.Before _ _); [apply HQ; lia|].
  destruct (Time.After _ _).
  - destruct (_ >? _); [apply HQ; lia|]. by apply getForecastWeather_spends.
  - destruct (Time.civil_from_days _) as [[year month] day].
    apply spends_http. intros [resp|err]; [|by apply HQ].
    destruct (HttpResponse.Body resp); [|by apply HQ].
    destruct (negb _); [by apply HQ|].
    destruct (unmarshal_HistoricalWeatherResponse _); [|by apply HQ].
    destruct (_ =? _)%nat; by apply HQ.
Qed.

(** The weather run: two remote calls at most, both to the weather
    provider. *)
Lemma processWeatherRequest_at_most key requestID location targetDate :
  at_most P (cost + cost) (processWeatherRequest key requestID location targetDate).
Proof.
  unfold at_most, processWeatherRequest.
  apply spends_bind, geocodeLocation_spends. intros [geoResult|err] m Hm; [|apply spends_error].
  apply spends_exec; [done|]. intros [e|]; [done|].
  apply spends_exec; [done|]. intros _.
  apply spends_bind.
  eapply spends_mono with (n := (0 + cost)%nat);
    [lia| |apply getHistoricalWeather_spends with (Q := fun _ _ => True); done].
  intros [weatherData|err] k k' _ _; [|apply spends_error].
  apply spends_call_bind. rewrite P_query. intros [req|err]; [|apply spends_error].
  apply spends_exec; [done|]. intros [e|]; [apply spends_error|done].
Qed.

End Counting.

(** ** At most one transform job *)







Section OneJob.
Context `{Codec} (key : string).







End OneJob.

(** ** One run against scripted answers *)

Lemma handle_effect_step (o : Oracle) {A} (e : effect A) (w : World) :
  exists spawned,
    effect_step e (w_now w) (w_db w) (handle o e w).1 (w_db (handle o e w).2) spawned
    /\ w_tasks (handle o e w).2 = w_tasks w ++ spawned.
Proof.
  destruct e; cbn [handle log effect_step fst snd w_db w_tasks w_now];
    try (exists []; rewrite app_nil_r; by repeat split).
  by eexists.
Qed.

Lemma handle_trace (o : Oracle) {A} (e : effect A) (w : World) :
  w_trace (handle o e w).2 = w_trace w ++ [Ev e].
Proof. by destruct e. Qed.

Lemma run_trace {R} (o : Oracle) (p : prog R) : forall w,
  w_trace (run o p w).2 = w_trace w ++ performed o p w.
Proof.
  unfold performed. induction p as [r|msg|A e k IH]; intros w; cbn [run snd].
  - by rewrite drop_all, app_nil_r.
  - by rewrite drop_all, app_nil_r.
  - rewrite IH, handle_trace, <- app_assoc. by rewrite drop_app_length.
Qed.

Lemma performed_vis {R A} (o : Oracle) (e : effect A) (k : A -> prog R) (w : World) :
  performed o (Vis e k) w = Ev e :: performed o (k (handle o e w).1) (handle o e w).2.
Proof.
  unfold performed at 1. cbn [run]. rewrite run_trace, handle_trace, <- app_assoc.
  by rewrite drop_app_length.
Qed.

(** A program that stays within its allowance does so on every run. *)
Lemma spends_run {R} P (o : Oracle) (p : prog R) : forall n Q w,
  spends P p n Q ->
  (count P (performed o p w) <= n)%nat
  /\ match (run o p w).1 with
     | Returned r => Q r (n - count P (performed o p w))%nat
     | Panicked _ => True
     end.
Proof.
  unfold count.
  induction p as [r|msg|A e k IH]; intros n Q w; cbn [spends].
  - unfold performed. cbn [run fst snd]. rewrite drop_all. cbn.
    rewrite Nat.sub_0_r. split; [lia|done].
  - unfold performed. cbn [run fst snd]. rewrite drop_all. cbn. split; [lia|done].
  - rewrite performed_vis. cbn [run].
    destruct (P (Ev e)) eqn:HP.
    + destruct n as [|n]; [done|]. intros Hk.
      destruct (IH _ n Q (handle o e w).2 (Hk (handle o e w).1)) as [Hle Hout].
      rewrite filter_cons_True by done. cbn [length]. split; [lia|].
      destruct (run o _ _).1; [|done]. by replace (S n - S _)%nat with (n - length
        (filter (fun ev => P ev = true)
           (performed o (k (handle o e w).1) (handle o e w).2)))%nat by lia.
    + intros Hk.
      destruct (IH _ n Q (handle o e w).2 (Hk (handle o e w).1)) as [Hle Hout].
      rewrite filter_cons_False by (by rewrite HP). done.
Qed.

Lemma at_most_run {R} P (o : Oracle) (p : prog R) n w :
  at_most P n p -> (count P (performed o p w) <= n)%nat.
Proof. intros Hp. by destruct (spends_run P o p n _ w Hp). Qed.

(** A program that returns on every answer returns on every run. *)
Lemma returns_run {R} (o : Oracle) (p : prog R) (Q : R -> Prop) : forall w,
  returns p Q -> exists r, (run o p w).1 = Returned r /\ Q r.
Proof.
  induction p as [r|msg|A e k IH]; intros w; cbn [returns run]; [by eexists|done|].
  intros Hk. apply IH, Hk.
Qed.

Lemma returns_bind {A B} (p : prog A) (f : A -> prog B) (Q : B -> Prop) :
  returns p (fun r => returns (f r) Q) -> returns (p ≫= f) Q.
Proof.
  induction p as [r|msg|T e k IH]; cbn [mbind prog_bind bind returns]; [done|done|].
  intros Hk a. apply IH, Hk.
Qed.

Lemma returns_mono {R} (p : prog R) (Q Q' : R -> Prop) :
  (forall r, Q r -> Q' r) -> returns p Q -> returns p Q'.
Proof.
  intros HQ. induction p as [r|msg|A e k IH]; cbn [returns]; [apply HQ|done|].
  intros Hk a. apply IH, Hk.
Qed.

(** What [wp] promises holds on every run: the goroutines are those of
    before, the request exists afterwards if and only if it did, and the
    last status written is the one of the table. *)
Lemma wp_run {R} E id (o : Oracle) (p : prog R) : forall st Q w,
  wp E id p st Q ->
  w_db w !! id = None \/ Store.status id (w_db w) = st ->
  w_tasks (run o p w).2 = w_tasks w
  /\ (w_db (run o p w).2 !! id = None <-> w_db w !! id = None)
  /\ match (run o p w).1 with
     | Returned r =>
         exists st', Q r st'
           /\ (w_db (run o p w).2 !! id = None \/ Store.status id (w_db (run o p w).2) = st')
     | Panicked _ => True
     end.
Proof.
  induction p as [r|msg|A e k IH]; intros st Q w; cbn [wp run fst snd].
  - intros HQ Hst. split; [done|]. split; [done|]. by exists st.
  - done.
  - intros Hw Hst.
    destruct (handle_effect_step o e w) as (spawned & He & Ht).
    destruct (wp_effect_step _ _ _ _ _ _ _ _ _ _ Hw He) as [-> [[HK Hdb]|Hb]].
    + rewrite app_nil_r in Ht.
      destruct (IH _ st Q (handle o e w).2 HK) as (Ht' & Hex & Hout).
      { rewrite Hdb, (status_lookup _ _ _ Hdb). done. }
      split; [congruence|]. split; [by rewrite Hex, Hdb|done].
    + rewrite app_nil_r in Ht.
      destruct Hb as (a0 & b & -> & Hb & HK & Hrow).
      destruct (IH _ (Some b) Q (handle o e w).2 HK) as (Ht' & Hex & Hout).
      { destruct Hrow as [[_ Hn]|[_ Hs]]; [by left|by right]. }
      split; [congruence|]. split; [|done]. rewrite Hex.
      destruct Hrow as [[Hn Hn']|[Hs Hs']]; [by rewrite Hn, Hn'|].
      split; intros Hn; [apply status_None in Hn; congruence|].
      rewrite Hn in Hs. by destruct Hs.
Qed.

(** A program that is quiet about a request leaves its row alone. *)
Lemma quiet_run (id : string) (o : Oracle) (p : prog unit) : forall w,
  quiet id p ->
  w_db (run o p w).2 !! id = w_db w !! id /\ w_tasks (run o p w).2 = w_tasks w.
Proof.
  unfold quiet. generalize (@None string). 
  induction p as [r|msg|A e k IH]; intros st w; cbn [wp run fst snd]; [done|done|].
  intros Hw.
  destruct (handle_effect_step o e w) as (spawned & He & Ht).
  destruct (wp_effect_step _ _ _ _ _ _ _ _ _ _ Hw He) as [-> [[HK Hdb]|Hb]].
  - rewrite app_nil_r in Ht. destruct (IH _ _ (handle o e w).2 HK) as [Hdb' Ht'].
    split; congruence.
  - by destruct Hb as (? & ? & _ & ? & _).
Qed.

Lemma returns_call {A B} (e : effect A) (f : A -> prog B) (Q : B -> Prop) :
  (forall a, returns (f a) Q) -> returns (call e ≫= f) Q.
Proof. done. Qed.

Section Returns.
Context `{Codec}.

Lemma geocodeLocation_returns key location :
  returns (geocodeLocation key location) (fun _ => True).
Proof.
  unfold geocodeLocation. destruct (String.eqb key ""); [done|].
  cbn [returns bind mbind prog_bind call]. intros [resp|err]; [|done].
  destruct (HttpResponse.Body resp); [|done]. destruct (negb _); [done|].
  destruct (isZipCode location).
  - by destruct (unmarshal_GeocodingResult _).
  - by destruct (unmarshal_GeocodingResults _) as [[|? ?]|].
Qed.

(** The index [len(List)-1] is in range where it is used. *)
Lemma getForecastWeather_returns key lat lon days :
  returns (getForecastWeather key lat lon days) (fun _ => True).
Proof.
  unfold getForecastWeather.
  cbn [returns bind mbind prog_bind call]. intros [resp|err]; [|done].
  destruct (HttpResponse.Body resp); [|done]. destruct (negb _); [done|].
  destruct (unmarshal_ForecastResponse _) as [forecastData|]; [|done].
  destruct (Nat.eqb_spec (length (ForecastResponse.List forecastData)) 0) as [|Hlen]; [done|].
  destruct (_ !! _) eqn:Hl; [done|]. apply lookup_ge_None in Hl. lia.
Qed.

Lemma getHistoricalWeather_returns key lat lon targetDate :
  returns (getHistoricalWeather key lat lon targetDate) (fun _ => True).
Proof.
  unfold getHistoricalWeather. destruct (String.eqb key ""); [done|].
  cbn [returns bind mbind prog_bind call]. intros now.
  destruct (Time.Before _ _); [done|].
  destruct (Time.After _ _).
  - destruct (_ >? _); [done|]. apply getForecastWeather_returns.
  - destruct (Time.civil_from_days _) as [[year month] day].
    cbn [returns bind mbind prog_bind call]. intros [resp|err]; [|done].
    destruct (HttpResponse.Body resp); [|done]. destruct (negb _); [done|].
    destruct (unmarshal_HistoricalWeatherResponse _); [|done].
    by destruct (_ =? _)%nat.
Qed.

Lemma processWeatherRequest_returns key requestID location targetDate :
  returns (processWeatherRequest key requestID location targetDate) (fun _ => True).
Proof.
  unfold processWeatherRequest, updateRequestError, updateRequestGeocode,
    updateRequestStatus, updateRequestWeather, getRequest.
  apply returns_bind. eapply returns_mono; [|apply geocodeLocation_returns].
  intros [geoResult|err] _; [|by apply returns_call].
  apply returns_call. intros [e|]; [done|].
  apply returns_call. intros _.
  apply returns_bind. eapply returns_mono; [|apply getHistoricalWeather_returns].
  intros [weatherData|err] _; [|by apply returns_call].
  apply returns_call. intros [req|err]; [|by apply returns_call].
  apply returns_call. intros [e|]; [by apply returns_call|done].
Qed.

(** Where the weather run leaves a request that exists. *)
Lemma processWeatherRequest_settles key id location targetDate a :
  wp any_edge id (processWeatherRequest key id location targetDate) (Some a)
    (fun _ st' => st' = Some "error" \/ st' = Some "weather_fetched").
Proof.
  unfold processWeatherRequest.
  unfold updateRequestError, updateRequestGeocode, updateRequestStatus,
    updateRequestWeather, getRequest.
  assert (He : forall x y, any_edge x y) by done.
  apply wp_bind, wp_geocodeLocation. intros [geo|err].
  - apply wp_write; [done|]. cbn [stmt_id stmt_status]. rewrite decide_True by done.
    eexists. split; [done|]. split; [done|].
    apply wp_write; [done|]. cbn [stmt_id stmt_status]. rewrite decide_True by done.
    eexists. split; [done|]. split; [done|].
    apply wp_bind, wp_getHistoricalWeather. intros [wd|err].
    + wp_step. intros [req|err].
      * apply wp_write; [done|]. cbn [stmt_id stmt_status]. rewrite decide_True by done.
        eexists. split; [done|]. split; [done|]. wp_step. by right.
      * apply wp_write; [done|]. cbn [stmt_id stmt_status]. rewrite decide_True by done.
        eexists. split; [done|]. split; [done|]. wp_step. by left.
    + apply wp_write; [done|]. cbn [stmt_id stmt_status]. rewrite decide_True by done.
      eexists. split; [done|]. split; [done|]. wp_step. by left.
  - apply wp_write; [done|]. cbn [stmt_id stmt_status]. rewrite decide_True by done.
    eexists. split; [done|]. split; [done|]. wp_step. by left.
Qed.

End Returns.

Ltac wp_write_any :=
  apply wp_write; [reflexivity|]; cbn [stmt_id stmt_status];
  rewrite decide_True by done; eexists; split; [reflexivity|]; split; [exact I|].

Lemma onStatus_settles id status st :
  wp any_edge id (onStatus id status) (Some st)
    (fun r st' => match r with Some _ => settled st' | None => st' = Some st end).
Proof.
  unfold onStatus, updateRequestError, updateRequestStatus, updateRequestResult,
    downloadImage, settled.
  destruct (String.eqb _ "succeeded").
  { apply wp_bind, wp_outputURL. intros url. destruct (String.eqb url "").
    - wp_write_any. wp_step. by right; left.
    - wp_step. intros [err|]; wp_write_any; wp_step; [by right; left|by left]. }
  destruct (String.eqb _ "failed"); [wp_write_any; wp_step; by right; left|].
  destruct (String.eqb _ "canceled"); [wp_write_any; wp_step; by right; right|].
  by wp_step.
Qed.

Lemma pollLoop_settles id predictionID n : forall st,
  wp any_edge id (pollLoop id predictionID n) (Some st)
    (fun r st' => if r : bool then settled st' else st' = Some st).
Proof.
  induction n as [|n IH]; intros st; [done|].
  cbn [pollLoop]. unfold getPredictionStatus. wp_step. intros _ [status|err]; [|apply IH].
  apply wp_bind. eapply wp_mono; [done| |apply onStatus_settles].
  intros [[]|] st' Hst'; [done|]. rewrite Hst'. apply IH.
Qed.

Lemma processImageWithReplicate_settles id a :
  wp any_edge id (processImageWithReplicate id) (Some a) (fun _ st' => settled st').
Proof.
  unfold processImageWithReplicate, getRequest, uploadFileToReplicate,
    createReplicatePrediction, updateRequestPredictionID, updateRequestError.
  generalize maxAttempts. intros n.
  assert (Herr : forall msg st,
            wp any_edge id (call (Exec (UpdateError id msg));; mret tt) (Some st)
              (fun _ st' => settled st')).
  { intros msg st. wp_write_any. wp_step. by right; left. }
  wp_step. intros [req|err]; [|apply Herr].
  wp_step. intros [imageURL|err]; [|apply Herr].
  wp_step. intros [prediction|err]; [|apply Herr].
  wp_write_any. apply wp_bind.
  eapply wp_mono; [done| |apply pollLoop_settles].
  intros [] st' Hst'; [done|]. rewrite Hst'. apply Herr.
Qed.

Section Runs.
Context `{Codec} (key : string).

(** X5: a background run (weather or processing) changes no request
    but its own and starts no goroutine, whatever the providers answer. *)
Theorem background_run_frame (task : Task) (o : Oracle) (w : World) (id : string) :
  task_id task <> id ->
  w_db (run o (task_prog key task) w).2 !! id = w_db w !! id
  /\ w_tasks (run o (task_prog key task) w).2 = w_tasks w.
Proof. intros Hne. apply quiet_run. by apply task_prog_quiet. Qed.

(** X6: the weather run never panics, and it leaves a request that
    exists in [error] or in [weather_fetched], never in between. *)
Theorem weather_run_settles (id location : string) (targetDate : Time.t)
    (o : Oracle) (w : World) (row : Row) :
  w_db w !! id = Some row ->
  let res := run o (processWeatherRequest key id location targetDate) w in
  res.1 = Returned tt
  /\ (Store.status id (w_db res.2) = Some "error"
      \/ Store.status id (w_db res.2) = Some "weather_fetched").
Proof.
  intros Hrow. cbv zeta.
  destruct (returns_run o _ _ w (processWeatherRequest_returns key id location targetDate))
    as ([] & Hret & _).
  split; [done|].
  pose proof (wp_run any_edge id o _ _ _ w
                (processWeatherRequest_settles key id location targetDate
                   (Store.text row "status"))) as Hwp.
  destruct Hwp as (_ & Hex & Hout).
  { right. unfold Store.status. by rewrite Hrow. }
  rewrite Hret in Hout.
  destruct Hout as (st' & HQ & [Hn|Hst]).
  - apply Hex in Hn. congruence.
  - rewrite Hst. done.
Qed.

End Runs.

(** X7: a processing run that returns leaves a request that exists in a
    terminal status: [completed], [error] or [cancelled]. *)
Theorem processing_run_settles (id : string) (o : Oracle) (w : World) (row : Row) :
  w_db w !! id = Some row ->
  let res := run o (processImageWithReplicate id) w in
  match res.1 with
  | Returned _ =>
      Store.status id (w_db res.2) = Some "completed"
      \/ Store.status id (w_db res.2) = Some "error"
      \/ Store.status id (w_db res.2) = Some "cancelled"
  | Panicked _ => True
  end.
Proof.
  intros Hrow. cbv zeta.
  pose proof (wp_run any_edge id o _ _ _ w
                (processImageWithReplicate_settles id (Store.text row "status"))) as Hwp.
  destruct Hwp as (_ & Hex & Hout).
  { right. unfold Store.status. by rewrite Hrow. }
  destruct (run o (processImageWithReplicate id) w).1; [|done].
  destruct Hout as (st' & HQ & [Hn|Hst]).
  - apply Hex in Hn. congruence.
  - rewrite Hst. exact HQ.
Qed.

(** ** The calls of a run *)

(** X8: a processing run uploads at most one file, submits at most one
    transform job and downloads at most one result; it never calls the
    weather provider and starts no goroutine. *)
Theorem processing_run_calls (id : string) (o : Oracle) (w : World) :
  let evs := performed o (processImageWithReplicate id) w in
  (count is_upload evs <= 1)%nat /\ (count is_submission evs <= 1)%nat
  /\ (count is_download evs <= 1)%nat
  /\ count is_http evs = 0%nat /\ count is_go evs = 0%nat.
Proof.
  cbv zeta. repeat split.
  - apply at_most_run, processImageWithReplicate_at_most; try done; intros; lia.
  - apply at_most_run, processImageWithReplicate_at_most; try done; intros; lia.
  - apply at_most_run, processImageWithReplicate_at_most; try done; intros; lia.
  - apply Nat.le_0_r, at_most_run, processImageWithReplicate_at_most; done.
  - apply Nat.le_0_r, at_most_run, processImageWithReplicate_at_most; done.
Qed.

(** X9: the weather run makes at most two remote calls, both to the
    weather provider; it never calls the transform provider, never
    sleeps, and starts no goroutine. *)
Theorem weather_run_calls `{Codec} (key id location : string) (targetDate : Time.t)
    (o : Oracle) (w : World) :
  let evs := performed o (processWeatherRequest key id location targetDate) w in
  (count is_remote evs <= 2)%nat /\ count is_transform_call evs = 0%nat
  /\ count is_sleep evs = 0%nat /\ count is_go evs = 0%nat.
Proof.
  cbv zeta. repeat split.
  - apply at_most_run. by apply (processWeatherRequest_at_most is_remote) with (b := true).
  - apply Nat.le_0_r, at_most_run.
    by apply (processWeatherRequest_at_most is_transform_call) with (b := false).
  - apply Nat.le_0_r, at_most_run.
    by apply (processWeatherRequest_at_most is_sleep) with (b := false).
  - apply Nat.le_0_r, at_most_run.
    by apply (processWeatherRequest_at_most is_go) with (b := false).
Qed.

(** ** The handlers, run to their reply *)

Ltac run_step :=
  cbn [run bind mbind prog_bind mret prog_ret call handle log fst snd
       w_db w_now w_polls w_tasks w_trace exec_stmt
       getRequest saveRequest updateRequestStatus].

Section Handlers.
Context (P : event -> bool).
Context (P_exec : forall s, stmt_ok s = true -> P (Ev (Exec s)) = false).
Context (P_query : forall i, P (Ev (Query i)) = false).
Context (P_go : forall t, P (Ev (Go t)) = false).
Context (P_id : forall n, P (Ev (GenerateID n)) = false).
Context (P_save : forall f i, P (Ev (SaveUploadedFile f i)) = false).

Lemma submitHandler_at_most `{Codec} r : at_most P 0 (submitHandler r).
Proof.
  unfold at_most, submitHandler, saveRequest.
  destruct (negb _); [done|]. destruct (HttpRequest.Form r); [|done].
  destruct (parse_date _); [|done]. destruct (HttpRequest.Photo r); [|done].
  apply spends_call_bind. rewrite P_id. intros [requestID|]; [|done].
  apply spends_call_bind. rewrite P_save. intros [imagePath|]; [|done].
  apply spends_call_bind. rewrite P_exec by stmt_ok_tac. intros [e|]; [done|].
  apply spends_call_bind. rewrite P_go. done.
Qed.

Lemma confirmHandler_at_most r : at_most P 0 (confirmHandler r).
Proof.
  unfold at_most, confirmHandler, updateRequestStatus, getRequest.
  destruct (negb _); [done|]. destruct (String.eqb _ "cancel").
  { apply spends_call_bind. by rewrite P_exec by stmt_ok_tac. }
  apply spends_call_bind. rewrite P_query. intros [req|]; [|done].
  destruct (negb _); [done|].
  apply spends_call_bind. rewrite P_exec by stmt_ok_tac. intros _.
  apply spends_call_bind. by rewrite P_go.
Qed.

End Handlers.

(** X10: the submission and confirmation handlers reply without
    calling a provider and without sleeping: the remote work is left to
    the goroutines they start. *)
Theorem handlers_never_wait `{Codec} (r : HttpRequest.t) (o : Oracle) (w : World) :
  count is_remote (performed o (submitHandler r) w) = 0%nat
  /\ count is_sleep (performed o (submitHandler r) w) = 0%nat
  /\ count is_remote (performed o (confirmHandler r) w) = 0%nat
  /\ count is_sleep (performed o (confirmHandler r) w) = 0%nat.
Proof.
  repeat split; apply Nat.le_0_r, at_most_run.
  - by apply submitHandler_at_most.
  - by apply submitHandler_at_most.
  - by apply confirmHandler_at_most.
  - by apply confirmHandler_at_most.
Qed.

Lemma confirm_run (o : Oracle) (r : HttpRequest.t) (w : World) :
  let id := HttpRequest.FormValue r "request_id" in
  let res := run o (confirmHandler r) w in
  if negb (String.eqb (HttpRequest.Method r) "POST") then
    res.1 = Returned (HttpError "Method not allowed" 405)
    /\ w_db res.2 = w_db w /\ w_tasks res.2 = w_tasks w
  else if String.eqb (HttpRequest.FormValue r "action") "cancel" then
    res.1 = Returned (Redirect "/start" 303)
    /\ w_db res.2 = Store.updateRequestStatus id "cancelled" (w_now w) (w_db w)
    /\ w_tasks res.2 = w_tasks w
  else
    match Store.status id (w_db w) with
    | None =>
        res.1 = Returned (HttpError "Request not found" 404)
        /\ w_db res.2 = w_db w /\ w_tasks res.2 = w_tasks w
    | Some st =>
        res.1 = Returned (Redirect ("/processing/" +:+ id) 303)
        /\ if String.eqb st "weather_fetched" then
             w_db res.2 = Store.updateRequestStatus id "confirmed" (w_now w) (w_db w)
             /\ w_tasks res.2 = w_tasks w ++ [TaskReplicate id]
           else w_db res.2 = w_db w /\ w_tasks res.2 = w_tasks w
    end.
Proof.
  cbv zeta. unfold confirmHandler.
  destruct (negb _); [done|]. destruct (String.eqb _ "cancel"); [done|].
  run_step. unfold Store.getRequest, Store.status.
  destruct (w_db w !! _) as [row|]; [|done].
  change (Request.Status (Store.scan row)) with (Store.text row "status").
  by destruct (String.eqb (Store.text row "status") "weather_fetched").
Qed.

(** X11: a confirmation that finds the request in any status but
    [weather_fetched], or does not find it, changes nothing in the store
    and starts nothing. *)
Theorem confirm_guard (o : Oracle) (r : HttpRequest.t) (w : World) :
  is_cancel r = false ->
  Store.status (HttpRequest.FormValue r "request_id") (w_db w) <> Some "weather_fetched" ->
  w_db (run o (confirmHandler r) w).2 = w_db w
  /\ w_tasks (run o (confirmHandler r) w).2 = w_tasks w.
Proof.
  intros Hc Hst. pose proof (confirm_run o r w) as Hrun. cbv zeta in Hrun.
  unfold is_cancel in Hc.
  destruct (String.eqb (HttpRequest.Method r) "POST"); cbn [negb andb] in *;
    [|by destruct Hrun as (_ & ? & ?)].
  rewrite Hc in Hrun.
  destruct (Store.status _ (w_db w)) as [st|]; [|by destruct Hrun as (_ & ? & ?)].
  destruct Hrun as [_ Hrun].
  destruct (String.eqb_spec st "weather_fetched") as [->|_]; [done|exact Hrun].
Qed.

Lemma confirm_guard_witness :
  w_db (run (Sample.oracle Sample.late_success)
          (confirmHandler (confirm_request "00a1" "confirm")) Sample.world).2
    = w_db Sample.world
  /\ w_tasks (run (Sample.oracle Sample.late_success)
                (confirmHandler (confirm_request "00a1" "confirm")) Sample.world).2
     = w_tasks Sample.world.
Proof.
  apply (confirm_guard (Sample.oracle Sample.late_success)
           (confirm_request "00a1" "confirm") Sample.world).
  - reflexivity.
  - vm_compute. discriminate.
Defined.

(** X12: confirming twice is confirming once: the second of two
    successive confirmations of a request changes nothing and starts
    nothing, whatever the status the first one found, and the two
    together start at most one processing run; they start exactly one
    when the two are POSTs and the first finds the request
    [weather_fetched]. *)
Theorem confirm_idempotent (o : Oracle) (r : HttpRequest.t) (w : World) :
  is_cancel r = false ->
  let w1 := (run o (confirmHandler r) w).2 in
  let w2 := (run o (confirmHandler r) w1).2 in
  w_db w2 = w_db w1 /\ w_tasks w2 = w_tasks w1
  /\ (w_tasks w2 = w_tasks w
      \/ w_tasks w2 = w_tasks w ++ [TaskReplicate (HttpRequest.FormValue r "request_id")])
  /\ (HttpRequest.Method r = "POST" ->
      Store.status (HttpRequest.FormValue r "request_id") (w_db w) = Some "weather_fetched" ->
      w_tasks w2 = w_tasks w ++ [TaskReplicate (HttpRequest.FormValue r "request_id")]).
Proof.
  intros Hc. cbv zeta.
  cut (let w1 := (run o (confirmHandler r) w).2 in
       let w2 := (run o (confirmHandler r) w1).2 in
       w_db w2 = w_db w1 /\ w_tasks w2 = w_tasks w1
       /\ (w_tasks w2 = w_tasks w
           \/ w_tasks w2 = w_tasks w ++ [TaskReplicate (HttpRequest.FormValue r "request_id")])).
  { cbv zeta. intros (Hdb & Ht & Hor). split; [exact Hdb|]. split; [exact Ht|].
    split; [exact Hor|]. intros HP Hst. rewrite Ht.
    pose proof (confirm_run o r w) as Hrun. cbv zeta in Hrun.
    unfold is_cancel in Hc. rewrite HP in Hrun, Hc.
    change (String.eqb "POST" "POST") with true in Hrun, Hc. cbn [negb andb] in Hrun, Hc.
    rewrite Hc, Hst in Hrun. by destruct Hrun as (_ & _ & ?). }
  cbv zeta.
  set (id := HttpRequest.FormValue r "request_id").
  set (w1 := (run o (confirmHandler r) w).2).
  pose proof (confirm_run o r w) as Hrun. pose proof (confirm_run o r w1) as Hrun'.
  cbv zeta in Hrun, Hrun'. fold id w1 in Hrun, Hrun'. unfold is_cancel in Hc.
  destruct (String.eqb (HttpRequest.Method r) "POST") eqn:HP; cbn [negb andb] in *.
  2: { destruct Hrun as (_ & Hdb & Ht), Hrun' as (_ & Hdb' & Ht').
       split; [done|]. split; [done|]. left. congruence. }
  rewrite Hc in Hrun, Hrun'.
  destruct (Store.status id (w_db w)) as [st|] eqn:Hst.
  2: { destruct Hrun as (_ & Hdb & Ht). rewrite Hdb, Hst in Hrun'.
       destruct Hrun' as (_ & Hdb' & Ht'). split; [congruence|]. split; [done|].
       left. congruence. }
  destruct Hrun as [_ Hrun].
  destruct (String.eqb_spec st "weather_fetched") as [->|Hne].
  - destruct Hrun as [Hdb Ht].
    assert (Hst' : Store.status id (w_db w1) = Some "confirmed").
    { rewrite Hdb.
      exact (exec_same (UpdateStatus id "confirmed") (w_now w) _ "weather_fetched"
               eq_refl Hst). }
    rewrite Hst' in Hrun'. destruct Hrun' as [_ [Hdb' Ht']].
    split; [done|]. split; [done|]. right. congruence.
  - destruct Hrun as [Hdb Ht]. rewrite Hdb, Hst in Hrun'. destruct Hrun' as [_ Hrun'].
    destruct (String.eqb_spec st "weather_fetched") as [|_]; [done|].
    destruct Hrun' as [Hdb' Ht']. split; [congruence|]. split; [done|]. left. congruence.
Qed.

Lemma confirm_idempotent_witness :
  let o := Sample.oracle Sample.late_success in
  let r := confirm_request "00a1" "confirm" in
  let w := world_of (Demo.with_status "weather_fetched") 0 in
  let w1 := (run o (confirmHandler r) w).2 in
  let w2 := (run o (confirmHandler r) w1).2 in
  Store.status "00a1" (w_db w) = Some "weather_fetched"
  /\ w_db w2 = w_db w1 /\ w_tasks w2 = w_tasks w1
  /\ w_tasks w2 = [TaskReplicate "00a1"].
Proof.
  cbv zeta.
  destruct (confirm_idempotent (Sample.oracle Sample.late_success)
              (confirm_request "00a1" "confirm")
              (world_of (Demo.with_status "weather_fetched") 0) eq_refl)
    as (Hdb & Ht & _ & Hone).
  split; [vm_compute; reflexivity|]. split; [exact Hdb|]. split; [exact Ht|].
  apply Hone; vm_compute; reflexivity.
Defined.

(** X13: a cancellation is not guarded: whatever the status of the
    request, terminal ones included, it becomes [cancelled]; no other
    request changes and no goroutine is started or stopped. *)
Theorem cancel_unguarded (o : Oracle) (r : HttpRequest.t) (w : World) (row : Row) :
  is_cancel r = true ->
  w_db w !! HttpRequest.FormValue r "request_id" = Some row ->
  let id := HttpRequest.FormValue r "request_id" in
  let res := run o (confirmHandler r) w in
  res.1 = Returned (Redirect "/start" 303)
  /\ Store.status id (w_db res.2) = Some "cancelled"
  /\ (forall id', id' <> id -> w_db res.2 !! id' = w_db w !! id')
  /\ w_tasks res.2 = w_tasks w.
Proof.
  intros Hc Hrow. cbv zeta.
  pose proof (confirm_run o r w) as Hrun. cbv zeta in Hrun. unfold is_cancel in Hc.
  apply andb_prop in Hc as [HP Hc]. rewrite HP, Hc in Hrun. cbn [negb] in Hrun.
  destruct Hrun as (Hout & Hdb & Ht). split; [done|]. rewrite Hdb.
  split; [|split; [|done]].
  - apply (exec_same (UpdateStatus (HttpRequest.FormValue r "request_id") "cancelled")
             (w_now w) _ (Store.text row "status") eq_refl).
    cbn [stmt_id]. unfold Store.status. by rewrite Hrow.
  - intros id' Hne. apply update_other. congruence.
Qed.

Lemma cancel_unguarded_witness :
  let r := confirm_request "00a1" "cancel" in
  let id := HttpRequest.FormValue r "request_id" in
  let res := run (Sample.oracle Sample.late_success) (confirmHandler r) Sample.world in
  res.1 = Returned (Redirect "/start" 303)
  /\ Store.status id (w_db res.2) = Some "cancelled"
  /\ (forall id', id' <> id -> w_db res.2 !! id' = w_db Sample.world !! id')
  /\ w_tasks res.2 = w_tasks Sample.world.
Proof.
  apply (cancel_unguarded (Sample.oracle Sample.late_success)
           (confirm_request "00a1" "cancel") Sample.world Sample.row).
  - reflexivity.
  - apply lookup_insert_eq.
Defined.

(** X14: a submission that is not answered by the redirect stored
    nothing and started nothing; one that is stored exactly one new
    request, [pending], under an id that was free, and started exactly
    one weather run for it with the location and the date of the form. *)
Theorem submit_outcome `{Codec} (o : Oracle) (r : HttpRequest.t) (w : World) :
  let res := run o (submitHandler r) w in
  (exists msg code, res.1 = Returned (HttpError msg code)
     /\ w_db res.2 = w_db w /\ w_tasks res.2 = w_tasks w)
  \/ (exists id imagePath targetDate,
        res.1 = Returned (Redirect ("/processing/" +:+ id) 303)
        /\ HttpRequest.Method r = "POST"
        /\ o_generateID o 16 = Ok id
        /\ parse_date (HttpRequest.FormValue r "date") = Ok targetDate
        /\ w_db w !! id = None
        /\ w_db res.2 = (Store.saveRequest (new_request r id imagePath) (w_now w) (w_db w)).2
        /\ Store.status id (w_db res.2) = Some "pending"
        /\ (forall id', id' <> id -> w_db res.2 !! id' = w_db w !! id')
        /\ w_tasks res.2
           = w_tasks w ++ [TaskWeather id (HttpRequest.FormValue r "location") targetDate]).
Proof.
  cbv zeta. unfold submitHandler, new_request, HttpRequest.FormValue.
  destruct (String.eqb_spec (HttpRequest.Method r) "POST") as [HP|_]; cbn [negb];
    [|left; by eexists _, _].
  destruct (HttpRequest.Form r) as [form|]; [|left; by eexists _, _].
  destruct (parse_date _) as [targetDate|] eqn:Hdate; [|left; by eexists _, _].
  destruct (HttpRequest.Photo r) as [filename|]; [|left; by eexists _, _].
  run_step. destruct (o_generateID o 16) as [requestID|] eqn:Hid; [|left; by eexists _, _].
  run_step. destruct (o_saveFile o filename requestID) as [imagePath|];
    [|left; by eexists _, _].
  run_step.
  destruct (Store.saveRequest _ (w_now w) (w_db w)) as [e db'] eqn:Hsave.
  unfold Store.saveRequest in Hsave. cbn [Request.ID] in Hsave.
  destruct (w_db w !! requestID) eqn:Hrow; injection Hsave as <- <-; cbn [fst snd]; run_step;
    [left; by eexists _, _|].
  right. exists requestID, imagePath, targetDate.
  do 5 (split; [done|]). unfold Store.saveRequest. cbn [Request.ID]. rewrite Hrow.
  cbn [snd]. split; [done|]. split; [|split; [|done]].
  - unfold Store.status. rewrite lookup_insert_eq. vm_compute. reflexivity.
  - intros id' Hne. by rewrite lookup_insert_ne.
Qed.


Lemma background_run_frame_witness :
  w_db (run (Sample.oracle Sample.late_success)
          (@task_prog Sample.codec "k" (TaskReplicate "00a1")) Sample.world).2 !! "00b2"
    = w_db Sample.world !! "00b2"
  /\ w_tasks (run (Sample.oracle Sample.late_success)
                (@task_prog Sample.codec "k" (TaskReplicate "00a1")) Sample.world).2
     = w_tasks Sample.world.
Proof.
  apply (@background_run_frame Sample.codec "k" (TaskReplicate "00a1")
           (Sample.oracle Sample.late_success) Sample.world "00b2").
  discriminate.
Defined.

Lemma weather_run_settles_witness :
  let res := run (Sample.oracle Sample.late_success)
               (@processWeatherRequest Sample.codec "k" "00a1" "Paris" (Time.Date 2024 1 18 0))
               Sample.world in
  res.1 = Returned tt
  /\ (Store.status "00a1" (w_db res.2) = Some "error"
      \/ Store.status "00a1" (w_db res.2) = Some "weather_fetched").
Proof.
  apply (@weather_run_settles Sample.codec "k" "00a1" "Paris" (Time.Date 2024 1 18 0)
           (Sample.oracle Sample.late_success) Sample.world Sample.row).
  apply lookup_insert_eq.
Defined.

Lemma processing_run_settles_witness :
  let res := run (Sample.oracle Sample.late_success) (processImageWithReplicate "00a1")
               Sample.world in
  match res.1 with
  | Returned _ =>
      Store.status "00a1" (w_db res.2) = Some "completed"
      \/ Store.status "00a1" (w_db res.2) = Some "error"
      \/ Store.status "00a1" (w_db res.2) = Some "cancelled"
  | Panicked _ => True
  end.
Proof.
  apply (processing_run_settles "00a1" (Sample.oracle Sample.late_success) Sample.world
           Sample.row).
  apply lookup_insert_eq.
Defined.

(** ** The store *)

Lemma set_columns_lookup (set : list (string * SqlValue)) (row : Row) (c : string) :
  Store.set_columns set row !! c
  = match assigned c set with Some v => Some v | None => row !! c end.
Proof.
  induction set as [|[c' v] set IH]; cbn [Store.set_columns foldr assigned fst snd]; [done|].
  destruct (String.eqb_spec c' c) as [->|Hne].
  - by rewrite lookup_insert_eq.
  - by rewrite lookup_insert_ne.
Qed.

(** The row an UPDATE leaves, column by column. *)
Lemma updated_row_lookup (set : list (string * SqlValue)) (now : Time.t) (row : Row)
    (c : string) :
  (<["updated_at" := SqlTime now]> (Store.set_columns set row)) !! c
  = match assigned c (("updated_at", SqlTime now) :: set) with
    | Some v => Some v
    | None => row !! c
    end.
Proof. exact (set_columns_lookup (("updated_at", SqlTime now) :: set) row c). Qed.

Ltac scan_fields :=
  unfold Store.scan, Store.text, Store.real, Store.int;
  rewrite !updated_row_lookup.

(** X15: a request saved under a free id is read back by [getRequest]
    with the inserted fields as given and every other field at its zero
    value; the other requests are as before. *)
Theorem save_get_round_trip (req : Request.t) (now : Time.t) (db : DB) :
  db !! Request.ID req = None ->
  (Store.saveRequest req now db).1 = None
  /\ Store.getRequest (Request.ID req) (Store.saveRequest req now db).2 = Ok (as_inserted req)
  /\ forall id, id <> Request.ID req ->
       Store.getRequest id (Store.saveRequest req now db).2 = Store.getRequest id db.
Proof.
  intros Hfree. unfold Store.saveRequest. rewrite Hfree. cbn [fst snd].
  split; [done|]. unfold Store.getRequest. split.
  - rewrite lookup_insert_eq. reflexivity.
  - intros id Hne. by rewrite lookup_insert_ne.
Qed.

Lemma save_get_round_trip_witness :
  (Store.saveRequest Demo.pending 0 ∅).1 = None
  /\ Store.getRequest (Request.ID Demo.pending) (Store.saveRequest Demo.pending 0 ∅).2
     = Ok (as_inserted Demo.pending)
  /\ forall id, id <> Request.ID Demo.pending ->
       Store.getRequest id (Store.saveRequest Demo.pending 0 ∅).2 = Store.getRequest id ∅.
Proof. apply (save_get_round_trip Demo.pending 0 ∅). apply lookup_empty. Defined.

(** The row that [updateRequestWeather] leaves, as [getRequest] scans it. *)
Lemma weather_row_scanned (id : string) (weatherData : WeatherData.t)
    (prompt : string) (now : Time.t) (db : DB) (req : Request.t) :
  Store.getRequest id db = Ok req ->
  Store.getRequest id (Store.updateRequestWeather id weatherData prompt now db)
    = Ok (with_weather req weatherData prompt).
Proof.
  unfold Store.getRequest, Store.updateRequestWeather.
  destruct (db !! id) as [row|] eqn:Hrow; [|done]. intros [= <-].
  rewrite (update_same _ _ _ _ _ Hrow). f_equal.
  unfold with_weather, precipitation_text. scan_fields. reflexivity.
Qed.

(** X16: after [updateRequestWeather] on a request that exists,
    [getRequest] returns it with the ten weather columns and the status
    replaced and every other field as before; the precipitation text
    names the rain when there is rain, the snow only when there is no
    rain, and is empty otherwise. *)
Theorem updateRequestWeather_read_back (id : string) (weatherData : WeatherData.t)
    (prompt : string) (now : Time.t) (db : DB) (req : Request.t) :
  Store.getRequest id db = Ok req ->
  Store.getRequest id (Store.updateRequestWeather id weatherData prompt now db)
    = Ok (with_weather req weatherData prompt).
Proof. exact (weather_row_scanned id weatherData prompt now db req). Qed.

Lemma updateRequestWeather_read_back_witness :
  Store.getRequest "00a1"
    (Store.updateRequestWeather "00a1" WeatherData.zero "p" 0 Sample.db)
  = Ok (with_weather (Store.scan Sample.row) WeatherData.zero "p").
Proof.
  apply (updateRequestWeather_read_back "00a1" WeatherData.zero "p" 0 Sample.db
           (Store.scan Sample.row)).
  unfold Store.getRequest, Sample.db. by rewrite lookup_insert_eq.
Defined.

(** No statement deletes a row or assigns a column fixed at creation. *)
Lemma exec_keeps (s : stmt) (now : Time.t) (db : DB) (id : string) (row : Row) :
  db !! id = Some row ->
  exists row', (exec_stmt s now db).2 !! id = Some row'
    /\ forall c, c ∈ fixed_columns -> row' !! c = row !! c.
Proof.
  intros Hrow.
  assert (Hupd : forall i set,
            (forall c, c ∈ fixed_columns -> assigned c (("updated_at", SqlTime now) :: set) = None) ->
            exists row', Store.update i set now db !! id = Some row'
              /\ forall c, c ∈ fixed_columns -> row' !! c = row !! c).
  { intros i set Hset. rewrite update_lookup. case_decide as Hi; [subst i|by eexists].
    rewrite Hrow. eexists. split; [done|]. intros c Hc.
    by rewrite updated_row_lookup, (Hset c Hc). }
  assert (Hcols : forall (P : string -> Prop),
            P "id" -> P "user_id" -> P "location_input" -> P "target_date" ->
            P "image_path" -> P "created_at" -> forall c, c ∈ fixed_columns -> P c).
  { intros P ? ? ? ? ? ? c Hc. unfold fixed_columns in Hc.
    rewrite !elem_of_cons, elem_of_nil in Hc.
    destruct Hc as [->|[->|[->|[->|[->|[->|[]]]]]]]; done. }
  destruct s; cbn [exec_stmt snd].
  - unfold Store.saveRequest. destruct (db !! Request.ID req) eqn:Hreq; cbn [snd]; [by eexists|].
    exists row. split; [|done]. rewrite lookup_insert_ne; [done|].
    intros Heq. rewrite Heq in Hreq. congruence.
  - apply Hupd. by apply Hcols.
  - apply Hupd. by apply Hcols.
  - apply Hupd. by apply Hcols.
  - apply Hupd. by apply Hcols.
  - apply Hupd. by apply Hcols.
  - apply Hupd. by apply Hcols.
Qed.

Lemma effect_step_keeps {A} (e : effect A) now (db : DB) a db' spawned id row :
  effect_step e now db a db' spawned -> db !! id = Some row ->
  exists row', db' !! id = Some row' /\ forall c, c ∈ fixed_columns -> row' !! c = row !! c.
Proof.
  intros He Hrow.
  destruct e; cbn [effect_step] in He;
    try (destruct He as (_ & -> & _); by exists row);
    try (destruct He as (-> & _); by exists row).
  destruct He as (_ & -> & _). by apply exec_keeps.
Qed.

Lemma atomic_keeps {R} now (p : prog R) : forall (db : DB) out db' spawned evs id row,
  atomic now p db out db' spawned evs -> db !! id = Some row ->
  exists row', db' !! id = Some row' /\ forall c, c ∈ fixed_columns -> row' !! c = row !! c.
Proof.
  induction p as [r|msg|A e k IH]; intros db out db' spawned evs id row; cbn [atomic].
  - intros (_ & -> & _) Hrow. by exists row.
  - intros (_ & -> & _) Hrow. by exists row.
  - intros (a & db1 & sp1 & sp2 & evs' & He & Hk & _) Hrow.
    destruct (effect_step_keeps _ _ _ _ _ _ _ _ He Hrow) as (row1 & Hrow1 & Hc1).
    destruct (IH _ _ _ _ _ _ _ _ Hk Hrow1) as (row' & Hrow' & Hc').
    exists row'. split; [done|]. intros c Hc. by rewrite Hc', Hc1.
Qed.

Lemma scan_fixed (row row' : Row) :
  (forall c, c ∈ fixed_columns -> row' !! c = row !! c) ->
  same_fixed (Store.scan row) (Store.scan row').
Proof.
  intros Hc. unfold same_fixed, Store.scan, Store.text. cbn.
  rewrite !Hc by (unfold fixed_columns; rewrite !elem_of_cons; naive_solver). done.
Qed.

Section Fixed.
Context `{Codec} (key : string).

Lemma sys_step_keeps (s s' : Sys) (l : label) (id : string) (row : Row) :
  sys_step key s l s' -> sys_db s !! id = Some row ->
  exists row', sys_db s' !! id = Some row'
    /\ forall c, c ∈ fixed_columns -> row' !! c = row !! c.
Proof.
  intros Hstep Hrow. destruct Hstep as
    [s n0 task A e k a now db' spawned Hl He
    |s r now out db' spawned evs Hat
    |s r now out db' spawned evs Hat]; cbn [sys_db after_handler].
  - by eapply effect_step_keeps.
  - by eapply atomic_keeps.
  - by eapply atomic_keeps.
Qed.

(** X17: whatever happens (requests of any kind, answers of any kind
    from the providers), a request is never deleted and its id, user id,
    location input, target date and image path stay as they were
    created. *)
Theorem fixed_fields (s s' : Sys) (id : string) (req : Request.t) :
  steps key any_step s s' ->
  Store.getRequest id (sys_db s) = Ok req ->
  exists req', Store.getRequest id (sys_db s') = Ok req' /\ same_fixed req req'.
Proof.
  intros Hs. revert req.
  assert (Hrows : forall row, sys_db s !! id = Some row ->
            exists row', sys_db s' !! id = Some row'
              /\ forall c, c ∈ fixed_columns -> row' !! c = row !! c).
  { induction Hs as [s|s l s' s'' _ Hstep _ IH]; intros row Hrow; [by exists row|].
    destruct (sys_step_keeps _ _ _ _ _ Hstep Hrow) as (row1 & Hrow1 & Hc1).
    destruct (IH _ Hrow1) as (row' & Hrow' & Hc').
    exists row'. split; [done|]. intros c Hc. by rewrite Hc', Hc1. }
  intros req. unfold Store.getRequest.
  destruct (sys_db s !! id) as [row|]; [|done]. intros [= <-].
  destruct (Hrows row eq_refl) as (row' & -> & Hc).
  eexists. split; [done|]. by apply scan_fixed.
Qed.

End Fixed.

Lemma demo_cancel_step :
  @sys_step Sample.codec "k" Demo.submitted (LConfirm Demo2.cancellation) Demo2.cancelled.
Proof.
  assert (Hat : @atomic HttpReply 5 (confirmHandler Demo2.cancellation) (sys_db Demo.submitted)
                  (Returned (Redirect "/start" 303))
                  (Store.updateRequestStatus "00a1" "cancelled" 5 (sys_db Demo.submitted))
                  [] [Ev (Exec (UpdateStatus "00a1" "cancelled"))]).
  { cbn [confirmHandler Demo2.cancellation confirm_request HttpRequest.Method
         HttpRequest.Form HttpRequest.FormValue String.eqb Ascii.eqb Bool.eqb negb].
    unfold updateRequestStatus. atomic_step.
    eexists None, _, [], [], _. split; [done|]. split; [|done].
    atomic_step. done. }
  exact (step_confirm "k" Demo.submitted Demo2.cancellation 5 _ _ _ _ Hat).
Qed.

Lemma fixed_fields_witness :
  exists req', Store.getRequest "00a1" (sys_db Demo2.cancelled) = Ok req'
    /\ same_fixed (as_inserted Demo.pending) req'.
Proof.
  apply (@fixed_fields Sample.codec "k" Demo.submitted Demo2.cancelled "00a1"
           (as_inserted Demo.pending)).
  - eapply steps_step; [exact I|apply demo_cancel_step|apply steps_refl].
  - reflexivity.
Defined.

Lemma weather_path_any s0 : weather_path any_edge s0.
Proof. by repeat split. Qed.

Lemma replicate_path_any s0 : replicate_path any_edge s0.
Proof. by repeat split. Qed.

Lemma performed_ret {R} (o : Oracle) (r : R) (w : World) : performed o (Ret r) w = [].
Proof. unfold performed. cbn [run snd]. by rewrite drop_all. Qed.

(** X18: a background run for a request that is not in the store
    changes nothing in the store; the processing run then stops after
    the failed lookup, before any call to the transform provider. *)
Theorem run_on_missing_request `{Codec} (key : string) (task : Task) (o : Oracle)
    (w : World) :
  w_db w !! task_id task = None ->
  w_db (run o (task_prog key task) w).2 = w_db w
  /\ forall id, task = TaskReplicate id ->
       performed o (task_prog key task) w
       = [Ev (Query id); Ev (Exec (UpdateError id "Failed to retrieve request details"))].
Proof.
  intros Hnone. split.
  - apply map_eq. intros i. destruct (decide (task_id task = i)) as [<-|Hne].
    + rewrite Hnone.
      assert (Hwp : wp any_edge (task_id task) (task_prog key task) (Some "")
                      (fun _ _ => True)).
      { destruct task; cbn [task_prog task_id].
        - apply processWeatherRequest_wp. intros _. eexists. split; [done|].
          apply weather_path_any.
        - apply processImageWithReplicate_wp. intros _. eexists. split; [done|].
          apply replicate_path_any. }
      destruct (wp_run _ _ o _ _ _ w Hwp (or_introl Hnone)) as (_ & Hex & _).
      by apply Hex.
    + apply quiet_run. by apply task_prog_quiet.
  - intros id ->. cbn [task_id task_prog] in *.
    unfold processImageWithReplicate, getRequest, updateRequestError.
    cbn [bind mbind prog_bind call]. rewrite performed_vis.
    cbn [handle log fst snd w_db]. unfold Store.getRequest. rewrite Hnone.
    cbn [bind mret prog_ret]. rewrite performed_vis. by rewrite performed_ret.
Qed.

Lemma run_on_missing_request_witness :
  w_db (run (Sample.oracle Sample.late_success)
          (@task_prog Sample.codec "k" (TaskReplicate "00b2")) Sample.world).2
    = w_db Sample.world
  /\ forall id, TaskReplicate "00b2" = TaskReplicate id ->
       performed (Sample.oracle Sample.late_success)
         (@task_prog Sample.codec "k" (TaskReplicate "00b2")) Sample.world
       = [Ev (Query id); Ev (Exec (UpdateError id "Failed to retrieve request details"))].
Proof.
  apply (@run_on_missing_request Sample.codec "k" (TaskReplicate "00b2")
           (Sample.oracle Sample.late_success) Sample.world).
  reflexivity.
Defined.

(** ** The pages *)

Lemma weatherHandler_run (o : Oracle) (id : string) (w : World) :
  (run o (weatherHandler id) w).1
  = match Store.getRequest id (w_db w) with
    | Err _ => Returned (Reply (HttpError "Request not found" 404))
    | Ok req =>
        if String.eqb (Request.Status req) "weather_fetched"
        then Returned (Page "confirm.html" (ConfirmData req))
        else Returned (Reply (Redirect ("/processing/" +:+ id) 303))
    end.
Proof.
  unfold weatherHandler. run_step.
  destruct (Store.getRequest id (w_db w)) as [req|]; [|done].
  by destruct (String.eqb _ _).
Qed.

(** X19: the confirmation page is shown for a request exactly when a
    confirmation of that request would start its processing run, and
    that is exactly when the status is [weather_fetched]; in every other
    case the page is replaced by the redirect to the processing page or,
    without the request, by a 404, and the confirmation changes nothing
    and starts nothing. *)
Theorem confirm_page_iff_run (o : Oracle) (r : HttpRequest.t) (w : World) :
  HttpRequest.Method r = "POST" ->
  HttpRequest.FormValue r "action" <> "cancel" ->
  let id := HttpRequest.FormValue r "request_id" in
  let page := (run o (weatherHandler id) w).1 in
  let after := (run o (confirmHandler r) w).2 in
  ((exists req, page = Returned (Page "confirm.html" (ConfirmData req)))
   <-> w_tasks after = w_tasks w ++ [TaskReplicate id])
  /\ (w_tasks after = w_tasks w ++ [TaskReplicate id]
      <-> Store.status id (w_db w) = Some "weather_fetched")
  /\ (Store.status id (w_db w) = Some "weather_fetched" ->
      exists req, Store.getRequest id (w_db w) = Ok req
        /\ page = Returned (Page "confirm.html" (ConfirmData req)))
  /\ (Store.status id (w_db w) <> Some "weather_fetched" ->
      page = Returned (Reply (match Store.status id (w_db w) with
                              | Some _ => Redirect ("/processing/" +:+ id) 303
                              | None => HttpError "Request not found" 404
                              end))
      /\ w_db after = w_db w /\ w_tasks after = w_tasks w).
Proof.
  intros HP Hc. cbv zeta. rewrite weatherHandler_run.
  pose proof (confirm_run o r w) as Hrun. cbv zeta in Hrun.
  rewrite HP in Hrun. change (String.eqb "POST" "POST") with true in Hrun.
  cbn [negb] in Hrun.
  apply String.eqb_neq in Hc. rewrite Hc in Hrun.
  assert (Hneq : forall (l : list Task) x, l <> l ++ [x]).
  { intros l x Heq. apply (f_equal length) in Heq.
    rewrite length_app in Heq. simpl in Heq. lia. }
  unfold Store.status, Store.getRequest in *.
  destruct (w_db w !! _) as [row|].
  - change (Request.Status (Store.scan row)) with (Store.text row "status").
    destruct Hrun as [_ Hrun].
    destruct (String.eqb_spec (Store.text row "status") "weather_fetched") as [Hst|Hst].
    + destruct Hrun as [_ Ht]. rewrite Hst. repeat split; try done.
      * intros _. by eexists.
      * intros _. by eexists.
    + destruct Hrun as [Hdb Ht]. rewrite Ht. repeat split; try done.
      * by intros [? ?].
      * intros Heq. by apply Hneq in Heq.
      * intros Heq. by apply Hneq in Heq.
      * intros [= Heq]. done.
      * intros [= Heq]. done.
  - destruct Hrun as (_ & Hdb & Ht). rewrite Ht. repeat split; try done.
    + by intros [? ?].
    + intros Heq. by apply Hneq in Heq.
    + intros Heq. by apply Hneq in Heq.
Qed.

Lemma confirm_page_iff_run_witness :
  let o := Sample.oracle Sample.late_success in
  let r := confirm_request "00a1" "confirm" in
  let w := world_of (Demo.with_status "weather_fetched") 0 in
  Store.status "00a1" (w_db w) = Some "weather_fetched"
  /\ (exists req, (run o (weatherHandler "00a1") w).1
                  = Returned (Page "confirm.html" (ConfirmData req)))
  /\ w_tasks (run o (confirmHandler r) w).2 = [TaskReplicate "00a1"].
Proof.
  cbv zeta.
  destruct (confirm_page_iff_run (Sample.oracle Sample.late_success)
              (confirm_request "00a1" "confirm")
              (world_of (Demo.with_status "weather_fetched") 0) eq_refl)
    as (Hpage & Hrun & _ & _); [discriminate|].
  assert (Hst : Store.status "00a1"
                  (w_db (world_of (Demo.with_status "weather_fetched") 0))
                = Some "weather_fetched") by (vm_compute; reflexivity).
  split; [exact Hst|]. split.
  - apply Hpage, Hrun, Hst.
  - apply Hrun, Hst.
Defined.

Lemma no_write_run {R} (o : Oracle) (p : prog R) : forall w,
  at_most is_write 0 p -> w_db (run o p w).2 = w_db w.
Proof.
  unfold at_most. induction p as [r|msg|A e k IH]; intros w; cbn [spends run snd];
    [done|done|].
  destruct (is_write (Ev e)) eqn:He; [done|]. intros Hk. rewrite IH by apply Hk.
  by destruct e.
Qed.

Lemma no_go_run {R} (o : Oracle) (p : prog R) : forall w,
  at_most is_go 0 p -> w_tasks (run o p w).2 = w_tasks w.
Proof.
  unfold at_most. induction p as [r|msg|A e k IH]; intros w; cbn [spends run snd];
    [done|done|].
  destruct (is_go (Ev e)) eqn:He; [done|]. intros Hk. rewrite IH by apply Hk.
  by destruct e.
Qed.

Lemma count_all (evs : list event) : count (fun _ => true) evs = length evs.
Proof.
  unfold count. induction evs as [|ev evs IH]; [done|].
  rewrite filter_cons_True by done. cbn [length]. by rewrite IH.
Qed.

Ltac page_count :=
  unfold at_most, home, startHandler, weatherHandler, processingHandler, statusHandler,
    imageHandler, getRequest;
  cbn [spends bind mbind prog_bind mret prog_ret call is_write is_go is_remote];
  intros; repeat case_match;
  cbn [spends bind mbind prog_bind mret prog_ret call is_write is_go is_remote];
  intros; repeat case_match; done.

(** X20: the handlers that render a page or serve a file change
    nothing: they perform at most two effects, none of them a write to
    the store, the start of a goroutine or a remote call. *)
Theorem pages_read_only (o : Oracle) (isNotExist : string -> bool) (id : string)
    (w : World) :
  Forall (fun p : prog Response =>
            w_db (run o p w).2 = w_db w /\ w_tasks (run o p w).2 = w_tasks w
            /\ count is_remote (performed o p w) = 0%nat
            /\ (length (performed o p w) <= 2)%nat)
    [home; startHandler; weatherHandler id; processingHandler id; statusHandler id;
     imageHandler isNotExist id].
Proof.
  assert (Hall : forall p : prog Response,
            at_most is_write 0 p -> at_most is_go 0 p -> at_most is_remote 0 p ->
            at_most (fun _ => true) 2 p ->
            w_db (run o p w).2 = w_db w /\ w_tasks (run o p w).2 = w_tasks w
            /\ count is_remote (performed o p w) = 0%nat
            /\ (length (performed o p w) <= 2)%nat).
  { intros p Hw Hg Hr Hl. split; [by apply no_write_run|]. split; [by apply no_go_run|].
    split; [by apply Nat.le_0_r, at_most_run|].
    rewrite <- count_all. by apply at_most_run. }
  repeat (apply List.Forall_cons); [..|apply List.Forall_nil]; apply Hall; page_count.
Qed.

(** ** The file an image request is answered with *)

Lemma odd_write_exec (s : stmt) : stmt_ok s = true -> is_odd_write (Ev (Exec s)) = false.
Proof. intros Hs. cbn [is_odd_write]. by rewrite Hs. Qed.

Lemma update_named (id : string) set now (db : DB) :
  (forall row, db !! id = Some row ->
     Store.text (<["updated_at" := SqlTime now]> (Store.set_columns set row)) "status"
       = "completed" ->
     Store.text (<["updated_at" := SqlTime now]> (Store.set_columns set row))
       "result_image_path" = resultPath id) ->
  ResultsNamed db -> ResultsNamed (Store.update id set now db).
Proof.
  intros Hnew Hdb i row'. rewrite update_lookup. case_decide as Hi; [subst i|apply Hdb].
  destruct (db !! id) as [row|] eqn:Hrow; [|done]. intros [= <-]. by apply Hnew.
Qed.

Lemma exec_named (s : stmt) (now : Time.t) (db : DB) :
  stmt_ok s = true -> ResultsNamed db -> ResultsNamed (exec_stmt s now db).2.
Proof.
  intros Hs Hdb. destruct s; cbn [exec_stmt snd stmt_ok] in *.
  - unfold Store.saveRequest. destruct (db !! Request.ID req) eqn:Hreq; [done|].
    cbn [snd]. intros i row.
    destruct (decide (Request.ID req = i)) as [<-|Hne]; [|rewrite lookup_insert_ne by done; apply Hdb].
    rewrite lookup_insert_eq. intros [= <-]. intros Hst. exfalso. revert Hst.
    change (Request.Status req = "completed" -> False).
    intros Hst. rewrite Hst in Hs. done.
  - apply update_named; [|done]. intros row.
    unfold Store.text. rewrite !updated_row_lookup. done.
  - apply update_named; [|done]. intros row.
    unfold Store.text. rewrite !updated_row_lookup. done.
  - apply update_named; [|done]. intros row.
    unfold Store.text. rewrite !updated_row_lookup. done.
  - apply update_named; [|done]. intros row.
    unfold Store.text. rewrite !updated_row_lookup. done.
  - apply update_named; [|done]. intros row _.
    unfold Store.text. rewrite !updated_row_lookup. cbn. intros ->. done.
  - apply update_named; [|done]. intros row _.
    unfold Store.text. rewrite !updated_row_lookup. cbn. intros _.
    by apply String.eqb_eq.
Qed.

Lemma effect_step_named {A R} (e : effect A) (k : A -> prog R) now (db : DB) a db' spawned :
  at_most is_odd_write 0 (Vis e k) -> effect_step e now db a db' spawned ->
  ResultsNamed db -> ResultsNamed db' /\ at_most is_odd_write 0 (k a).
Proof.
  unfold at_most. cbn [spends]. destruct (is_odd_write (Ev e)) eqn:Hodd; [done|].
  intros Hk He Hdb. split; [|apply Hk].
  destruct e; cbn [effect_step] in He;
    try (by destruct He as (_ & -> & _)); try (by destruct He as (-> & _)).
  destruct He as (_ & -> & _). apply exec_named; [|done].
  cbn [is_odd_write] in Hodd. by destruct (stmt_ok s).
Qed.

Lemma atomic_named {R} now (p : prog R) : forall (db : DB) out db' spawned evs,
  at_most is_odd_write 0 p -> atomic now p db out db' spawned evs ->
  ResultsNamed db -> ResultsNamed db'.
Proof.
  induction p as [r|msg|A e k IH]; intros db out db' spawned evs Hp; cbn [atomic].
  - by intros (_ & -> & _).
  - by intros (_ & -> & _).
  - intros (a & db1 & sp1 & sp2 & evs' & He & Hk & _) Hdb.
    destruct (effect_step_named _ _ _ _ _ _ _ Hp He Hdb) as [Hdb1 Hka].
    by eapply IH.
Qed.

Section Named.
Context `{Codec} (key : string).

Lemma task_prog_plain task : at_most is_odd_write 0 (task_prog key task).
Proof.
  destruct task; cbn [task_prog].
  - apply (processWeatherRequest_at_most is_odd_write) with (b := false);
      try done; apply odd_write_exec.
  - apply processImageWithReplicate_at_most; try done; apply odd_write_exec.
Qed.

Lemma Named_step (s s' : Sys) (l : label) : sys_step key s l s' -> Named s -> Named s'.
Proof.
  intros Hstep [Hdb Htasks]. destruct Hstep as
    [s n0 task A e k a now db' spawned Hl He
    |s r now out db' spawned evs Hat
    |s r now out db' spawned evs Hat].
  - destruct (effect_step_named _ _ _ _ _ _ _ (Htasks _ _ _ Hl) He Hdb) as [Hdb' Hka].
    split; [done|]. intros m task' p' Hl'. cbn [sys_tasks] in Hl'.
    apply lookup_app_Some in Hl' as [Hl'|[_ Hl']].
    + apply list_lookup_insert_Some in Hl' as [(-> & [= <- <-] & _)|[_ Hl']]; [done|].
      by eapply Htasks.
    + apply list_lookup_fmap_Some in Hl' as (t & [= -> ->] & _). apply task_prog_plain.
  - split.
    + eapply atomic_named; [|exact Hat|done].
      apply submitHandler_at_most; try done; apply odd_write_exec.
    + intros m task p Hl. cbn [after_handler sys_tasks] in Hl.
      apply lookup_app_Some in Hl as [Hl|[_ Hl]]; [by eapply Htasks|].
      apply list_lookup_fmap_Some in Hl as (t & [= -> ->] & _). apply task_prog_plain.
  - split.
    + eapply atomic_named; [|exact Hat|done].
      apply confirmHandler_at_most; try done; apply odd_write_exec.
    + intros m task p Hl. cbn [after_handler sys_tasks] in Hl.
      apply lookup_app_Some in Hl as [Hl|[_ Hl]]; [by eapply Htasks|].
      apply list_lookup_fmap_Some in Hl as (t & [= -> ->] & _). apply task_prog_plain.
Qed.

Lemma reachable_Named (s : Sys) : reachable key any_step s -> Named s.
Proof.
  induction 1 as [|s l s' _ IH _ Hs]; [|by eapply Named_step].
  split; [by intros id row Hl|by intros m task p Hl].
Qed.

(** X21: in every state the system can reach, an image request is
    answered with a file only for a request that is [completed], and the
    file is then the one named after the requested id,
    [data/results/<id>.jpg]: no other path can come out of the store. *)
Theorem image_served_by_id (s : Sys) (o : Oracle) (isNotExist : string -> bool)
    (id path : string) (now : Time.t) :
  reachable key any_step s ->
  (run o (imageHandler isNotExist id) (world_of s now)).1 = Returned (ServeFile path) ->
  path = resultPath id
  /\ Store.status id (sys_db s) = Some "completed"
  /\ isNotExist path = false.
Proof.
  intros Hr. destruct (reachable_Named s Hr) as [Hdb _].
  unfold imageHandler, world_of. run_step. unfold Store.getRequest, Store.status.
  destruct (sys_db s !! id) as [row|] eqn:Hrow; [|done].
  change (Request.Status (Store.scan row)) with (Store.text row "status").
  change (Request.ResultImagePath (Store.scan row))
    with (Store.text row "result_image_path").
  destruct (String.eqb_spec (Store.text row "status") "completed") as [Hst|_]; [|done].
  cbn [negb]. rewrite (Hdb _ _ Hrow Hst), Hst.
  destruct (isNotExist _) eqn:Hne; [done|]. intros [= <-]. done.
Qed.

End Named.

(** ** The computed steps are steps of the system *)

Lemma run_atomic {R} (o : Oracle) (p : prog R) : forall w,
  at_most is_sleep 0 p ->
  exists spawned,
    atomic (w_now w) p (w_db w) (run o p w).1 (w_db (run o p w).2) spawned (performed o p w)
    /\ w_tasks (run o p w).2 = w_tasks w ++ spawned.
Proof.
  unfold at_most. induction p as [r|msg|A e k IH]; intros w; cbn [spends atomic run fst snd].
  - intros _. exists []. rewrite performed_ret, app_nil_r. done.
  - intros _. exists []. unfold performed. cbn [run snd]. rewrite drop_all, app_nil_r. done.
  - destruct (is_sleep (Ev e)) eqn:Hsl; [done|]. intros Hk.
    destruct (handle_effect_step o e w) as (sp1 & He & Ht1).
    destruct (IH (handle o e w).1 (handle o e w).2 (Hk _)) as (sp2 & Hat & Ht2).
    assert (Hnow : w_now (handle o e w).2 = w_now w) by (by destruct e).
    rewrite Hnow in Hat. exists (sp1 ++ sp2). split.
    + eexists _, _, sp1, sp2, _. split; [exact He|]. split; [exact Hat|].
      split; [done|]. apply performed_vis.
    + by rewrite Ht2, Ht1, app_assoc.
Qed.

Section Exec.
Context `{Codec} (key : string).

Lemma sys_exec_step (o : Oracle) (now : Time.t) (l : label) (s : Sys) :
  sys_exec key o now l s = s \/ sys_step key s l (sys_exec key o now l s).
Proof.
  destruct l as [n|r|r]; cbn [sys_exec].
  - destruct (sys_tasks s !! n) as [[task [r|msg|A e k]]|] eqn:Hl; [by left|by left| |by left].
    right. destruct (handle_effect_step o e (world_at s now)) as (spawned & He & Ht).
    cbn [world_at w_tasks w_db w_now app] in Ht, He. rewrite Ht.
    by eapply step_task.
  - right.
    destruct (run_atomic o (submitHandler r) (world_at s now)) as (spawned & Hat & Ht).
    { apply submitHandler_at_most; done. }
    cbn [world_at w_tasks w_db w_now app] in Ht, Hat. rewrite Ht.
    rewrite (run_trace o (submitHandler r) (world_at s now)). cbn [world_at w_trace app].
    by eapply step_submit.
  - right.
    destruct (run_atomic o (confirmHandler r) (world_at s now)) as (spawned & Hat & Ht).
    { apply confirmHandler_at_most; done. }
    cbn [world_at w_tasks w_db w_now app] in Ht, Hat. rewrite Ht.
    rewrite (run_trace o (confirmHandler r) (world_at s now)). cbn [world_at w_trace app].
    by eapply step_confirm.
Qed.

Lemma sys_exec_all_reachable (o : Oracle) (schedule : list (Time.t * label)) : forall s,
  reachable key any_step s -> reachable key any_step (sys_exec_all key o schedule s).
Proof.
  unfold sys_exec_all. induction schedule as [|[now l] schedule IH]; intros s Hr; [done|].
  cbn [foldl fst snd]. apply IH.
  destruct (sys_exec_step o now l s) as [->|Hs]; [done|].
  by eapply reach_step.
Qed.


End Exec.



Lemma walk_reachable : @reachable Walk.codec "k" any_step Walk.final.
Proof. apply sys_exec_all_reachable, sys_exec_all_reachable, reach_init. Qed.

Lemma walk_completed :
  Store.status "00a1" (sys_db Walk.submitted) = Some "pending"
  /\ Store.status "00a1" (sys_db Walk.final) = Some "completed"
  /\ runs_started "00a1" Walk.final = 1%nat
  /\ jobs_submitted "00a1" Walk.final = 1%nat.
Proof. vm_compute. done. Qed.

Lemma image_served_by_id_witness :
  resultPath "00a1" = resultPath "00a1"
  /\ Store.status "00a1" (sys_db Walk.final) = Some "completed"
  /\ (fun _ : string => false) (resultPath "00a1") = false.
Proof.
  apply (@image_served_by_id Walk.codec "k" Walk.final Walk.oracle (fun _ => false)
           "00a1" (resultPath "00a1") Walk.noon).
  - apply walk_reachable.
  - vm_compute. reflexivity.
Defined.




(** ** Dates *)

(** The day count of the civil date of a day count is that day count. *)
Lemma civil_round_trip (z : Z) :
  let '(y, m, d) := Time.civil_from_days z in
  Time.days_from_civil y m d = z /\ 1 <= m <= 12 /\ 1 <= d <= 31.
Proof.
  unfold Time.civil_from_days, Time.days_from_civil. cbv zeta.
  set (z' := z + 719468).
  set (era := z' / 146097).
  set (doe := z' - era * 146097).
  assert (Hdoe : 0 <= doe < 146097).
  { subst doe era. pose proof (Z.div_mod z' 146097 ltac:(lia)).
    pose proof (Z.mod_pos_bound z' 146097 ltac:(lia)). lia. }
  assert (Hz : z = era * 146097 + doe - 719468) by (subst doe z'; lia).
  clearbody doe. clearbody era. clear z'.
  set (yoe := (doe - doe / 1460 + doe / 36524 - doe / 146096) / 365).
  assert (Hyoe : 0 <= yoe <= 399 /\ 0 <= doe - (365 * yoe + yoe / 4 - yoe / 100) <= 365).
  { subst yoe. Z.div_mod_to_equations; lia. }
  clearbody yoe.
  set (doy := doe - (365 * yoe + yoe / 4 - yoe / 100)) in *.
  assert (Hd : doe = yoe * 365 + yoe / 4 - yoe / 100 + doy) by (subst doy; lia).
  destruct Hyoe as (Hy & Hdoy). clearbody doy.
  set (mp := (5 * doy + 2) / 153).
  assert (Hmp : 0 <= mp <= 11) by (subst mp; Z.div_mod_to_equations; lia).
  assert (Hday : 1 <= doy - (153 * mp + 2) / 5 + 1 <= 31)
    by (subst mp; Z.div_mod_to_equations; lia).
  clearbody mp.
  assert (Hera : forall v, v = yoe + era * 400 -> v / 400 = era /\ v - era * 400 = yoe).
  { intros v ->. split; [Z.div_mod_to_equations; lia|lia]. }
  destruct (Z.ltb_spec mp 10).
  - destruct (Z.leb_spec (mp + 3) 2); [lia|].
    split; [|lia].
    destruct (Hera (yoe + era * 400 + 0) ltac:(lia)) as [-> ->].
    replace (mp + 3 - 3) with mp by lia. lia.
  - destruct (Z.leb_spec (mp - 9) 2); [|lia].
    split; [|lia].
    destruct (Hera (yoe + era * 400 + 1 - 1) ltac:(lia)) as [-> ->].
    replace (mp - 9 + 9) with mp by lia. lia.
Qed.

Lemma Date_month (y m d n : Z) :
  1 <= m <= 12 -> Time.Date y m d n = Time.days_from_civil y m d * Time.Day + n.
Proof.
  intros Hm. unfold Time.Date. cbv zeta.
  replace ((m - 1) / 12) with 0 by (Z.div_mod_to_equations; lia).
  replace ((m - 1) mod 12 + 1) with m by (Z.div_mod_to_equations; lia).
  by rewrite Z.add_0_r.
Qed.

Lemma days_from_civil_day (y m d n : Z) :
  Time.days_from_civil y m (d + n) = Time.days_from_civil y m d + n.
Proof. unfold Time.days_from_civil. cbv zeta. lia. Qed.

Lemma days_from_civil_year (y m d : Z) :
  1 <= m <= 12 ->
  Time.days_from_civil (y - 1) m d = Time.days_from_civil y m d - 365
  \/ Time.days_from_civil (y - 1) m d = Time.days_from_civil y m d - 366.
Proof.
  intros Hm. unfold Time.days_from_civil. cbv zeta.
  destruct (Z.leb_spec m 2).
  - set (Y := y - 1). replace (y - 1 - 1) with (Y - 1) by lia. clearbody Y.
    Z.div_mod_to_equations. lia.
  - Z.div_mod_to_equations. lia.
Qed.

Lemma day_split (x : Time.t) :
  x = x / Time.Day * Time.Day + x mod Time.Day /\ 0 <= x mod Time.Day < Time.Day.
Proof.
  change Time.Day with 86400000000000.
  pose proof (Z.div_mod x 86400000000000 ltac:(lia)).
  pose proof (Z.mod_pos_bound x 86400000000000 ltac:(lia)). lia.
Qed.

(** [AddDate(0, 0, n)] is [n] times 24 hours later. *)
Lemma AddDate_days (x : Time.t) (n : Z) : Time.AddDate x 0 0 n = x + n * Time.Day.
Proof.
  unfold Time.AddDate. pose proof (civil_round_trip (x / Time.Day)) as Hc.
  destruct (Time.civil_from_days _) as [[y m] d]. destruct Hc as (Hz & Hm & _).
  rewrite !Z.add_0_r, Date_month, days_from_civil_day, Hz by done.
  pose proof (day_split x). lia.
Qed.

(** [AddDate(-1, 0, 0)] is 365 or 366 days earlier. *)
Lemma AddDate_year (x : Time.t) :
  Time.AddDate x (-1) 0 0 = x - 365 * Time.Day
  \/ Time.AddDate x (-1) 0 0 = x - 366 * Time.Day.
Proof.
  unfold Time.AddDate. pose proof (civil_round_trip (x / Time.Day)) as Hc.
  destruct (Time.civil_from_days _) as [[y m] d]. destruct Hc as (Hz & Hm & _).
  rewrite !Z.add_0_r, Date_month by done.
  pose proof (day_split x).
  destruct (days_from_civil_year y m d Hm) as [Hy|Hy];
    change (y + -1) with (y + (-1)); replace (y + -1) with (y - 1) by lia;
    rewrite Hy, Hz; [left|right]; lia.
Qed.

Lemma AddDate_time_of_day (x : Time.t) (years : Z) :
  Time.AddDate x years 0 0 mod Time.Day = x mod Time.Day.
Proof.
  unfold Time.AddDate. destruct (Time.civil_from_days _) as [[y m] d].
  unfold Time.Date. cbv zeta.
  pose proof (day_split x) as [_ Hx].
  rewrite Z.add_comm, Z.mod_add by (change Time.Day with 86400000000000; lia).
  apply Z.mod_small. done.
Qed.

Lemma midnight_bounds (x : Time.t) : midnight x <= x < midnight x + 24 * Time.Hour.
Proof.
  unfold midnight. pose proof (day_split x). change (24 * Time.Hour) with Time.Day. lia.
Qed.

Lemma midnight_civil (x : Time.t) :
  let '(y, m, d) := Time.civil_from_days (x / Time.Day) in Time.Date y m d 0 = midnight x.
Proof.
  pose proof (civil_round_trip (x / Time.Day)) as Hc.
  destruct (Time.civil_from_days _) as [[y m] d]. destruct Hc as (Hz & Hm & _).
  rewrite Date_month, Hz by done. unfold midnight. lia.
Qed.

Lemma performed_mret {R} (o : Oracle) (r : R) (w : World) : performed o (mret r) w = [].
Proof. apply performed_ret. Qed.

Lemma performed_panic {R} (o : Oracle) msg (w : World) :
  performed o (@Panic R msg) w = [].
Proof. unfold performed. cbn [run snd]. by rewrite drop_all. Qed.

Lemma performed_call_bind {A R} (o : Oracle) (e : effect A) (f : A -> prog R) (w : World) :
  performed o (call e ≫= f) w = Ev e :: performed o (f (handle o e w).1) (handle o e w).2.
Proof. apply performed_vis. Qed.

Section Lookup.
Context `{Codec}.

Lemma getForecastWeather_performed key lat lon days (o : Oracle) (w : World) :
  performed o (getForecastWeather key lat lon days) w
  = [Ev (HttpGet (forecastURL key lat lon days))].
Proof.
  unfold getForecastWeather. rewrite performed_call_bind. f_equal.
  destruct (handle o _ w).1 as [resp|err]; [|apply performed_mret].
  destruct (HttpResponse.Body resp); [|apply performed_mret].
  destruct (negb _); [apply performed_mret|].
  destruct (unmarshal_ForecastResponse _); [|apply performed_mret].
  destruct (_ =? _)%nat; [apply performed_mret|].
  destruct (_ !! _); [apply performed_mret|apply performed_panic].
Qed.

(** Within 365 days back and less than 17 days ahead the provider is
    asked, once: for the UTC day that contains the target when the target
    is not in the future, for the whole days ahead otherwise. *)
Lemma weather_lookup_events key lat lon targetDate (o : Oracle) (w : World) :
  key <> "" ->
  w_now w - 365 * Time.Day <= targetDate < w_now w + 17 * Time.Day ->
  performed o (getHistoricalWeather key lat lon targetDate) w
  = [Ev Now; Ev (HttpGet (lookup_url key lat lon targetDate (w_now w)))].
Proof.
  intros Hkey [Hlo Hhi]. unfold getHistoricalWeather, lookup_url.
  apply String.eqb_neq in Hkey. rewrite Hkey.
  rewrite performed_call_bind. f_equal. cbn [handle log fst snd w_now].
  set (now := w_now w) in *.
  assert (Hb : Time.Before targetDate (Time.AddDate now (-1) 0 0) = false).
  { unfold Time.Before. apply Z.ltb_ge. destruct (AddDate_year now) as [-> | ->];
      change Time.Day with 86400000000000 in *; lia. }
  rewrite Hb. unfold Time.After.
  destruct (Z.ltb_spec now targetDate) as [Hfut|Hpast].
  - rewrite (proj2 (Z.leb_gt targetDate now)) by done.
    assert (Hd : (daysAhead targetDate now >? 16) = false).
    { destruct (daysAhead targetDate now >? 16) eqn:Hgt; [|done].
      apply daysAhead_over_16 in Hgt; lia. }
    rewrite Hd, getForecastWeather_performed. do 3 f_equal.
    rewrite daysAhead_value, Sub_nonneg by lia.
    rewrite Z.min_l by (change Time.Day with 86400000000000 in *; lia). done.
  - rewrite (proj2 (Z.leb_le targetDate now)) by done.
    pose proof (midnight_civil targetDate) as Hm.
    destruct (Time.civil_from_days _) as [[year month] day]. rewrite Hm.
    rewrite performed_call_bind. f_equal.
    destruct (handle o _ _).1 as [resp|err]; [|apply performed_mret].
    destruct (HttpResponse.Body resp); [|apply performed_mret].
    destruct (negb _); [apply performed_mret|].
    destruct (unmarshal_HistoricalWeatherResponse _); [|apply performed_mret].
    destruct (_ =? _)%nat; apply performed_mret.
Qed.

(** X22: for every target from 365 days back to less than 17 times 24
    hours ahead, the weather lookup asks the provider exactly once: the
    hourly history of the UTC calendar day that contains the target
    (from its midnight to the next) when the target is not in the future,
    the daily forecast for the whole days ahead otherwise. *)
Theorem weather_lookup_window (key : string) (lat lon : Q) (targetDate : Time.t)
    (o : Oracle) (w : World) :
  key <> "" ->
  w_now w - 365 * Time.Day <= targetDate < w_now w + 17 * Time.Day ->
  performed o (getHistoricalWeather key lat lon targetDate) w
  = [Ev Now; Ev (HttpGet (lookup_url key lat lon targetDate (w_now w)))]
  /\ midnight targetDate <= targetDate < midnight targetDate + 24 * Time.Hour.
Proof.
  intros Hkey Hwin. split; [by apply weather_lookup_events|apply midnight_bounds].
Qed.

Lemma day_ahead_index (now d : Z) :
  now mod Time.Day <> 0 -> 1 <= d ->
  (midnight now + d * Time.Day - now) / Time.Day = d - 1.
Proof.
  intros Hnow Hd. unfold midnight. pose proof (day_split now) as [Hx Hr].
  change Time.Day with 86400000000000 in *.
  set (q := now / 86400000000000) in *. set (r := now mod 86400000000000) in *.
  clearbody q r. subst now.
  replace (q * 86400000000000 + d * 86400000000000 - (q * 86400000000000 + r))
    with ((d - 1) * 86400000000000 + (86400000000000 - r)) by lia.
  rewrite Z.add_comm, Z.div_add by lia.
  rewrite Z.div_small by lia. lia.
Qed.

Lemma forecast_day_index_events (key : string) (lat lon : Q) (d : Z) (o : Oracle)
    (w : World) :
  key <> "" -> w_now w mod Time.Day <> 0 -> 1 <= d <= 17 ->
  performed o (getHistoricalWeather key lat lon (midnight (w_now w) + d * Time.Day)) w
  = [Ev Now; Ev (HttpGet (forecastURL key lat lon (d - 1)))].
Proof.
  intros Hkey Hnow Hd. pose proof (day_split (w_now w)) as [Hx Hr].
  assert (Hwin : w_now w < midnight (w_now w) + d * Time.Day < w_now w + 17 * Time.Day).
  { unfold midnight. change Time.Day with 86400000000000 in *. lia. }
  rewrite weather_lookup_events; [|done|change Time.Day with 86400000000000 in *; lia].
  unfold lookup_url. rewrite (proj2 (Z.leb_gt _ _)) by lia.
  rewrite day_ahead_index by lia. done.
Qed.

(** X23: unless the clock is exactly at midnight, for a target at
    midnight of the date [d] calendar days after today (1 to 17) the
    lookup counts [d - 1] days ahead: it asks for a forecast of [d]
    entries and uses the last of them. *)
Theorem forecast_day_index (key : string) (lat lon : Q) (d : Z) (o : Oracle) (w : World) :
  key <> "" -> w_now w mod Time.Day <> 0 -> 1 <= d <= 17 ->
  performed o (getHistoricalWeather key lat lon (midnight (w_now w) + d * Time.Day)) w
  = [Ev Now; Ev (HttpGet (forecastURL key lat lon (d - 1)))]
  /\ forecastURL key lat lon (d - 1)
     = "https://api.openweathermap.org/data/2.5/forecast/daily?lat=" +:+ Str.format_float 6 lat
       +:+ "&lon=" +:+ Str.format_float 6 lon +:+ "&cnt=" +:+ Str.format_int d
       +:+ "&units=metric&appid=" +:+ key.
Proof.
  intros Hkey Hnow Hd. split; [by apply forecast_day_index_events|].
  unfold forecastURL, Num.int_add. replace (d - 1 + 1) with d by lia.
  rewrite wrap64_id; [done|]. unfold Num.in_int64.
  change (2 ^ 63) with 9223372036854775808. lia.
Qed.

End Lookup.

Lemma weather_lookup_window_witness :
  performed (Sample.oracle Sample.late_success)
    (@getHistoricalWeather Sample.codec "k" 0 0 Dates.jan18) (Dates.world Dates.jan1_noon)
  = [Ev Now; Ev (HttpGet (lookup_url "k" 0 0 Dates.jan18
                            (w_now (Dates.world Dates.jan1_noon))))]
  /\ midnight Dates.jan18 <= Dates.jan18 < midnight Dates.jan18 + 24 * Time.Hour.
Proof.
  apply (@weather_lookup_window Sample.codec "k" 0 0 Dates.jan18
           (Sample.oracle Sample.late_success) (Dates.world Dates.jan1_noon)).
  - discriminate.
  - vm_compute. split; [discriminate|reflexivity].
Defined.

Lemma forecast_day_index_witness :
  performed (Sample.oracle Sample.late_success)
    (@getHistoricalWeather Sample.codec "k" 0 0
       (midnight (w_now (Dates.world Dates.jan1_noon)) + 16 * Time.Day))
    (Dates.world Dates.jan1_noon)
  = [Ev Now; Ev (HttpGet (forecastURL "k" 0 0 (16 - 1)))]
  /\ forecastURL "k" 0 0 (16 - 1)
     = "https://api.openweathermap.org/data/2.5/forecast/daily?lat=" +:+ Str.format_float 6 0
       +:+ "&lon=" +:+ Str.format_float 6 0 +:+ "&cnt=" +:+ Str.format_int 16
       +:+ "&units=metric&appid=" +:+ "k".
Proof.
  apply (@forecast_day_index Sample.codec "k" 0 0 16 (Sample.oracle Sample.late_success)
           (Dates.world Dates.jan1_noon)).
  - discriminate.
  - vm_compute. discriminate.
  - lia.
Defined.

Lemma startHandler_run (o : Oracle) (w : World) :
  (run o startHandler w).1
  = match o_generateID o 8 with
    | Err _ => Returned (Reply (HttpError "Failed to generate user ID" 500))
    | Ok userID =>
        Returned (Page "start.html"
                    (StartData userID
                       (Time.format_date (Time.AddDate (w_now w) (-1) 0 0))
                       (Time.format_date (Time.AddDate (w_now w) 0 0 16))))
    end.
Proof.
  unfold startHandler. rewrite run_bind, run_call. cbn [handle log fst snd].
  destruct (o_generateID o 8); [|reflexivity].
  rewrite run_bind, run_call. reflexivity.
Qed.

Lemma past_year_rejected `{Codec} (key : string) (lat lon : Q) (targetDate : Time.t)
    (o : Oracle) (w : World) :
  key <> "" -> targetDate < Time.AddDate (w_now w) (-1) 0 0 ->
  (run o (getHistoricalWeather key lat lon targetDate) w).1
  = Returned (Err (pastYearError (Time.AddDate (w_now w) (-1) 0 0))).
Proof.
  intros Hkey Hlt. unfold getHistoricalWeather. apply String.eqb_neq in Hkey. rewrite Hkey.
  rewrite run_bind, run_call. cbn [handle log fst snd w_now].
  unfold Time.Before. rewrite (proj2 (Z.ltb_lt _ _) Hlt). reflexivity.
Qed.

(** X24: the dates the start form offers, against the weather lookup
    at the same clock (not exactly at midnight, both read in UTC, the
    date strings parsed to their midnights as [time.Parse] does): the
    earliest date offered is rejected as more than a year old, and for
    the latest one, 16 days ahead, the lookup counts 15 days ahead. *)
Theorem start_form_dates `{Codec} (key : string) (lat lon : Q) (o : Oracle) (w : World)
    (userID minDate maxDate : string) (tmin tmax : Time.t) :
  key <> "" -> w_now w mod Time.Day <> 0 ->
  (run o startHandler w).1 = Returned (Page "start.html" (StartData userID minDate maxDate)) ->
  parse_date minDate = Ok tmin -> tmin = midnight (Time.AddDate (w_now w) (-1) 0 0) ->
  parse_date maxDate = Ok tmax -> tmax = midnight (Time.AddDate (w_now w) 0 0 16) ->
  minDate = Time.format_date (Time.AddDate (w_now w) (-1) 0 0)
  /\ maxDate = Time.format_date (Time.AddDate (w_now w) 0 0 16)
  /\ (run o (getHistoricalWeather key lat lon tmin) w).1
     = Returned (Err (pastYearError (Time.AddDate (w_now w) (-1) 0 0)))
  /\ performed o (getHistoricalWeather key lat lon tmax) w
     = [Ev Now; Ev (HttpGet (forecastURL key lat lon 15))].
Proof.
  intros Hkey Hnow Hstart _ -> _ ->.
  assert (Hdates : minDate = Time.format_date (Time.AddDate (w_now w) (-1) 0 0)
                   /\ maxDate = Time.format_date (Time.AddDate (w_now w) 0 0 16)).
  { rewrite startHandler_run in Hstart. destruct (o_generateID o 8); [|done].
    injection Hstart as _ <- <-. done. }
  destruct Hdates as [Hmin Hmax]. do 2 (split; [done|]). split.
  - apply past_year_rejected; [done|]. unfold midnight.
    pose proof (day_split (Time.AddDate (w_now w) (-1) 0 0)) as [Hx Hr].
    rewrite AddDate_time_of_day in *. lia.
  - rewrite AddDate_days.
    replace (midnight (w_now w + 16 * Time.Day)) with (midnight (w_now w) + 16 * Time.Day).
    + by apply forecast_day_index_events.
    + unfold midnight. rewrite Z.div_add by (change Time.Day with 86400000000000; lia). lia.
Qed.

Lemma start_form_dates_witness :
  "2023-01-17" = Time.format_date (Time.AddDate (w_now Form.world) (-1) 0 0)
  /\ "2024-02-02" = Time.format_date (Time.AddDate (w_now Form.world) 0 0 16)
  /\ (run (Sample.oracle Sample.late_success)
        (@getHistoricalWeather Form.codec "k" 0 0 (Time.Date 2023 1 17 0)) Form.world).1
     = Returned (Err (pastYearError (Time.AddDate (w_now Form.world) (-1) 0 0)))
  /\ performed (Sample.oracle Sample.late_success)
       (@getHistoricalWeather Form.codec "k" 0 0 (Time.Date 2024 2 2 0)) Form.world
     = [Ev Now; Ev (HttpGet (forecastURL "k" 0 0 15))].
Proof.
  apply (@start_form_dates Form.codec "k" 0 0 (Sample.oracle Sample.late_success)
           Form.world "00a1" "2023-01-17" "2024-02-02"
           (Time.Date 2023 1 17 0) (Time.Date 2024 2 2 0)).
  - discriminate.
  - vm_compute. discriminate.
  - vm_compute. reflexivity.
  - reflexivity.
  - vm_compute. reflexivity.
  - reflexivity.
  - vm_compute. reflexivity.
Defined.

(** ** The addresses of the geocoding requests *)

Lemma all_bytes_app P (a b : string) :
  all_bytes P (a +:+ b) = all_bytes P a && all_bytes P b.
Proof.
  induction a as [|c a IH]; [done|].
  change (String c a +:+ b) with (String c (a +:+ b)). cbn [all_bytes].
  by rewrite IH, andb_assoc.
Qed.

Lemma escape_byte_safe (c : ascii) : all_bytes url_safe (Str.escape_byte c) = true.
Proof. destruct c as [[] [] [] [] [] [] [] []]; vm_compute; reflexivity. Qed.

Lemma QueryEscape_safe (s : string) : all_bytes url_safe (Str.QueryEscape s) = true.
Proof.
  induction s as [|c s IH]; [done|].
  cbn [Str.QueryEscape]. by rewrite all_bytes_app, escape_byte_safe, IH.
Qed.

(** X25: whatever the location typed by the user, it enters the two
    geocoding addresses only as a run of letters, digits and [-_.~+%]
    between the fixed parameter name and the fixed [&...appid=] that
    follows: it cannot add or end a query parameter.  The API key itself
    is inserted as it is. *)
Theorem geocode_url_safe (key location : string) :
  exists escaped : string,
    all_bytes url_safe escaped = true
    /\ zipURL key location
       = "http://api.openweathermap.org/geo/1.0/zip?zip=" +:+ escaped +:+ "&appid=" +:+ key
    /\ directURL key location
       = "http://api.openweathermap.org/geo/1.0/direct?q=" +:+ escaped
         +:+ "&limit=1&appid=" +:+ key.
Proof. exists (Str.QueryEscape location). split; [apply QueryEscape_safe|done]. Qed.

(** ** What the weather run stores *)


Section Stage.
Context `{Codec} (key : string).






End Stage.


(** ** The day taken from a forecast *)

Section Forecast.
Context `{Codec}.

(** X27: for a target in the future and less than 17 times 24 hours
    ahead, when the provider answers the forecast request with status 200
    and a body that parses, the weather returned is the conversion of the
    last day of the list received, however many days the list holds (it
    is not compared with the number of days asked for). *)
Theorem forecast_takes_last_day (key : string) (lat lon : Q) (targetDate : Time.t)
    (o : Oracle) (w : World) (resp : HttpResponse.t) (body : string)
    (data : ForecastResponse.t) (days : list ForecastItem.t) (lastDay : ForecastItem.t) :
  key <> "" ->
  w_now w < targetDate < w_now w + 17 * Time.Day ->
  o_http o (forecastURL key lat lon ((targetDate - w_now w) / Time.Day)) = Ok resp ->
  HttpResponse.Body resp = Ok body ->
  HttpResponse.StatusCode resp = 200 ->
  unmarshal_ForecastResponse body = Ok data ->
  ForecastResponse.List data = days ++ [lastDay] ->
  (run o (getHistoricalWeather key lat lon targetDate) w).1
  = Returned (Ok (convertForecastToWeatherData lastDay)).
Proof.
  intros Hkey [Hlo Hhi] Hhttp Hbody Hcode Hdata Hlist.
  unfold getHistoricalWeather. apply String.eqb_neq in Hkey. rewrite Hkey.
  rewrite run_bind, run_call. cbn [handle log fst snd w_now].
  set (now := w_now w) in *.
  assert (Hb : Time.Before targetDate (Time.AddDate now (-1) 0 0) = false).
  { unfold Time.Before. apply Z.ltb_ge. destruct (AddDate_year now) as [-> | ->];
      change Time.Day with 86400000000000 in *; lia. }
  rewrite Hb. unfold Time.After. rewrite (proj2 (Z.ltb_lt now targetDate)) by done.
  assert (Hd : (daysAhead targetDate now >? 16) = false).
  { destruct (daysAhead targetDate now >? 16) eqn:Hgt; [|done].
    apply daysAhead_over_16 in Hgt; lia. }
  rewrite Hd, daysAhead_value, Sub_nonneg by lia.
  rewrite Z.min_l by (change Time.Day with 86400000000000 in *; lia).
  unfold getForecastWeather. rewrite run_bind, run_call.
  cbn [handle log fst snd]. rewrite Hhttp, Hbody, Hcode. cbn [negb Z.eqb Pos.eqb].
  rewrite Hdata, Hlist, length_app. cbn [length].
  replace (length days + 1 =? 0)%nat with false by (symmetry; apply Nat.eqb_neq; lia).
  replace (length days + 1 - 1)%nat with (length days) by lia.
  by rewrite list_lookup_middle.
Qed.

End Forecast.

Lemma forecast_takes_last_day_witness :
  (run Walk.oracle
     (@getHistoricalWeather Walk.codec "k" (4885 # 100) (235 # 100) (Time.Date 2024 1 20 0))
     Form.world).1
  = Returned (Ok (convertForecastToWeatherData Walk.day)).
Proof.
  apply (@forecast_takes_last_day Walk.codec "k" (4885 # 100) (235 # 100)
           (Time.Date 2024 1 20 0) Walk.oracle Form.world
           (HttpResponse.mk 200 "200 OK" (Ok "[]")) "[]"
           (ForecastResponse.mk "200" 1 [Walk.day]) [] Walk.day).
  - done.
  - vm_compute. split; reflexivity.
  - reflexivity.
  - reflexivity.
  - reflexivity.
  - reflexivity.
  - reflexivity.
Defined.

(** ** Overlapping confirmations *)

Lemma confirmHandler_confirming (r : HttpRequest.t) :
  HttpRequest.Method r = "POST" ->
  HttpRequest.FormValue r "action" <> "cancel" ->
  let id := HttpRequest.FormValue r "request_id" in
  confirmHandler r
  = Vis (Query id) (fun q =>
      match q with
      | Err _ => Ret (HttpError "Request not found" 404)
      | Ok req =>
          if negb (String.eqb (Request.Status req) "weather_fetched")
          then Ret (Redirect ("/processing/" +:+ id) 303)
          else Vis (Exec (UpdateStatus id "confirmed")) (fun _ =>
                 Vis (Go (TaskReplicate id)) (fun _ =>
                   Ret (Redirect ("/processing/" +:+ id) 303)))
      end).
Proof.
  intros HP Hc. cbv zeta. unfold confirmHandler. rewrite HP.
  change (String.eqb "POST" "POST") with true. cbn [negb].
  apply String.eqb_neq in Hc. rewrite Hc.
  unfold getRequest, updateRequestStatus, call.
  cbn [mbind prog_bind bind mret prog_ret]. f_equal.
Qed.

Lemma status_getRequest (id : string) (db : DB) (a : string) :
  Store.status id db = Some a ->
  exists req, Store.getRequest id db = Ok req /\ Request.Status req = a.
Proof.
  unfold Store.status, Store.getRequest. destruct (db !! id) as [row|]; [|done].
  intros [= <-]. by eexists.
Qed.

Section Race.
Context `{Codec} (key : string) (o : Oracle).

Lemma pool_run_cons (n : nat) (schedule : list nat) (s : Pool) :
  pool_run key o (n :: schedule) s = pool_run key o schedule (pool_step key o s n).
Proof. reflexivity. Qed.

Lemma pool_run_nil (s : Pool) : pool_run key o [] s = s.
Proof. reflexivity. Qed.

Lemma pool_step_handler (s : Pool) (n : nat) {A : Type} (e : effect A)
    (k : A -> prog HttpReply) :
  p_threads s !! n = Some (Handler (Vis e k)) ->
  pool_step key o s n
  = {| p_threads := <[n := Handler (k (handle o e (p_world s)).1)]> (p_threads s)
                      ++ (goroutine key <$> started e);
       p_world := (handle o e (p_world s)).2 |}.
Proof. intros Hn. unfold pool_step. by rewrite Hn. Qed.

Lemma pool_step_background (s : Pool) (n : nat) (task : Task) {A : Type} (e : effect A)
    (k : A -> prog unit) :
  p_threads s !! n = Some (Background task (Vis e k)) ->
  pool_step key o s n
  = {| p_threads := <[n := Background task (k (handle o e (p_world s)).1)]> (p_threads s)
                      ++ (goroutine key <$> started e);
       p_world := (handle o e (p_world s)).2 |}.
Proof. intros Hn. unfold pool_step. by rewrite Hn. Qed.

Ltac pool_simpl :=
  cbn [p_threads p_world insert list_insert app fmap list_fmap started goroutine
       task_prog handle log fst snd w_db w_now w_polls w_tasks w_trace exec_stmt
       processImageWithReplicate getRequest uploadFileToReplicate
       createReplicatePrediction updateRequestPredictionID updateRequestError call
       mbind prog_bind bind mret prog_ret].
Ltac handler_step :=
  rewrite pool_run_cons; erewrite pool_step_handler by reflexivity;
  rewrite ?pool_run_nil; pool_simpl.
Ltac background_step :=
  rewrite pool_run_cons; erewrite pool_step_background by reflexivity;
  rewrite ?pool_run_nil; pool_simpl.

(** X28: the check of a confirmation does not hold against a second
    confirmation served at the same time.  When two confirming POSTs for a
    request that is [weather_fetched] are under way together and both
    read the status before either writes it, both pass the check: with a
    provider that accepts uploads and jobs, there is an interleaving in
    which the status is written [confirmed] over [processing], two
    processing runs are started and two transform jobs are submitted for
    the one request. *)
Theorem overlapping_confirmations (r : HttpRequest.t) (w : World) :
  HttpRequest.Method r = "POST" ->
  HttpRequest.FormValue r "action" <> "cancel" ->
  let id := HttpRequest.FormValue r "request_id" in
  Store.status id (w_db w) = Some "weather_fetched" ->
  (forall path, exists url, o_upload o path = Ok url) ->
  (forall prompt url, exists prediction, o_create o prompt url = Ok prediction) ->
  let start := {| p_threads := [Handler (confirmHandler r); Handler (confirmHandler r)];
                  p_world := w |} in
  let s1 := pool_run key o [0; 1; 0; 0; 2; 2; 2; 2]%nat start in
  let s2 := pool_run key o [1]%nat s1 in
  let s3 := pool_run key o [1; 3; 3; 3]%nat s2 in
  Store.status id (w_db (p_world s1)) = Some "processing"
  /\ Store.status id (w_db (p_world s2)) = Some "confirmed"
  /\ w_tasks (p_world s3) = w_tasks w ++ [TaskReplicate id; TaskReplicate id]
  /\ count is_submission (w_trace (p_world s3)) = (count is_submission (w_trace w) + 2)%nat.
Proof.
  intros HP Hc id Hst Hup Hcr. cbv zeta.
  rewrite (confirmHandler_confirming r HP Hc). fold id.
  destruct (status_getRequest id _ _ Hst) as (req & Hget & Hreq).
  handler_step. rewrite Hget, Hreq. change (String.eqb "weather_fetched" "weather_fetched") with true.
  cbn [negb].
  handler_step. rewrite Hget, Hreq. change (String.eqb "weather_fetched" "weather_fetched") with true.
  cbn [negb].
  handler_step. handler_step.
  set (db1 := Store.updateRequestStatus id "confirmed" (w_now w) (w_db w)).
  assert (Hst1 : Store.status id db1 = Some "confirmed")
    by exact (exec_same (UpdateStatus id "confirmed") (w_now w) _ _ eq_refl Hst).
  clearbody db1.
  destruct (status_getRequest id _ _ Hst1) as (req1 & Hget1 & _).
  unfold goroutine. pool_simpl.
  background_step. rewrite Hget1.
  destruct (Hup (Request.ImagePath req1)) as [url1 Hurl1].
  background_step. rewrite Hurl1.
  destruct (Hcr (Request.AIPrompt req1) url1) as [pred1 Hpred1].
  background_step. rewrite Hpred1.
  background_step.
  set (db2 := Store.updateRequestPredictionID id (ReplicatePrediction.ID pred1) (w_now w) db1).
  assert (Hst2 : Store.status id db2 = Some "processing")
    by exact (exec_same (UpdatePredictionID id (ReplicatePrediction.ID pred1)) (w_now w) _ _
                eq_refl Hst1).
  clearbody db2. split; [exact Hst2|].
  handler_step.
  set (db3 := Store.updateRequestStatus id "confirmed" (w_now w) db2).
  assert (Hst3 : Store.status id db3 = Some "confirmed")
    by exact (exec_same (UpdateStatus id "confirmed") (w_now w) _ _ eq_refl Hst2).
  clearbody db3. split; [exact Hst3|].
  destruct (status_getRequest id _ _ Hst3) as (req3 & Hget3 & _).
  handler_step.
  unfold goroutine. pool_simpl.
  background_step. rewrite Hget3.
  destruct (Hup (Request.ImagePath req3)) as [url3 Hurl3].
  background_step. rewrite Hurl3.
  background_step.
  split; [by rewrite <- app_assoc|].
  unfold count. rewrite !filter_app, !length_app. cbn.
  repeat first [rewrite decide_False by done | rewrite decide_True by done].
  cbn [length]. lia.
Qed.

End Race.

Lemma overlapping_confirmations_witness :
  let o := Sample.oracle Sample.late_success in
  let r := confirm_request "00a1" "confirm" in
  let w := world_of (Demo.with_status "weather_fetched") 0 in
  let start := {| p_threads := [Handler (confirmHandler r); Handler (confirmHandler r)];
                  p_world := w |} in
  let s1 := @pool_run Sample.codec "k" o [0; 1; 0; 0; 2; 2; 2; 2]%nat start in
  let s2 := @pool_run Sample.codec "k" o [1]%nat s1 in
  let s3 := @pool_run Sample.codec "k" o [1; 3; 3; 3]%nat s2 in
  Store.status "00a1" (w_db (p_world s1)) = Some "processing"
  /\ Store.status "00a1" (w_db (p_world s2)) = Some "confirmed"
  /\ w_tasks (p_world s3) = w_tasks w ++ [TaskReplicate "00a1"; TaskReplicate "00a1"]
  /\ count is_submission (w_trace (p_world s3)) = (count is_submission (w_trace w) + 2)%nat.
Proof.
  apply (@overlapping_confirmations Sample.codec "k" (Sample.oracle Sample.late_success)
           (confirm_request "00a1" "confirm")
           (world_of (Demo.with_status "weather_fetched") 0)).
  - reflexivity.
  - discriminate.
  - vm_compute. reflexivity.
  - intros path. eexists. reflexivity.
  - intros prompt url. eexists. reflexivity.
Defined.
